(** * OData v4 server: typed controller / service layer

    A shallow embedding of the CRUD entry points of [TypedService], of
    the older [TypedController] (src/lib/typeorm/controller.ts), of the
    entity-to-controller registry, of [ODataResult] and the constructor
    of [ODataStream] (result.ts), and of the decorators of odata.ts that
    record methods, keys, links, parameters and controllers, with
    [findODataMethod], which reads them.

    Conventions of the embedding.
    - JavaScript values are an inductive type [Value]; objects are ordered
      property lists (insertion order is what [for ... in] sees), arrays carry
      their elements and their extra named properties ([inlinecount]).
    - An [async] function is a computation in the monad [M]: it threads the
      [World] (database, trace of ORM calls and hook executions, console,
      detached promises) and either returns, throws, or gives no answer
      (the outcome [OutOfFuel]: the nesting is deeper than the fuel).
      [await e] is sequencing; a promise that is started and not awaited is
      queued in [w_pending] together with its rejection handler.
    - The ORM (TypeORM), the OData parser, the query translator, the DB
      helper, the EDM metadata and the registered hooks are not part of the
      files embedded here; they are the fields of the class [Runtime].
    - The connection of a controller is taken to be open: obtaining the
      query runner, the connection, the entity manager or the repository
      succeeds and leaves no mark in the trace.
    - One request is followed at a time; a dispatched event hook is run
      when it settles, after the operation that dispatched it.
    - Where the code leaves what the embedding can follow, the embedding
      gives no answer ([no_answer], the outcome [OutOfFuel]) rather than
      a guess: two or more creations that [Promise.all] runs side by side
      in [_deepInsert], whose interleaving the event loop decides, and a
      [parseInt] whose result is not the integer it read (beyond 2^53, or
      the negative zero).
    - Strings are strings of ASCII characters, as the member, method and
      property names of the code are; the case mappings are those of
      ASCII letters. *)

From Stdlib Require Import ZArith List String Ascii Bool Lia.
From stdpp Require Import base decidable countable gmap strings list pretty.

Import ListNotations.
Local Open Scope list_scope.
Local Open Scope string_scope.
Set Warnings "-register-all".

(* ===================================================================== *)
(** ** JavaScript values *)
(* ===================================================================== *)

Module JS.

(** Numbers: the integers and [NaN]. The one number the embedded code
    computes itself is a row count read by [parseInt]; the other numbers
    are handed on as they come. The two zeros are one: nothing in the
    embedded code tells them apart. *)
Inductive Num : Type :=
| NInt (z : Z)
| NNaN.

Inductive Value : Type :=
| VUndefined
| VNull
| VBool (b : bool)
| VNum (n : Num)
| VStr (s : string)
| VObj (props : list (string * Value))
| VArr (elems : list Value) (props : list (string * Value)).

Definition Props : Type := list (string * Value).

(** [typeof v] *)
Definition typeof (v : Value) : string :=
  match v with
  | VUndefined => "undefined"
  | VNull => "object"
  | VBool _ => "boolean"
  | VNum _ => "number"
  | VStr _ => "string"
  | VObj _ => "object"
  | VArr _ _ => "object"
  end.

(** ToBoolean: what [if (v)] and [v && ...] test. *)
Definition truthy (v : Value) : bool :=
  match v with
  | VUndefined | VNull => false
  | VBool b => b
  | VNum (NInt z) => negb (Z.eqb z 0)
  | VNum NNaN => false
  | VStr s => negb (String.eqb s "")
  | VObj _ | VArr _ _ => true
  end.

(** [v == undefined] (and [v == null]): loose equality with a nullish value. *)
Definition nullish (v : Value) : bool :=
  match v with
  | VUndefined | VNull => true
  | _ => false
  end.

Definition isArray (v : Value) : bool :=
  match v with
  | VArr _ _ => true
  | _ => false
  end.

(** Own properties of an object, in insertion order. *)
Fixpoint get_prop (k : string) (ps : Props) : Value :=
  match ps with
  | [] => VUndefined
  | (k', v) :: rest => if String.eqb k k' then v else get_prop k rest
  end.

Fixpoint has_prop (k : string) (ps : Props) : bool :=
  match ps with
  | [] => false
  | (k', _) :: rest => if String.eqb k k' then true else has_prop k rest
  end.

(** [o[k] = v]: an existing key keeps its place, a new key goes last. *)
Fixpoint set_prop (k : string) (v : Value) (ps : Props) : Props :=
  match ps with
  | [] => [(k, v)]
  | (k', v') :: rest =>
      if String.eqb k k' then (k, v) :: rest else (k', v') :: set_prop k v rest
  end.

(** [delete o[k]] *)
Fixpoint delete_prop (k : string) (ps : Props) : Props :=
  match ps with
  | [] => []
  | (k', v') :: rest =>
      if String.eqb k k' then delete_prop k rest else (k', v') :: delete_prop k rest
  end.

(** newdash [isEmpty]: nullish values, primitives without length, empty
    strings, empty arrays and objects without own keys are empty. *)
Definition isEmpty (v : Value) : bool :=
  match v with
  | VUndefined | VNull => true
  | VBool _ | VNum _ => true
  | VStr s => String.eqb s ""
  | VObj ps => match ps with [] => true | _ => false end
  | VArr es _ => match es with [] => true | _ => false end
  end.

(** ToString, as used by template literals. *)
Fixpoint toString (v : Value) : string :=
  match v with
  | VUndefined => "undefined"
  | VNull => "null"
  | VBool true => "true"
  | VBool false => "false"
  | VNum (NInt z) => pretty z
  | VNum NNaN => "NaN"
  | VStr s => s
  | VObj _ => "[object Object]"
  | VArr es _ =>
      (fix join (l : list Value) : string :=
         match l with
         | [] => ""
         | x :: rest =>
             let sx := match x with
                       | VUndefined | VNull => ""
                       | _ => toString x
                       end in
             match rest with
             | [] => sx
             | _ => sx ++ "," ++ join rest
             end
         end) es
  end.

(** *** [parseInt(s)] with no radix argument *)

Definition is_space (c : ascii) : bool :=
  let n := nat_of_ascii c in
  orb (Nat.eqb n 32) (andb (Nat.leb 9 n) (Nat.leb n 13)).

Fixpoint skip_spaces (s : string) : string :=
  match s with
  | String c rest => if is_space c then skip_spaces rest else s
  | EmptyString => s
  end.

Definition digit_value (c : ascii) : option Z :=
  let n := nat_of_ascii c in
  if andb (Nat.leb 48 n) (Nat.leb n 57) then Some (Z.of_nat (n - 48))
  else if andb (Nat.leb 97 n) (Nat.leb n 122) then Some (Z.of_nat (n - 87))
  else if andb (Nat.leb 65 n) (Nat.leb n 90) then Some (Z.of_nat (n - 55))
  else None.

(** Longest prefix of digits below [radix]; [None] when there is none. *)
Fixpoint parse_digits (radix : Z) (s : string) (acc : option Z) : option Z :=
  match s with
  | EmptyString => acc
  | String c rest =>
      match digit_value c with
      | Some d =>
          if Z.ltb d radix
          then parse_digits radix rest
                 (Some (match acc with Some a => a * radix + d | None => d end)%Z)
          else acc
      | None => acc
      end
  end.

(** The integers that a double holds exactly, one by one. *)
Definition max_exact : Z := 9007199254740992.   (* 2^53 *)

(** The code's [parseInt] answers a double: the integer read, where the
    double holds it exactly; beyond, a rounding of it or an infinity, and
    for a negative sign before zeros the negative zero. The embedding
    follows the first case and [NaN], and gives no answer ([None]) in the
    others. *)
Definition parseInt (s : string) : option Num :=
  let s1 := skip_spaces s in
  let '(neg, s2) :=
    match s1 with
    | String "-" rest => (true, rest)
    | String "+" rest => (false, rest)
    | _ => (false, s1)
    end in
  let '(radix, s3) :=
    match s2 with
    | String "0" (String "x" rest) => (16%Z, rest)
    | String "0" (String "X" rest) => (16%Z, rest)
    | _ => (10%Z, s2)
    end in
  match parse_digits radix s3 None with
  | Some z =>
      if andb (Z.leb z max_exact) (negb (andb neg (Z.eqb z 0)))
      then Some (NInt (if neg then - z else z)%Z)
      else None
  | None => Some NNaN
  end.

End JS.
Export JS.

(* ===================================================================== *)
(** ** Errors *)
(* ===================================================================== *)

Inductive ErrorKind : Type :=
| ResourceNotFoundError
| ServerInternalError
| PlainError              (* [new Error(...)] *)
| TypeError               (* raised by the language itself *)
| ForeignError (name : string).  (* raised by a hook, the ORM or the parser *)

Record Error : Type := mkError { err_kind : ErrorKind; err_message : string }.

(** Result of a call into code that is not embedded here (ORM, parser,
    hooks): it returns or throws. *)
Inductive Res (A : Type) : Type :=
| Val (a : A)
| Err (e : Error).
Arguments Val {A} a.
Arguments Err {A} e.

(** Property access on a value: reading or writing a property of
    [undefined] or [null] is a [TypeError]; so is creating a property on a
    primitive (modules are strict code). *)
Definition member (v : Value) (k : string) : Res Value :=
  match v with
  | VUndefined | VNull =>
      Err (mkError TypeError ("Cannot read properties of " ++ toString v))
  | VObj ps => Val (get_prop k ps)
  | VArr _ ps => Val (get_prop k ps)
  | _ => Val VUndefined
  end.

Definition assign (v : Value) (k : string) (x : Value) : Res Value :=
  match v with
  | VUndefined | VNull =>
      Err (mkError TypeError ("Cannot set properties of " ++ toString v))
  | VObj ps => Val (VObj (set_prop k x ps))
  | VArr es ps => Val (VArr es (set_prop k x ps))
  | _ => Err (mkError TypeError ("Cannot create property '" ++ k ++ "'"))
  end.

(** [Object.prototype.hasOwnProperty.call(v, k)] *)
Definition hasOwnProperty (v : Value) (k : string) : Res bool :=
  match v with
  | VUndefined | VNull =>
      Err (mkError TypeError "Cannot convert undefined or null to object")
  | VObj ps => Val (has_prop k ps)
  | VArr _ ps => Val (has_prop k ps)
  | _ => Val false
  end.

(* ===================================================================== *)
(** ** Entities, hooks and what the environment provides *)
(* ===================================================================== *)

(** Classes are compared by identity; an identifier stands for each. *)
Inductive EntityType : Type := Entity (id : nat).
Inductive ControllerClass : Type := Controller (id : nat).
Inductive Hook : Type := HookProcessor (id : nat).

(** [TransactionContext] / [ODataHttpContext] of a request. *)
Inductive RequestContext : Type := Request (id : nat).

(** Modelled from the spec: the enum [HookType] of hooks.ts, which is not
    among the embedded files; its members are the five kinds the spec lists
    and the controllers name. *)
Inductive HookType : Type :=
| beforeCreate
| afterLoad
| beforeUpdate
| beforeDelete
| afterSave.

Definition HookType_eqb (a b : HookType) : bool :=
  match a, b with
  | beforeCreate, beforeCreate
  | afterLoad, afterLoad
  | beforeUpdate, beforeUpdate
  | beforeDelete, beforeDelete
  | afterSave, afterSave => true
  | _, _ => false
  end.

(** [Partial<HookContext>]: an absent field is [None] / [VUndefined]. *)
Record HookContext : Type := mkHookContext {
  hc_entityType : option EntityType;
  hc_hookType : option HookType;
  hc_data : Value;
  hc_key : Value;
  hc_txContext : option RequestContext;   (* TypedService *)
  hc_context : option RequestContext;     (* TypedController *)
  hc_getService : bool;                   (* [getService] bound *)
  hc_em : bool                            (* entity manager attached *)
}.

Definition set_entityType (e : EntityType) (c : HookContext) : HookContext :=
  mkHookContext (Some e) (hc_hookType c) (hc_data c) (hc_key c)
    (hc_txContext c) (hc_context c) (hc_getService c) (hc_em c).
Definition set_getService (c : HookContext) : HookContext :=
  mkHookContext (hc_entityType c) (hc_hookType c) (hc_data c) (hc_key c)
    (hc_txContext c) (hc_context c) true (hc_em c).
Definition set_em (c : HookContext) : HookContext :=
  mkHookContext (hc_entityType c) (hc_hookType c) (hc_data c) (hc_key c)
    (hc_txContext c) (hc_context c) (hc_getService c) true.
Definition delete_txContext (c : HookContext) : HookContext :=
  mkHookContext (hc_entityType c) (hc_hookType c) (hc_data c) (hc_key c)
    None (hc_context c) (hc_getService c) (hc_em c).
Definition set_data (d : Value) (c : HookContext) : HookContext :=
  mkHookContext (hc_entityType c) (hc_hookType c) d (hc_key c)
    (hc_txContext c) (hc_context c) (hc_getService c) (hc_em c).

(** Options of one navigation property ([@ODataNavigation]). *)
Record NavOptions : Type := mkNav {
  nav_type : string;          (* 'OneToMany', 'ManyToOne', 'OneToOne' *)
  nav_entity : EntityType;    (* [options.entity()] *)
  nav_foreignKey : string
}.

(** What [transformQueryAst] returns (visitor.ts). *)
Record Transformed : Type := mkTransformed {
  selectedFields : list string;
  sqlQuery : string;
  count : Value;
  where_ : Value
}.

(** What [DBHelper.buildSQL] returns. *)
Record BuiltSQL : Type := mkBuiltSQL {
  queryStatement : string;
  countStatement : option string
}.

Class Runtime : Type := {
  DB : Type;
  Ast : Type;
  ODataQueryParam : Type;
  (* hooks.ts *)
  HookEvents : list HookType;
  findHooks : EntityType -> HookType -> list Hook;
  (** [hook.execute(ctx)] run to completion. [execute] is an [async]
      method: it throws nothing before it has returned its promise; the
      promise is fulfilled, the data object of the context being left as
      returned, or rejected. *)
  hook_execute : Hook -> HookContext -> DB -> Res Value * DB;
  (* typeorm repository of an entity type *)
  repo_findOne : EntityType -> Value -> DB -> Res Value * DB;
  repo_find : EntityType -> DB -> Res (list Value) * DB;
  repo_query : EntityType -> string -> DB -> Res (list Value) * DB;
  repo_findByIds : EntityType -> list Value -> DB -> Res (list Value) * DB;
  repo_create : EntityType -> Value -> Value;
  (** [insert] and [save] write into the instance they are given
      (generated columns); they answer the instance as they left it. *)
  repo_insert : EntityType -> Value -> DB -> Res Value * DB;
  repo_save : EntityType -> Value -> DB -> Res Value * DB;
  repo_update : EntityType -> Value -> Value -> DB -> Res Value * DB;
  repo_delete : EntityType -> Value -> DB -> Res Value * DB;
  meta_tableName : EntityType -> string;
  meta_schema : EntityType -> Value;
  (* @odata/parser *)
  parser_query : string -> Res Ast;
  param_toString : ODataQueryParam -> string;
  (* visitor.ts, db_helper.ts *)
  transformQueryAst : Ast -> (string -> string) -> Transformed;
  buildSQL : string -> Value -> Ast -> Value -> BuiltSQL;
  (* edm.ts, literal.ts, decorators.ts *)
  entity_name : EntityType -> string;
  getKeyProperties : EntityType -> list string;
  getType : EntityType -> string -> Value;
  Literal_convert : Value -> Value -> Value;
  getODataEntityNavigations : EntityType -> list (string * NavOptions)
}.

(* ===================================================================== *)
(** ** The world and the monad of async functions *)
(* ===================================================================== *)

(** Calls that leave the embedded code, in the order they are issued. *)
Inductive Event : Type :=
| RepoFindOne (e : EntityType) (key : Value)
| RepoFind (e : EntityType)
| RepoQuery (e : EntityType) (sql : string)
| RepoFindByIds (e : EntityType) (ids : list Value)
| RepoInsert (e : EntityType) (instance : Value)
| RepoSave (e : EntityType) (instance : Value)
| RepoUpdate (e : EntityType) (key : Value) (instance : Value)
| RepoDelete (e : EntityType) (key : Value)
| HookAwaited (h : Hook) (ctx : HookContext) (fulfilled : bool)
| HookDispatched (h : Hook) (ctx : HookContext).

(** The rejection handler attached with [.catch]. *)
Inductive Handler : Type :=
| ConsoleError      (* [.catch(console.error)] *)
| Swallow.          (* [.catch((error) => { })] *)

(** A promise that was started and is not awaited by its creator. *)
Record Detached : Type := mkDetached {
  d_hook : Hook;
  d_ctx : HookContext;
  d_handler : Handler
}.

Inductive Outcome (A : Type) : Type :=
| Return (a : A)
| Throw (e : Error)
| OutOfFuel.
Arguments Return {A} a.
Arguments Throw {A} e.
Arguments OutOfFuel {A}.

Section Monad.
Context {RT : Runtime}.

Record World : Type := mkWorld {
  w_db : DB;
  w_trace : list Event;
  w_console : list Error;
  w_pending : list Detached
}.

Definition M (A : Type) : Type := World -> Outcome A * World.

Definition ret {A} (a : A) : M A := fun w => (Return a, w).
Definition throw {A} (e : Error) : M A := fun w => (Throw e, w).
Definition out_of_fuel {A} : M A := fun w => (OutOfFuel, w).

(** Where the embedding does not follow the code (a number that is not
    the integer read, creations that run side by side) the computation
    ends the same way: it gives no answer. *)
Definition no_answer {A} : M A := out_of_fuel.

Definition bind {A B} (m : M A) (k : A -> M B) : M B :=
  fun w =>
    match m w with
    | (Return a, w') => k a w'
    | (Throw e, w') => (Throw e, w')
    | (OutOfFuel, w') => (OutOfFuel, w')
    end.

(** A synchronous call that may throw. *)
Definition lift {A} (r : Res A) : M A :=
  match r with
  | Val a => ret a
  | Err e => throw e
  end.

(** [await] of a call into the ORM: the call is logged, then run. *)
Definition call {A} (ev : Event) (f : DB -> Res A * DB) : M A :=
  fun w =>
    let '(r, db') := f (w_db w) in
    let w' := mkWorld db' (w_trace w ++ [ev]) (w_console w) (w_pending w) in
    match r with
    | Val a => (Return a, w')
    | Err e => (Throw e, w')
    end.

(** The settled state of a promise, observed without rethrowing. *)
Definition attempt {A} (m : M A) : M (Res A) :=
  fun w =>
    match m w with
    | (Return a, w') => (Return (Val a), w')
    | (Throw e, w') => (Return (Err e), w')
    | (OutOfFuel, w') => (OutOfFuel, w')
    end.

End Monad.

Notation "x <- c1 ;; c2" := (bind c1 (fun x => c2))
  (at level 100, c1 at next level, right associativity).

(* ===================================================================== *)
(** ** Hook execution, shared by both controllers *)
(* ===================================================================== *)

Section Hooks.
Context {RT : Runtime}.

(** [HookEvents.includes(hookType)] *)
Definition includes (l : list HookType) (t : HookType) : bool :=
  existsb (HookType_eqb t) l.

(** [await hook.execute(ctx)]: the hook runs to completion before the
    caller goes on; a rejection is rethrown at the [await]. The context
    carries the data object as the hook left it. *)
Definition await_hook (h : Hook) (ctx : HookContext) : M HookContext :=
  fun w =>
    let '(r, db') := hook_execute h ctx (w_db w) in
    match r with
    | Val d =>
        (Return (set_data d ctx),
         mkWorld db' (w_trace w ++ [HookAwaited h ctx true]) (w_console w) (w_pending w))
    | Err e =>
        (Throw e,
         mkWorld db' (w_trace w ++ [HookAwaited h ctx false]) (w_console w) (w_pending w))
    end.

(** [hook.execute(ctx).catch(handler)]: the promise is created and left
    to settle on its own. *)
Definition dispatch_hook (handler : Handler) (h : Hook) (ctx : HookContext) : M unit :=
  fun w =>
    (Return tt,
     mkWorld (w_db w) (w_trace w ++ [HookDispatched h ctx]) (w_console w)
       (w_pending w ++ [mkDetached h ctx handler])).

(** The loop [for (idx = 0; idx < hooks.length; idx++)] of [_executeHooks]. *)
Fixpoint run_hooks (isEvent : bool) (handler : Handler) (hooks : list Hook)
    (ctx : HookContext) : M HookContext :=
  match hooks with
  | [] => ret ctx
  | hook :: rest =>
      if isEvent then
        _ <- dispatch_hook handler hook ctx ;;
        run_hooks isEvent handler rest ctx
      else
        ctx' <- await_hook hook ctx ;;
        run_hooks isEvent handler rest ctx'
  end.

(** Later turns of the event loop: a detached promise settles; a rejection
    goes to its handler and nowhere else. *)
Definition settle (d : Detached) (w : World) : World :=
  let '(r, db') := hook_execute (d_hook d) (d_ctx d) (w_db w) in
  mkWorld db' (w_trace w)
    (match r, d_handler d with
     | Err e, ConsoleError => w_console w ++ [e]
     | _, _ => w_console w
     end)
    (w_pending w).

Definition settle_all (w : World) : World :=
  let w' := fold_left (fun acc d => settle d acc) (w_pending w) w in
  mkWorld (w_db w') (w_trace w') (w_console w') [].

End Hooks.

(* ===================================================================== *)
(** ** The query argument of [find], shared by both controllers *)
(* ===================================================================== *)

Section Queries.
Context {RT : Runtime}.

(** The [query] argument of [find]: absent, a string, an
    [ODataQueryParam] or an already parsed AST. *)
Inductive QueryArg : Type :=
| QUndefined
| QString (s : string)
| QParam (p : ODataQueryParam)
| QAst (t : Ast).

(** [if (query)] and the two conversions at the head of [find]: [None]
    for a falsy query (absent, or the empty string), otherwise the AST or
    the parser's error. *)
Definition parse_query (q : QueryArg) : option (Res Ast) :=
  match q with
  | QUndefined => None
  | QString s => if String.eqb s "" then None else Some (parser_query s)
  | QParam p => Some (parser_query (param_toString p))
  | QAst t => Some (Val t)
  end.

(** [let [{ total }] = rows] *)
Definition first_total (rows : list Value) : Res Value :=
  member (hd VUndefined rows) "total".

End Queries.

(* ===================================================================== *)
(** ** [TypedService] *)
(* ===================================================================== *)

Module TypedService.
Section Service.
Context {RT : Runtime}.

Definition hookTypeMissing : Error :=
  mkError ServerInternalError "Hook Type must be specify by controller".

(** [_executeHooks(ctx)]. The promise it returns carries no value; the
    embedding hands back the context so that the caller can read the data
    object, which it shares with the context, as the hooks left it. *)
Definition _executeHooks (this : EntityType) (ctx : HookContext) : M HookContext :=
  let ctx := match hc_entityType ctx with
             | None => set_entityType this ctx
             | Some _ => ctx
             end in
  match hc_hookType ctx with
  | None => throw hookTypeMissing
  | Some hookType =>
      let ctx := if hc_getService ctx then ctx else set_getService ctx in
      let isEvent := includes HookEvents hookType in
      let ctx := if isEvent then delete_txContext ctx else ctx in
      let hooks := findHooks this hookType in
      run_hooks isEvent ConsoleError hooks ctx
  end.

(** The context literal [{ txContext, hookType, data, key, entityType }]. *)
Definition hookCtx (tx : option RequestContext) (t : HookType) (data key : Value)
    (e : option EntityType) : HookContext :=
  mkHookContext e (Some t) data key tx None false false.

(** newdash [isLength]: a number that can be the length of a collection. *)
Definition isLength (v : Value) : option nat :=
  match v with
  | VNum (NInt z) =>
      if andb (Z.leb 0 z) (Z.leb z 9007199254740991) then Some (Z.to_nat z) else None
  | _ => None
  end.

(** The iteratee of [_transformInboundPayload] at one key of an object:
    [const type = Edm.getType(..., key); if (type) { body[key] =
    Literal.convert(type, value) }]. *)
Definition convert_at (this : EntityType) (key : string) (props : Props) : Props :=
  let type := getType this key in
  if truthy type then set_prop key (Literal_convert type (get_prop key props)) props
  else props.

(** The same at the elements of an array, from index [i] on. *)
Fixpoint convert_elems (this : EntityType) (i : nat) (elems : list Value) : list Value :=
  match elems with
  | [] => []
  | value :: rest =>
      let type := getType this (pretty i) in
      (if truthy type then Literal_convert type value else value)
        :: convert_elems this (S i) rest
  end.

(** [_transformInboundPayload(body)]: newdash [forEach] walks the body
    and the iteratee converts in place what has an EDM type. [forEach]
    walks the elements of an array, and the indices below [length] of
    whatever else has a numeric [length] (an object with such a property,
    a string), the own keys of any other object, and nothing of other
    values. Writing into a string throws (modules are strict code). *)
Definition _transformInboundPayload (this : EntityType) (body : Value) : Res Value :=
  match body with
  | VObj props =>
      match isLength (get_prop "length" props) with
      | Some length =>
          Val (VObj (fold_left (fun ps index => convert_at this (pretty index) ps)
                       (seq 0 length) props))
      | None =>
          Val (VObj (map (fun kv : string * Value =>
                            let type := getType this (fst kv) in
                            if truthy type then (fst kv, Literal_convert type (snd kv))
                            else kv)
                       props))
      end
  | VArr elems props => Val (VArr (convert_elems this 0 elems) props)
  | VStr s =>
      if existsb (fun index => truthy (getType this (pretty index)))
           (seq 0 (String.length s))
      then Err (mkError TypeError "Cannot assign to read only property of string")
      else Val body
  | _ => Val body
  end.

Definition notFound (this : EntityType) (key : Value) : Error :=
  mkError ResourceNotFoundError
    ("Resource not found: " ++ entity_name this ++ "[" ++ toString key ++ "]").

Definition findOne (this : EntityType) (key : Value) (ctx : option RequestContext)
    : M Value :=
  if negb (nullish key) then
    data <- call (RepoFindOne this key) (repo_findOne this key) ;;
    if isEmpty data then throw (notFound this key)
    else
      hc <- _executeHooks this (hookCtx ctx afterLoad data VUndefined (Some this)) ;;
      ret (hc_data hc)
  else ret (VObj []).

(** [const [key] = getKeyProperties(type)] *)
Definition first_key (e : EntityType) : Value :=
  match getKeyProperties e with
  | k :: _ => VStr k
  | [] => VUndefined
  end.

(** [data.map((item) => item.id)] *)
Fixpoint item_ids (rows : list Value) : Res (list Value) :=
  match rows with
  | [] => Val []
  | item :: rest =>
      match member item "id" with
      | Err e => Err e
      | Val id =>
          match item_ids rest with
          | Err e => Err e
          | Val ids => Val (id :: ids)
          end
      end
  end.

Definition count_requested (c : option string) : bool :=
  match c with
  | Some s => negb (String.eqb s "")
  | None => false
  end.

(** [if (typeof total == 'string') { total = parseInt(total) }] *)
Definition parsed_total (total : Value) : option Value :=
  match total with
  | VStr s => option_map VNum (parseInt s)
  | _ => Some total
  end.

(** The body of [find] down to the hooks: what it loads. *)
Definition find_data (this : EntityType) (query : QueryArg) : M Value :=
  match parse_query query with
  | Some parsed =>
      ast <- lift parsed ;;
      let sql := buildSQL (meta_tableName this) (meta_schema this) ast
                   (first_key this) in
      rows <- call (RepoQuery this (queryStatement sql))
                (repo_query this (queryStatement sql)) ;;
      ids <- lift (item_ids rows) ;;
      data <- call (RepoFindByIds this ids) (repo_findByIds this ids) ;;
      if count_requested (countStatement sql) then
        let countSql := default "" (countStatement sql) in
        rows <- call (RepoQuery this countSql) (repo_query this countSql) ;;
        total <- lift (first_total rows) ;;
        match parsed_total total with
        | Some total => ret (VArr data (set_prop "inlinecount" total []))
        | None => no_answer
        end
      else ret (VArr data [])
  | None =>
      data <- call (RepoFind this) (repo_find this) ;;
      ret (VArr data [])
  end.

Definition find (this : EntityType) (query : QueryArg) (ctx : option RequestContext)
    : M Value :=
  data <- find_data this query ;;
  match data with
  | VArr (_ :: _) _ =>
      hc <- _executeHooks this (hookCtx ctx afterLoad data VUndefined None) ;;
      ret (hc_data hc)
  | _ => ret data
  end.

(** *** Deep insert *)

Definition mustBeArray (navigationName : string) : Error :=
  mkError ServerInternalError
    ("navigation property [" ++ navigationName ++ "] must be an array!").

Definition fkNotExisted (fkName : string) (this target : EntityType) : Error :=
  mkError ServerInternalError
    ("fk " ++ fkName ++ " not existed on entity " ++ entity_name this ++ " or "
       ++ entity_name target).

(** A destructured key name used as a property key: [undefined] reads the
    property called "undefined". *)
Definition key_name (e : EntityType) : string := toString (first_key e).

(** The service of another entity type, as [_deepInsert] uses it. *)
Definition CreateFn : Type := EntityType -> Value -> option RequestContext -> M Value.

(** [await Promise.all(navigationData.map((navigationItem) => {
    navigationItem[fkName] = body[thisKeyName]; return
    service.create(navigationItem, ctx) }))]. Of no element nothing is
    created. One element is given the foreign key and created, and what
    its creation answers or throws is what [Promise.all] does. With two
    elements or more, a throw at the first element leaves [map] before
    any creation was started; otherwise the creations run side by side,
    interleaved at their awaits as the event loop and the database driver
    decide, and go on when one of them has been rejected: the embedding
    does not follow them and gives no answer. *)
Definition create_all (create : CreateFn) (target : EntityType) (fkName : string)
    (fkValue : Value) (ctx : option RequestContext) (items : list Value)
    : M (list Value) :=
  match items with
  | [] => ret []
  | [navigationItem] =>
      item <- lift (assign navigationItem fkName fkValue) ;;
      created <- create target item ctx ;;
      ret [created]
  | navigationItem :: _ :: _ =>
      _ <- lift (assign navigationItem fkName fkValue) ;;
      no_answer
  end.

(** The body of the [for ... in] loop for one navigation. The state of the
    loop is [reSaveRequired] and the body object. *)
Definition deepInsertStep (create : CreateFn) (this : EntityType)
    (ctx : option RequestContext) (st : bool * Value) (nav : string * NavOptions)
    : M (bool * Value) :=
  let reSaveRequired := fst st in
  let body := snd st in
  let navigationName := fst nav in
  let options := snd nav in
  present <- lift (hasOwnProperty body navigationName) ;;
  if present then
    navigationData <- lift (member body navigationName) ;;
    let deepInsertElementType := nav_entity options in
    let fkName := nav_foreignKey options in
    let thisKeyName := key_name this in
    let targetInstanceKeyName := key_name deepInsertElementType in
    if String.eqb (nav_type options) "OneToMany" then
      match navigationData with
      | VArr items _ =>
          fkValue <- lift (member body thisKeyName) ;;
          created <- create_all create deepInsertElementType fkName fkValue ctx items ;;
          body <- lift (assign body navigationName (VArr created [])) ;;
          ret (reSaveRequired, body)
      | _ => throw (mustBeArray navigationName)
      end
    else if String.eqb (nav_type options) "ManyToOne" then
      createdDeepInstance <- create deepInsertElementType navigationData ctx ;;
      body <- lift (assign body navigationName createdDeepInstance) ;;
      fk <- lift (member createdDeepInstance targetInstanceKeyName) ;;
      body <- lift (assign body fkName fk) ;;
      ret (true, body)
    else
      createdDeepInstance2 <- create deepInsertElementType navigationData ctx ;;
      body <- lift (assign body navigationName createdDeepInstance2) ;;
      if truthy (getType this fkName) then
        fk <- lift (member createdDeepInstance2 targetInstanceKeyName) ;;
        body <- lift (assign body fkName fk) ;;
        ret (true, body)
      else if truthy (getType deepInsertElementType fkName) then
        key <- lift (member body thisKeyName) ;;
        (* the created instance is the object stored under the navigation *)
        created' <- lift (assign createdDeepInstance2 fkName key) ;;
        body <- lift (assign body navigationName created') ;;
        ret (reSaveRequired, body)
      else throw (fkNotExisted fkName this deepInsertElementType)
  else ret st.

Fixpoint deepInsertLoop (create : CreateFn) (this : EntityType)
    (ctx : option RequestContext) (navs : list (string * NavOptions))
    (st : bool * Value) : M (bool * Value) :=
  match navs with
  | [] => ret st
  | nav :: rest =>
      st' <- deepInsertStep create this ctx st nav ;;
      deepInsertLoop create this ctx rest st'
  end.

(** [_deepInsert(body, ctx)]: returns [reSaveRequired] and the body as
    the loop left it. *)
Definition _deepInsert (create : CreateFn) (this : EntityType) (body : Value)
    (ctx : option RequestContext) : M (bool * Value) :=
  deepInsertLoop create this ctx (getODataEntityNavigations this) (false, body).

(** *** create, save, update, delete *)

(** A nested [service.create] is one level deeper; [fuel] bounds the
    depth, since a hook may hand back an instance that nests again. *)
Fixpoint create (fuel : nat) (this : EntityType) (body : Value)
    (ctx : option RequestContext) : M Value :=
  match fuel with
  | O => out_of_fuel
  | S fuel' =>
      body <- lift (_transformInboundPayload this body) ;;
      let instance := repo_create this body in
      hc <- _executeHooks this (hookCtx ctx beforeCreate instance VUndefined None) ;;
      let instance := hc_data hc in
      instance <- call (RepoInsert this instance) (repo_insert this instance) ;;
      st <- _deepInsert (create fuel') this instance ctx ;;
      let reSaveRequired := fst st in
      let instance := snd st in
      instance <- (if reSaveRequired
                   then call (RepoSave this instance) (repo_save this instance)
                   else ret instance) ;;
      hc <- _executeHooks this (hookCtx ctx afterSave instance VUndefined None) ;;
      ret (hc_data hc)
  end.

Definition update (this : EntityType) (key body : Value) (ctx : option RequestContext)
    : M Value :=
  body <- lift (_transformInboundPayload this body) ;;
  let instance := repo_create this body in
  hc <- _executeHooks this (hookCtx ctx beforeUpdate instance key None) ;;
  let instance := hc_data hc in
  _ <- call (RepoUpdate this key instance) (repo_update this key instance) ;;
  _ <- _executeHooks this (hookCtx ctx afterSave instance key None) ;;
  ret VUndefined.

Definition delete (this : EntityType) (key : Value) (ctx : option RequestContext)
    : M Value :=
  _ <- _executeHooks this (hookCtx ctx beforeDelete VUndefined key None) ;;
  _ <- call (RepoDelete this key) (repo_delete this key) ;;
  _ <- _executeHooks this (hookCtx ctx afterSave VUndefined key None) ;;
  ret VUndefined.

Definition save (fuel : nat) (this : EntityType) (key body : Value)
    (ctx : option RequestContext) : M Value :=
  if truthy key then
    item <- call (RepoFindOne this key) (repo_findOne this key) ;;
    if truthy item then update this key body ctx
    else create fuel this body ctx
  else create fuel this body ctx.

End Service.
End TypedService.

(* ===================================================================== *)
(** ** [TypedController] (src/lib/typeorm/controller.ts) *)
(* ===================================================================== *)

Module TypedController.
Section Controller.
Context {RT : Runtime}.

Definition hookTypeMissing : Error :=
  mkError ServerInternalError "Hook Type must be specify by controller".

(** [_executeHooks(ctx)]; [this] is [this.elementType]. *)
Definition _executeHooks (this : EntityType) (ctx : HookContext) : M HookContext :=
  let ctx := match hc_entityType ctx with
             | None => set_entityType this ctx
             | Some _ => ctx
             end in
  let ctx := if hc_em ctx then ctx else set_em ctx in
  match hc_hookType ctx with
  | None => throw hookTypeMissing
  | Some hookType =>
      let isEvent := includes HookEvents hookType in
      let hooks := findHooks this hookType in
      run_hooks isEvent Swallow hooks ctx
  end.

(** The context literal [{ context, hookType, data, key, entityType }]. *)
Definition hookCtx (context : RequestContext) (t : HookType) (data key : Value)
    (e : option EntityType) : HookContext :=
  mkHookContext e (Some t) data key None (Some context) false false.

Definition findOne (this : EntityType) (key : Value) (ctx : RequestContext) : M Value :=
  data <- call (RepoFindOne this key) (repo_findOne this key) ;;
  hc <- _executeHooks this (hookCtx ctx afterLoad data VUndefined (Some this)) ;;
  ret (hc_data hc).

(** [selectedFields.join(', ')] *)
Fixpoint join_fields (l : list string) : string :=
  match l with
  | [] => ""
  | [f] => f
  | f :: rest => f ++ ", " ++ join_fields rest
  end.

Definition select_sql (tableName : string) (t : Transformed) : string :=
  let sFields := match selectedFields t with
                 | [] => "*"
                 | fs => join_fields fs
                 end in
  "select " ++ sFields ++ " from " ++ tableName ++ " " ++ sqlQuery t ++ ";".

Definition count_sql (tableName : string) (t : Transformed) : string :=
  let sql := "select count(1) as total from " ++ tableName in
  if truthy (where_ t) then sql ++ " where " ++ toString (where_ t) else sql.

Definition find (this : EntityType) (query : QueryArg) (ctx : RequestContext) : M Value :=
  data <-
    match parse_query query with
    | Some parsed =>
        ast <- lift parsed ;;
        let tableName := meta_tableName this in
        let t := transformQueryAst ast (fun f => tableName ++ "." ++ f) in
        let sql := select_sql tableName t in
        data <- call (RepoQuery this sql) (repo_query this sql) ;;
        if truthy (count t) then
          let sql := count_sql tableName t in
          rows <- call (RepoQuery this sql) (repo_query this sql) ;;
          total <- lift (first_total rows) ;;
          ret (VArr data (set_prop "inlinecount" total []))
        else ret (VArr data [])
    | None =>
        data <- call (RepoFind this) (repo_find this) ;;
        ret (VArr data [])
    end ;;
  hc <- _executeHooks this (hookCtx ctx afterLoad data VUndefined None) ;;
  ret (hc_data hc).

Definition create (this : EntityType) (body : Value) (ctx : RequestContext) : M Value :=
  hc <- _executeHooks this (hookCtx ctx beforeCreate body VUndefined None) ;;
  let body := hc_data hc in
  call (RepoSave this body) (repo_save this body).

Definition update (this : EntityType) (key body : Value) (ctx : RequestContext)
    : M Value :=
  hc <- _executeHooks this (hookCtx ctx beforeUpdate body key None) ;;
  let body := hc_data hc in
  call (RepoUpdate this key body) (repo_update this key body).

Definition delete (this : EntityType) (key : Value) (ctx : RequestContext) : M Value :=
  _ <- _executeHooks this (hookCtx ctx beforeDelete VUndefined key None) ;;
  call (RepoDelete this key) (repo_delete this key).

End Controller.
End TypedController.

(* ===================================================================== *)
(** ** The entity-to-controller registry (controller.ts) *)
(* ===================================================================== *)

#[global] Instance EntityType_eq_dec : EqDecision EntityType.
Proof. solve_decision. Defined.

#[global] Instance EntityType_countable : Countable EntityType.
Proof.
  apply (inj_countable' (fun e => match e with Entity n => n end) Entity).
  intros []; reflexivity.
Defined.

Module Registry.
Section Registry.

(** [getControllerInstance] of lib/controller.ts, applied to what
    [Map.get] returns ([None] for [undefined]). *)
Context {ControllerInstance : Type}.
Variable getControllerInstance : option ControllerClass -> ControllerInstance.

Definition alreadyGenerated : Error :=
  mkError PlainError
    "the controller has been generated for entity. (one entity - one controller)".

(** [registerController(entity, controller)] on the module-level map
    [entityControllers]. *)
Definition registerController (entity : EntityType) (controller : ControllerClass)
    (entityControllers : gmap EntityType ControllerClass)
    : Res unit * gmap EntityType ControllerClass :=
  match entityControllers !! entity with
  | Some _ => (Err alreadyGenerated, entityControllers)
  | None => (Val tt, <[entity := controller]> entityControllers)
  end.

Definition getEntityController (entity : EntityType)
    (entityControllers : gmap EntityType ControllerClass) : ControllerInstance :=
  getControllerInstance (entityControllers !! entity).

(** A run of registrations from the start of the program; throwing calls
    leave the map as it is. *)
Fixpoint register_all (calls : list (EntityType * ControllerClass))
    (entityControllers : gmap EntityType ControllerClass)
    : gmap EntityType ControllerClass :=
  match calls with
  | [] => entityControllers
  | (e, c) :: rest => register_all rest (snd (registerController e c entityControllers))
  end.

End Registry.
End Registry.

(* ===================================================================== *)
(** ** [ODataResult] (result.ts) *)
(* ===================================================================== *)

Module ODataResult.

(** [result.constructor], kept symbolic: the constructor of that value. *)
Inductive Constructor : Type := ConstructorOf (v : Value).

Record t : Type := mkResult {
  statusCode : Z;
  body : Value;
  elementType : option Constructor;
  contentType : option string;
  _originalResult : Value
}.

(** [new ODataResult(statusCode, contentType, result)] *)
Definition new (statusCode : Z) (contentType : option string) (result : Value) : t :=
  match result with
  | VUndefined => mkResult statusCode VUndefined None None result
  | _ =>
      mkResult statusCode result
        (if truthy result then Some (ConstructorOf result) else None)
        (Some (match contentType with
               | Some c => if String.eqb c "" then "application/json" else c
               | None => "application/json"
               end))
        result
  end.

(** The argument of [Ok]: a value, or a promise with its settled state. *)
Inductive ResultArg : Type :=
| Plain (v : Value)
| Promise (settled : Res Value).

Definition await_arg (r : ResultArg) : Res Value :=
  match r with
  | Plain v => Val v
  | Promise settled => settled
  end.

Definition is_number (v : Value) : bool := String.eqb (typeof v) "number".

Definition Ok (result : ResultArg) (contentType : option string) : Res t :=
  match await_arg result with
  | Err e => Err e
  | Val result =>
      let inlinecount := VUndefined in
      match result with
      | VArr elems props =>
          let found := is_number (get_prop "inlinecount" props) in
          let inlinecount := if found then get_prop "inlinecount" props
                             else inlinecount in
          let result := if found then VArr elems (delete_prop "inlinecount" props)
                        else result in
          let result := [("value", result)] in
          let result := if is_number inlinecount
                        then set_prop "@odata.count" inlinecount result
                        else result in
          Val (new 200 contentType (VObj result))
      | _ =>
          let result :=
            match result with
            | VObj props =>
                if is_number inlinecount
                then VObj (set_prop "@odata.count" inlinecount props)
                else result
            | _ => result
            end in
          Val (new 200 contentType result)
      end
  end.

(** [getOriginalResult()] *)
Definition getOriginalResult (r : t) : Value := _originalResult r.

Definition Created (result : ResultArg) (contentType : option string) : Res t :=
  match await_arg result with
  | Err e => Err e
  | Val result => Val (new 201 contentType result)
  end.

(** [NoContent(result, contentType)]: the result is awaited and dropped. *)
Definition NoContent (result : ResultArg) (contentType : option string) : Res t :=
  match await_arg result with
  | Err e => Err e
  | Val _ => Val (new 204 contentType VUndefined)
  end.

End ODataResult.

(* ===================================================================== *)
(** ** [ODataStream] (result.ts): the constructor *)
(* ===================================================================== *)

Module ODataStream.

(** What is passed as [stream]: a string (then it is the content type),
    a stream object, or nothing ([undefined] or [null]). *)
Inductive StreamArg : Type :=
| FromString (s : string)
| FromStream (handle : nat)
| NoStream.

Inductive StreamRef : Type :=
| Null
| Handle (handle : nat)
| Absent.              (* the nullish value that was passed *)

Record t : Type := mkStream {
  stream : StreamRef;
  contentType : string
}.

(** [new ODataStream(stream, contentType)] *)
Definition new (arg : StreamArg) (contentType : option string) : t :=
  let '(stream, contentType) :=
    match arg with
    | FromString s => (Null, Some s)
    | FromStream h => (Handle h, contentType)
    | NoStream => (Absent, contentType)
    end in
  mkStream stream
    (match contentType with
     | Some c => if String.eqb c "" then "application/octet-stream" else c
     | None => "application/octet-stream"
     end).

End ODataStream.

(* ===================================================================== *)
(** ** Method, key and controller decorators (odata.ts) *)
(* ===================================================================== *)

#[global] Instance ControllerClass_eq_dec : EqDecision ControllerClass.
Proof. solve_decision. Defined.

#[global] Instance ControllerClass_countable : Countable ControllerClass.
Proof.
  apply (inj_countable' (fun c => match c with Controller n => n end) Controller).
  intros []; reflexivity.
Defined.

Module OData.

(** *** Strings. The strings of the embedding are strings of ASCII
    characters, and on them [toLowerCase] and [toUpperCase] are those of
    the code: they map the letters A to Z and a to z. A byte beyond 127
    stands for no character and is left as it is; where a statement
    depends on it, it says [ascii_only]. *)

Definition lower_char (c : ascii) : ascii :=
  let n := nat_of_ascii c in
  if andb (Nat.leb 65 n) (Nat.leb n 90) then ascii_of_nat (n + 32) else c.

Definition upper_char (c : ascii) : ascii :=
  let n := nat_of_ascii c in
  if andb (Nat.leb 97 n) (Nat.leb n 122) then ascii_of_nat (n - 32) else c.

Fixpoint toLowerCase (s : string) : string :=
  match s with
  | EmptyString => EmptyString
  | String c rest => String (lower_char c) (toLowerCase rest)
  end.

Fixpoint toUpperCase (s : string) : string :=
  match s with
  | EmptyString => EmptyString
  | String c rest => String (upper_char c) (toUpperCase rest)
  end.

(** [s.indexOf('/') >= 0] *)
Fixpoint has_slash (s : string) : bool :=
  match s with
  | EmptyString => false
  | String c rest => if Ascii.eqb c "/" then true else has_slash rest
  end.

(** [s.replace(pat, '')]: the first occurrence of [pat] is removed. *)
Fixpoint remove_first (pat s : string) : string :=
  if String.prefix pat s
  then String.substring (String.length pat) (String.length s - String.length pat) s
  else match s with
       | EmptyString => s
       | String c rest => String c (remove_first pat rest)
       end.

(** *** Metadata of one controller class *)

(** An entry of [ODataKeyParameters] / [ODataLinkParameters]; a name
    that is [undefined] is [None]. *)
Record KeyParam : Type := mkKeyParam {
  kp_from : option string;
  kp_to : option string
}.

(** The metadata that the decorators of this file define on the
    prototype of a class, by member name, and the member names
    [getAllPropertyNames] (utils.ts) lists for it. The class is taken
    without decorated ancestors: [Reflect.getMetadata] finds what
    [Reflect.getOwnMetadata] finds. *)
Record ClassMeta : Type := mkClassMeta {
  cm_propNames : list string;
  cm_methods : gmap string (list string);
  cm_keys : gmap string (list KeyParam);
  cm_links : gmap string (list KeyParam)
}.

(** [getMethod(target, targetKey)]: [None] is [undefined]. *)
Definition getMethod (target : ClassMeta) (targetKey : string) : option (list string) :=
  cm_methods target !! targetKey.

Definition getKeys (target : ClassMeta) (targetKey : string) : list KeyParam :=
  default [] (cm_keys target !! targetKey).

Definition getLinks (target : ClassMeta) (targetKey : string) : list KeyParam :=
  default [] (cm_links target !! targetKey).

(** [getMethod(target, prop) && getMethod(target, prop).indexOf(method) >= 0] *)
Definition handles (target : ClassMeta) (method prop : string) : bool :=
  match getMethod target prop with
  | Some methods => existsb (String.eqb method) methods
  | None => false
  end.

(** What [findODataMethod] returns. *)
Record Found : Type := mkFound {
  call : string;
  key : list KeyParam;
  link : list KeyParam
}.

Definition findODataMethod {A} (target : ClassMeta) (method : string)
    (keys : option (list A)) : option Found :=
  let keys := default [] keys in
  let propNames := cm_propNames target in
  let arity prop := Nat.eqb (length keys) (length (getKeys target prop)) in
  let named prop := String.eqb prop (toLowerCase method) in
  match find (fun prop => andb (handles target method prop) (arity prop)) propNames with
  | Some prop => Some (mkFound prop (getKeys target prop) (getLinks target prop))
  | None =>
  match find (fun prop => andb (named prop) (arity prop)) propNames with
  | Some prop => Some (mkFound prop (getKeys target prop) (getLinks target prop))
  | None =>
  match find (handles target method) propNames with
  | Some prop => Some (mkFound prop [] (getLinks target prop))
  | None =>
  match find named propNames with
  | Some prop => Some (mkFound prop [] (getLinks target prop))
  | None => None
  end end end end.

(** *** The method decorators *)

(** [existingMethods.unshift(type)] on the metadata of [targetKey]. *)
Definition unshift_method (type targetKey : string) (target : ClassMeta) : ClassMeta :=
  mkClassMeta (cm_propNames target)
    (<[targetKey := type :: default [] (cm_methods target !! targetKey)]>
       (cm_methods target))
    (cm_keys target) (cm_links target).

(** The [type] that [odataMethodFactory(type)] keeps. *)
Definition factory_type (type : string) : string :=
  if has_slash type then type else toLowerCase type.

(** [odataMethodFactory(type)] applied to [(target, targetKey)]. *)
Definition odataMethodFactory (type : string) (targetKey : string)
    (target : ClassMeta) : ClassMeta :=
  unshift_method (factory_type type) targetKey target.

(** [odataMethodFactory(type, navigationProperty)], also written
    [odataMethodFactory(type)(navigationProperty)], applied to
    [(target, targetKey)]. *)
Definition navigationMethod (type navigationProperty targetKey : string)
    (target : ClassMeta) : ClassMeta :=
  odataMethodFactory (factory_type type ++ "/" ++ navigationProperty) targetKey target.

(** [...(navigationProperty).$ref] and [....$value] *)
Definition refMethod (type navigationProperty targetKey : string)
    (target : ClassMeta) : ClassMeta :=
  unshift_method (factory_type type ++ "/" ++ navigationProperty ++ "/$ref")
    targetKey target.

Definition valueMethod (type targetKey : string) (target : ClassMeta) : ClassMeta :=
  unshift_method (factory_type type ++ "/$value") targetKey target.

Definition GET : string -> ClassMeta -> ClassMeta := odataMethodFactory "GET".
Definition POST : string -> ClassMeta -> ClassMeta := odataMethodFactory "POST".
Definition PUT : string -> ClassMeta -> ClassMeta := odataMethodFactory "PUT".
Definition PATCH : string -> ClassMeta -> ClassMeta := odataMethodFactory "PATCH".
Definition DELETE : string -> ClassMeta -> ClassMeta := odataMethodFactory "DELETE".

Definition createRef (navigationProperty : string) : string -> ClassMeta -> ClassMeta :=
  refMethod "POST" navigationProperty.
Definition updateRef (navigationProperty : string) : string -> ClassMeta -> ClassMeta :=
  refMethod "PUT" navigationProperty.
Definition deleteRef (navigationProperty : string) : string -> ClassMeta -> ClassMeta :=
  refMethod "DELETE" navigationProperty.

(** [method(m)] *)
Definition method (m : string) : string -> ClassMeta -> ClassMeta :=
  odataMethodFactory (toUpperCase m).

(** *** The key decorator *)

(** [name || paramName] *)
Definition or_name (name paramName : option string) : option string :=
  match name with
  | Some s => if String.eqb s "" then paramName else name
  | None => paramName
  end.

(** [key(name)] applied to [(target, targetKey, parameterIndex)];
    [parameterNames] is [getFunctionParameters(target, targetKey)]
    (utils.ts). [key] used bare is [key_decorator None]. What [inject]
    (inject.ts) records is not part of this metadata. *)
Definition key_decorator (name : option string) (parameterNames : list string)
    (targetKey : string) (parameterIndex : nat) (target : ClassMeta) : ClassMeta :=
  let paramName := nth_error parameterNames parameterIndex in
  mkClassMeta (cm_propNames target) (cm_methods target)
    (<[targetKey := (default [] (cm_keys target !! targetKey)
                       ++ [mkKeyParam (or_name name paramName) paramName])%list]>
       (cm_keys target))
    (cm_links target).

(** [link(name)], the same on [ODataLinkParameters]. *)
Definition link_decorator (name : option string) (parameterNames : list string)
    (targetKey : string) (parameterIndex : nat) (target : ClassMeta) : ClassMeta :=
  let paramName := nth_error parameterNames parameterIndex in
  mkClassMeta (cm_propNames target) (cm_methods target) (cm_keys target)
    (<[targetKey := (default [] (cm_links target !! targetKey)
                       ++ [mkKeyParam (or_name name paramName) paramName])%list]>
       (cm_links target)).

(** One use of [@odata.key] on a parameter of a member: the name given,
    the parameter names of the member and the index of the parameter. *)
Record KeyUse : Type := mkKeyUse {
  ku_name : option string;
  ku_parameterNames : list string;
  ku_index : nat
}.

(** Key decorators applied to the parameters of [targetKey], in the
    order of the list. *)
Definition key_decorators (uses : list KeyUse) (targetKey : string)
    (target : ClassMeta) : ClassMeta :=
  fold_left (fun acc u =>
               key_decorator (ku_name u) (ku_parameterNames u) targetKey (ku_index u) acc)
    uses target.

(** The string is made of ASCII characters. *)
Definition ascii_only (s : string) : bool :=
  forallb (fun c => Nat.ltb (nat_of_ascii c) 128) (list_ascii_of_string s).

(** *** Binding a controller to a server *)

(** The second argument of [controller]: absent, [isPublic] or the
    entity set name. *)
Inductive SetNameArg : Type :=
| NoName
| IsPublic (b : bool)
| SetName (s : string).

(** [controller.prototype.elementType] *)
Inductive ElementType : Type :=
| ObjectType
| EntityClass (e : EntityType).

(** The controller class as the decorator reads it. *)
Record ControllerDecl : Type := mkControllerDecl {
  cd_class : ControllerClass;
  cd_name : string;                       (* [controller.name] *)
  cd_entitySetName : option string        (* [controller.prototype.entitySetName] *)
}.

(** What the decorator writes: members of the server prototype, the
    [ODataEntitySets] metadata of the server ([None] until first defined),
    the element types of controller prototypes, and the entity types
    declared on the server prototype by [EntityType] (edm.ts), in order. *)
Record ServerState : Type := mkServerState {
  sv_members : gmap string ControllerClass;
  sv_entitySets : option (gmap string ControllerClass);
  sv_elementTypes : gmap ControllerClass ElementType;
  sv_entityTypes : list (string * ElementType)
}.

(** The name under which the controller is bound; [None] when the
    expression is falsy. *)
Definition resolve_entitySetName (c : ControllerDecl) (entitySetName : SetNameArg)
    : option string :=
  let given := match entitySetName with SetName s => s | _ => "" end in
  if negb (String.eqb given "") then Some given
  else match cd_entitySetName c with
       | Some s =>
           if negb (String.eqb s "") then Some s
           else match entitySetName with
                | IsPublic true =>
                    let n := remove_first "Controller" (cd_name c) in
                    if String.eqb n "" then None else Some n
                | _ => None
                end
       | None =>
           match entitySetName with
           | IsPublic true =>
               let n := remove_first "Controller" (cd_name c) in
               if String.eqb n "" then None else Some n
           | _ => None
           end
       end.

(** [controller(controller, entitySetName, elementType)(server)] *)
Definition controller (c : ControllerDecl) (entitySetName : SetNameArg)
    (elementType : option ElementType) (server : ServerState) : ServerState :=
  let members := <[cd_name c := cd_class c]> (sv_members server) in
  let entitySets :=
    match resolve_entitySetName c entitySetName with
    | Some name => Some (<[name := cd_class c]> (default ∅ (sv_entitySets server)))
    | None => sv_entitySets server
    end in
  let elementTypes :=
    match elementType with
    | Some t => <[cd_class c := t]> (sv_elementTypes server)
    | None => sv_elementTypes server
    end in
  let elementTypes :=
    match elementTypes !! cd_class c with
    | Some _ => elementTypes
    | None => <[cd_class c := ObjectType]> elementTypes
    end in
  mkServerState members entitySets elementTypes
    (sv_entityTypes server
       ++ [(cd_name c, default ObjectType (elementTypes !! cd_class c))]).

(** [getPublicControllers(server)] *)
Definition getPublicControllers (server : ServerState) : gmap string ControllerClass :=
  default ∅ (sv_entitySets server).

End OData.

(* ===================================================================== *)
(** ** Reading a trace *)
(* ===================================================================== *)

Definition entity_eqb (a b : EntityType) : bool :=
  match a, b with Entity x, Entity y => Nat.eqb x y end.

Definition hook_eqb (a b : Hook) : bool :=
  match a, b with HookProcessor x, HookProcessor y => Nat.eqb x y end.

(** The context was built for hooks of kind [t]. *)
Definition has_type (t : HookType) (c : HookContext) : bool :=
  match hc_hookType c with
  | Some t' => HookType_eqb t t'
  | None => false
  end.

(** [ev] says that hook [h], run for kind [t], was awaited and fulfilled. *)
Definition completed (t : HookType) (h : Hook) (ev : Event) : bool :=
  match ev with
  | HookAwaited h' c true => andb (hook_eqb h h') (has_type t c)
  | _ => false
  end.

(** [ev] says that hook [h], run for kind [t], was started: awaited
    (whatever came of it) or dispatched. *)
Definition started (t : HookType) (h : Hook) (ev : Event) : bool :=
  match ev with
  | HookAwaited h' c _ | HookDispatched h' c => andb (hook_eqb h h') (has_type t c)
  | _ => false
  end.

(** [ev] says that hook [h], run for kind [t], was dispatched and not
    awaited. *)
Definition dispatched (t : HookType) (h : Hook) (ev : Event) : bool :=
  match ev with
  | HookDispatched h' c => andb (hook_eqb h h') (has_type t c)
  | _ => false
  end.

(** [evs] is, event by event and in order, a [p]-run of all of [hooks]. *)
Fixpoint run_of (p : Hook -> Event -> bool) (hooks : list Hook) (evs : list Event)
    : bool :=
  match hooks, evs with
  | [], [] => true
  | h :: hs, ev :: es => andb (p h ev) (run_of p hs es)
  | _, _ => false
  end.

(** [evs] is a [p]-run of the first hooks of [hooks], in order. *)
Fixpoint prefix_run (p : Hook -> Event -> bool) (hooks : list Hook) (evs : list Event)
    {struct evs} : bool :=
  match evs, hooks with
  | [], _ => true
  | ev :: es, h :: hs => andb (p h ev) (prefix_run p hs es)
  | _ :: _, [] => false
  end.

(** A call into the repository. *)
Definition is_repo (ev : Event) : bool :=
  match ev with
  | HookAwaited _ _ _ | HookDispatched _ _ => false
  | _ => true
  end.

Definition is_insert (this : EntityType) (ev : Event) : bool :=
  match ev with
  | RepoInsert e _ => entity_eqb e this
  | _ => false
  end.

Definition is_update (this : EntityType) (ev : Event) : bool :=
  match ev with
  | RepoUpdate e _ _ => entity_eqb e this
  | _ => false
  end.

Definition is_delete (this : EntityType) (ev : Event) : bool :=
  match ev with
  | RepoDelete e _ => entity_eqb e this
  | _ => false
  end.

Local Open Scope list_scope.

Section Orders.
Context {RT : Runtime}.

(** [m] leaves the trace it found and appends to it. *)
Definition grows {A} (m : M A) : Prop :=
  forall w r w', m w = (r, w') -> exists t, w_trace w' = w_trace w ++ t.

(** What the data object can be after a run: as it was, or as some hook
    of the run returned it. *)
Definition left_by (hooks : list Hook) (d0 d : Value) : Prop :=
  d = d0 \/ exists h c db, In h hooks /\ fst (hook_execute h c db) = Val d.

(** What [findOne] does with the entity [data] it has read, from the world
    [w1] in which the lookup has been made: the [afterLoad] hooks are
    started, in order; it returns the entity as they left it, or throws
    what one of them rejected with. *)
Definition found_outcome (this : EntityType) (data : Value) (w1 : World)
    (r : Outcome Value) (w' : World) : Prop :=
  exists post,
    w_trace w' = w_trace w1 ++ post
    /\ prefix_run (started afterLoad) (findHooks this afterLoad) post = true
    /\ match r with
       | Return v =>
           run_of (started afterLoad) (findHooks this afterLoad) post = true
           /\ left_by (findHooks this afterLoad) data v
       | Throw e =>
           exists h c db,
             In h (findHooks this afterLoad) /\ fst (hook_execute h c db) = Err e
       | OutOfFuel => False
       end.

(** What [find] does with the array [data] it has loaded, from the world
    [w2] in which the queries have been made: an empty array is returned
    at once, otherwise as [findOne] does with an entity. *)
Definition loaded (this : EntityType) (data : Value) (w2 : World)
    (r : Outcome Value) (w' : World) : Prop :=
  match data with
  | VArr (_ :: _) _ => found_outcome this data w2 r w'
  | _ => r = Return data /\ w' = w2
  end.

(** What a write operation appends: either the complete, fulfilled run of
    its [before] hooks, then the ORM call [op], then the rest, which on a
    normal return ends with the run of the [afterSave] hooks; or, when a
    [before] hook stopped it, hook events only and no normal return. *)
Definition write_order (this : EntityType) (before : HookType) (op : Event -> bool)
    {A} (r : Outcome A) (t : list Event) : Prop :=
  (exists pre ev rest,
     t = pre ++ ev :: rest
     /\ op ev = true
     /\ run_of (completed before) (findHooks this before) pre = true
     /\ (forall v, r = Return v ->
          exists mid post,
            rest = mid ++ post
            /\ run_of (started afterSave) (findHooks this afterSave) post = true))
  \/ ((forall v, r <> Return v)
      /\ prefix_run (started before) (findHooks this before) t = true).

(** The part of a write operation after its ORM call: it appends to the
    trace, and ends, on a normal return, with the [afterSave] run. *)
Definition ends_with_afterSave (this : EntityType) {A} (m : M A) : Prop :=
  forall w r w',
    m w = (r, w') ->
    exists t,
      w_trace w' = w_trace w ++ t
      /\ (forall v, r = Return v ->
           exists mid post,
             t = mid ++ post
             /\ run_of (started afterSave) (findHooks this afterSave) post = true).

(** [m] appends repository calls only. *)
Definition reads {A} (m : M A) : Prop :=
  forall w r w',
    m w = (r, w') ->
    exists t, w_trace w' = w_trace w ++ t /\ forallb is_repo t = true.

(** The context that a hook of kind [t] receives from [TypedService], for
    the data and key of the operation and its transaction context [tx]:
    the entity type of the service, [getService] bound, and the
    transaction context unless the kind is an event. *)
Definition service_context (this : EntityType) (tx : option RequestContext)
    (t : HookType) (data key : Value) : HookContext :=
  mkHookContext (Some this) (Some t) data key
    (if includes HookEvents t then None else tx) None true false.

(** The context that a hook of kind [t] receives from [TypedController]:
    the element type, the request context and the entity manager. *)
Definition controller_context (this : EntityType) (context : RequestContext)
    (t : HookType) (data key : Value) : HookContext :=
  mkHookContext (Some this) (Some t) data key None (Some context) false true.

(** [await this._executeHooks(c); return c.data], once the context is
    complete: the loop, then the data object as the hooks left it. *)
Definition hooks_then_data (isEvent : bool) (handler : Handler) (hooks : list Hook)
    (c : HookContext) : M Value :=
  hc <- run_hooks isEvent handler hooks c ;;
  ret (hc_data hc).

(** [evs] is the run of all of [hooks] from the context [c] to the context
    [c']: an event hook is dispatched with [c]; a hook proper is awaited
    with the context as the hook before it left it and is fulfilled, the
    data object being then what the hook answered (from some state of the
    database). *)
Fixpoint handed (isEvent : bool) (hooks : list Hook) (c : HookContext)
    (evs : list Event) (c' : HookContext) : Prop :=
  match hooks, evs with
  | [], [] => c' = c
  | h :: hs, ev :: es =>
      if isEvent then ev = HookDispatched h c /\ handed isEvent hs c es c'
      else ev = HookAwaited h c true
           /\ exists d db, fst (hook_execute h c db) = Val d
                           /\ handed isEvent hs (set_data d c) es c'
  | _, _ => False
  end.

(** What [hooks_then_data] makes of the world [w1]: it appends the run of
    the hooks from [c] and returns the data object of the last context;
    or a hook proper rejects, after the run of the hooks before it, and
    its rejection is thrown, the rejected await being the last event. *)
Definition hooks_outcome (isEvent : bool) (hooks : list Hook) (c : HookContext)
    (w1 : World) (r : Outcome Value) (w' : World) : Prop :=
  exists post,
    w_trace w' = w_trace w1 ++ post
    /\ match r with
       | Return v => exists c', handed isEvent hooks c post c' /\ v = hc_data c'
       | Throw e =>
           isEvent = false
           /\ exists done h rest evs c' db,
                hooks = done ++ h :: rest
                /\ handed false done c evs c'
                /\ post = evs ++ [HookAwaited h c' false]
                /\ fst (hook_execute h c' db) = Err e
       | OutOfFuel => False
       end.

(** What [findOne] appends for the key [key]: nothing, without a key;
    else the lookup, and after it events of the [afterLoad] hooks only, in
    order, of all of them when it returns. *)
Definition findOne_order (this : EntityType) (key : Value) (r : Outcome Value)
    (t : list Event) : Prop :=
  if nullish key then t = [] /\ r = Return (VObj [])
  else exists post,
         t = RepoFindOne this key :: post
         /\ prefix_run (started afterLoad) (findHooks this afterLoad) post = true
         /\ forall v, r = Return v ->
              run_of (started afterLoad) (findHooks this afterLoad) post = true.

(** What [find] makes of the world [w]: first what [load] does, which
    calls the repository only, and at least once when it answers; if it
    answers an array with elements, then events of the [afterLoad] hooks
    only, in order, of all of them when [find] returns; if it answers an
    empty array, that array at once and no hook; if it throws, the same
    throw. *)
Definition find_order (this : EntityType) (load : M Value) (w : World)
    (r : Outcome Value) (w' : World) : Prop :=
  exists d w1 reads post,
    load w = (d, w1)
    /\ w_trace w1 = w_trace w ++ reads
    /\ forallb is_repo reads = true
    /\ w_trace w' = w_trace w1 ++ post
    /\ prefix_run (started afterLoad) (findHooks this afterLoad) post = true
    /\ match d with
       | Return (VArr (_ :: _) _) =>
           reads <> []
           /\ forall v, r = Return v ->
                run_of (started afterLoad) (findHooks this afterLoad) post = true
       | Return data => reads <> [] /\ r = Return data /\ post = []
       | Throw e => r = Throw e /\ post = []
       | OutOfFuel => r = OutOfFuel /\ post = []
       end.

End Orders.

Local Open Scope string_scope.

(* ===================================================================== *)
(** ** A small in-memory runtime, used to run the embedding *)
(* ===================================================================== *)

Module Demo.

(** Keys are numbers or strings. *)
Definition key_eqb (a b : Value) : bool :=
  match a, b with
  | VNum (NInt x), VNum (NInt y) => Z.eqb x y
  | VStr x, VStr y => String.eqb x y
  | _, _ => false
  end.

Record Config : Type := mkConfig {
  cfg_events : list HookType;                          (* [HookEvents] *)
  cfg_hooks : list (EntityType * HookType * Hook);     (* registered hooks *)
  cfg_rejecting : list Hook;                           (* hooks that reject *)
  cfg_stringTotals : bool;                             (* driver answers counts as strings *)
  cfg_navigations : list (EntityType * (string * NavOptions));
  cfg_typed : list (EntityType * string)               (* properties with an EDM type *)
}.

(** One table for all entity types: rows tagged with their type, keyed by
    the property [id]. *)
Definition Table : Type := list (EntityType * Value).

Definition rows_of (e : EntityType) (db : Table) : list Value :=
  map snd (filter (fun r => entity_eqb (fst r) e) db).

Definition row_id (v : Value) : Value :=
  match v with
  | VObj ps => get_prop "id" ps
  | _ => VUndefined
  end.

Definition lookup (e : EntityType) (key : Value) (db : Table) : Value :=
  match filter (fun v => key_eqb (row_id v) key) (rows_of e db) with
  | v :: _ => v
  | [] => VUndefined
  end.

Definition hookError : Error := mkError (ForeignError "HookError") "rejected by hook".

Definition is_count_sql (sql : string) : bool :=
  String.prefix "select count" sql.

Definition count_row (strings : bool) (n : nat) : Value :=
  VObj [("total", if strings then VStr (pretty (Z.of_nat n))
                  else VNum (NInt (Z.of_nat n)))].

Definition id_row (v : Value) : Value := VObj [("id", row_id v)].

Definition runtime (c : Config) : Runtime := {|
  DB := Table;
  Ast := string;
  ODataQueryParam := string;
  HookEvents := cfg_events c;
  findHooks := fun e t =>
    map snd (filter (fun r => andb (entity_eqb (fst (fst r)) e)
                                   (HookType_eqb (snd (fst r)) t))
               (cfg_hooks c));
  hook_execute := fun h ctx db =>
    if existsb (hook_eqb h) (cfg_rejecting c) then (Err hookError, db)
    else (Val (hc_data ctx), db);
  repo_findOne := fun e key db => (Val (lookup e key db), db);
  repo_find := fun e db => (Val (rows_of e db), db);
  repo_query := fun e sql db =>
    if is_count_sql sql
    then (Val [count_row (cfg_stringTotals c) (length (rows_of e db))], db)
    else (Val (map id_row (rows_of e db)), db);
  repo_findByIds := fun e ids db =>
    (Val (filter (fun v => existsb (key_eqb (row_id v)) ids) (rows_of e db)), db);
  repo_create := fun _ body => body;
  repo_insert := fun e inst db => (Val inst, (db ++ [(e, inst)])%list);
  repo_save := fun e inst db => (Val inst, (db ++ [(e, inst)])%list);
  repo_update := fun e key inst db => (Val VUndefined, db);
  repo_delete := fun e key db =>
    (Val VUndefined,
     filter (fun r => negb (andb (entity_eqb (fst r) e) (key_eqb (row_id (snd r)) key))) db);
  meta_tableName := fun e => match e with Entity n => "t" ++ pretty n end;
  meta_schema := fun _ => VUndefined;
  parser_query := fun s => Val s;
  param_toString := fun s => s;
  transformQueryAst := fun ast _ =>
    mkTransformed [] "" (VBool (String.eqb ast "$count=true")) VUndefined;
  buildSQL := fun table _ ast _ =>
    mkBuiltSQL ("select id from " ++ table)
      (if String.eqb ast "$count=true"
       then Some ("select count(1) as total from " ++ table) else None);
  entity_name := fun e => match e with Entity n => "E" ++ pretty n end;
  getKeyProperties := fun _ => ["id"];
  getType := fun e k =>
    if existsb (fun r => andb (entity_eqb (fst r) e) (String.eqb (snd r) k)) (cfg_typed c)
    then VStr "Edm.String" else VUndefined;
  Literal_convert := fun _ v => v;
  getODataEntityNavigations := fun e =>
    map snd (filter (fun r => entity_eqb (fst r) e) (cfg_navigations c))
|}.

Definition Teacher : EntityType := Entity 1.
Definition Class : EntityType := Entity 2.
Definition Profile : EntityType := Entity 3.

Definition teacher (id : Z) (name : string) : Value :=
  VObj [("id", VNum (NInt id)); ("name", VStr name)].

(** No hooks, numeric totals, no navigations. *)
Definition plain : Config := mkConfig [afterSave] [] [] false [] [].

Definition world {c : Config} (db : Table) : @World (runtime c) :=
  @mkWorld (runtime c) db [] [] [].

Definition two_teachers : Table :=
  [(Teacher, teacher 1 "Ann"); (Teacher, teacher 2 "Bob")].

(** Two [beforeCreate] hooks, one [afterSave] event and one [afterLoad]
    hook on [Teacher]; [rejecting] says which of them reject. *)
Definition hooked (rejecting : list Hook) : Config :=
  mkConfig [afterSave]
    [(Teacher, beforeCreate, HookProcessor 1);
     (Teacher, beforeCreate, HookProcessor 2);
     (Teacher, afterSave, HookProcessor 3);
     (Teacher, afterLoad, HookProcessor 4)]
    rejecting false [] [].

Definition request : RequestContext := Request 0.

(** [Teacher] with a one-to-many navigation to [Class] and a one-to-one
    navigation to [Profile] whose foreign key is declared on neither. *)
Definition school : Config :=
  mkConfig [afterSave] [] [] false
    [(Teacher, ("classes", mkNav "OneToMany" Class "teacherId"));
     (Teacher, ("profile", mkNav "OneToOne" Profile "profileId"))]
    [(Class, "teacherId")].

(** The same school, where a [beforeCreate] hook of [Profile] rejects
    every profile. *)
Definition strict_school : Config :=
  mkConfig [afterSave]
    [(Profile, beforeCreate, HookProcessor 5)] [HookProcessor 5] false
    (cfg_navigations school) (cfg_typed school).

(** A driver that answers counts as strings. *)
Definition mysql : Config := mkConfig [afterSave] [] [] true [] [].

End Demo.

(* ===================================================================== *)
(** ** Parameter annotations (odata.ts) *)
(* ===================================================================== *)

Module ODataParams.

(** The metadata keys of [InjectKey] under which one parameter of a
    method is recorded. *)
Inductive ParamKey : Type :=
| ODataQueryParameter
| ODataFilterParameter
| ODataBodyParameter
| ODataContextParameter
| ODataTxContextParameter
| ODataInjectContainer
| ODataStreamParameter
| ODataResultParameter
| ODataIdParameter
| ODataTypeParameter.

#[global] Instance ParamKey_eq_dec : EqDecision ParamKey.
Proof. solve_decision. Defined.

(** The metadata of a prototype, by key and member: the recorded
    parameter name; [None] is [undefined], recorded or not. *)
Definition ParamMeta : Type := ParamKey -> string -> option string.

Definition no_metadata : ParamMeta := fun _ _ => None.

(** [Reflect.defineMetadata(key, value, target, targetKey)] *)
Definition defineMetadata (key : ParamKey) (value : option string) (targetKey : string)
    (target : ParamMeta) : ParamMeta :=
  fun k m =>
    if andb (bool_decide (k = key)) (String.eqb m targetKey) then value else target k m.

(** A parameter decorator [(target, targetKey, parameterIndex)]; the
    first argument is [getFunctionParameters(target, targetKey)]. *)
Definition ParamDecorator : Type := list string -> string -> nat -> ParamMeta -> ParamMeta.

(** [createMethodParameterAnnotation(key)]. What [inject] records is not
    modelled. *)
Definition createMethodParameterAnnotation (key : ParamKey) : ParamDecorator :=
  fun parameterNames targetKey parameterIndex target =>
    let paramName := nth_error parameterNames parameterIndex in
    defineMetadata key paramName targetKey target.

(** [createMethodParameterGetter(key)] *)
Definition createMethodParameterGetter (key : ParamKey) (target : ParamMeta)
    (targetKey : string) : option string :=
  target key targetKey.

Definition query := createMethodParameterAnnotation ODataQueryParameter.
Definition getQueryParameter := createMethodParameterGetter ODataQueryParameter.
Definition filter := createMethodParameterAnnotation ODataFilterParameter.
Definition getFilterParameter := createMethodParameterGetter ODataFilterParameter.
Definition body := createMethodParameterAnnotation ODataBodyParameter.
Definition getBodyParameter := createMethodParameterGetter ODataBodyParameter.
Definition context := createMethodParameterAnnotation ODataContextParameter.
Definition getContextParameter := createMethodParameterGetter ODataContextParameter.
Definition txContext := createMethodParameterAnnotation ODataTxContextParameter.
Definition getTxContextParameter := createMethodParameterGetter ODataTxContextParameter.
Definition injectContainer := createMethodParameterAnnotation ODataInjectContainer.
Definition getInjectContainerParameter := createMethodParameterGetter ODataInjectContainer.
Definition stream := createMethodParameterAnnotation ODataStreamParameter.
Definition getStreamParameter := createMethodParameterGetter ODataStreamParameter.
Definition result := createMethodParameterAnnotation ODataResultParameter.
Definition getResultParameter := createMethodParameterGetter ODataResultParameter.
Definition id := createMethodParameterAnnotation ODataIdParameter.
Definition getIdParameter := createMethodParameterGetter ODataIdParameter.
Definition getTypeParameter := createMethodParameterGetter ODataTypeParameter.

(** [parameterNames.indexOf(name)]; [None] is [-1]. *)
Fixpoint indexOf (name : string) (parameterNames : list string) : option nat :=
  match parameterNames with
  | [] => None
  | n :: rest =>
      if String.eqb n name then Some 0
      else match indexOf name rest with
           | Some i => Some (S i)
           | None => None
           end
  end.

(** [parameter(name, type)(target, targetKey)] *)
Definition parameter (name : string) (type : ParamDecorator)
    (parameterNames : list string) (targetKey : string) (target : ParamMeta)
    : ParamMeta :=
  match indexOf name parameterNames with
  | Some parameterIndex => type parameterNames targetKey parameterIndex target
  | None => target
  end.

(** [parameters(parameters)(target, targetKey)]: the properties of the
    object, in their order. *)
Definition parameters (ps : list (string * ParamDecorator))
    (parameterNames : list string) (targetKey : string) (target : ParamMeta)
    : ParamMeta :=
  fold_left (fun acc p => parameter (fst p) (snd p) parameterNames targetKey acc)
    ps target.

End ODataParams.

(* ===================================================================== *)
(** ** More on traces, and a runtime whose parser rejects *)
(* ===================================================================== *)

Definition is_save (this : EntityType) (ev : Event) : bool :=
  match ev with
  | RepoSave e _ => entity_eqb e this
  | _ => false
  end.

Local Open Scope list_scope.

Section MoreOrders.
Context {RT : Runtime}.

(** [ev] says that hook [h], run for kind [t], was awaited and fulfilled,
    or dispatched. *)
Definition passed (t : HookType) (h : Hook) (ev : Event) : bool :=
  orb (completed t h ev) (dispatched t h ev).

(** What a write operation of [TypedController] appends: the run of all
    its [before] hooks, each of them awaited and fulfilled (or dispatched,
    for an event kind), and then the one ORM call, last; or a [before]
    hook rejects, after the fulfilled run of the hooks before it: the
    rejected await is the last event and the rejection is thrown. *)
Definition guarded_call_order (this : EntityType) (before : HookType)
    (op : Event -> bool) {A} (r : Outcome A) (t : list Event) : Prop :=
  (exists pre ev,
     t = pre ++ [ev]
     /\ op ev = true
     /\ run_of (passed before) (findHooks this before) pre = true)
  \/ (exists e done h rest evs c db,
        r = Throw e
        /\ findHooks this before = done ++ h :: rest
        /\ t = evs ++ [HookAwaited h c false]
        /\ run_of (completed before) done evs = true
        /\ has_type before c = true
        /\ fst (hook_execute h c db) = Err e).

End MoreOrders.

Local Open Scope string_scope.

Module DemoParser.

Definition syntaxError : Error := mkError (ForeignError "SyntaxError") "unexpected input".

(** The runtime of [Demo], with a parser that accepts only queries that
    start with a dollar sign. *)
Definition runtime (c : Demo.Config) : Runtime :=
  let R := Demo.runtime c in {|
  DB := Demo.Table;
  Ast := string;
  ODataQueryParam := string;
  HookEvents := @HookEvents R;
  findHooks := @findHooks R;
  hook_execute := @hook_execute R;
  repo_findOne := @repo_findOne R;
  repo_find := @repo_find R;
  repo_query := @repo_query R;
  repo_findByIds := @repo_findByIds R;
  repo_create := @repo_create R;
  repo_insert := @repo_insert R;
  repo_save := @repo_save R;
  repo_update := @repo_update R;
  repo_delete := @repo_delete R;
  meta_tableName := @meta_tableName R;
  meta_schema := @meta_schema R;
  parser_query := fun s => if String.prefix "$" s then Val s else Err syntaxError;
  param_toString := @param_toString R;
  transformQueryAst := @transformQueryAst R;
  buildSQL := @buildSQL R;
  entity_name := @entity_name R;
  getKeyProperties := @getKeyProperties R;
  getType := @getType R;
  Literal_convert := @Literal_convert R;
  getODataEntityNavigations := @getODataEntityNavigations R
|}.

Definition world {c : Demo.Config} (db : Demo.Table) : @World (runtime c) :=
  @mkWorld (runtime c) db [] [] [].

(** A school where [Class] has a many-to-one navigation to [Teacher]. *)
Definition classes : Demo.Config :=
  Demo.mkConfig [afterSave] [] [] false
    [(Demo.Class, ("teacher", mkNav "ManyToOne" Demo.Teacher "teacherId"))]
    [(Demo.Class, "teacherId")].

(** The school of [Demo], where [Teacher] has an [afterSave] hook and a
    [beforeCreate] hook of [Profile] rejects every profile. *)
Definition guarded_school : Demo.Config :=
  Demo.mkConfig []
    [(Demo.Teacher, afterSave, HookProcessor 3);
     (Demo.Profile, beforeCreate, HookProcessor 5)]
    [HookProcessor 5] false
    (Demo.cfg_navigations Demo.school) (Demo.cfg_typed Demo.school).

End DemoParser.

(* ===================================================================== *)
(** ** A controller class and a server, used to run the decorators *)
(* ===================================================================== *)

Module DemoOData.

(** A controller with the members [find], [findOne], [remove] and
    [delete], none decorated yet. *)
Definition bare : OData.ClassMeta :=
  OData.mkClassMeta ["find"; "findOne"; "remove"; "delete"] ∅ ∅ ∅.

(** [@odata.GET find(...)], [@odata.GET findOne(@odata.key key)],
    [@odata.DELETE remove(@odata.key id)]. *)
Definition teachers : OData.ClassMeta :=
  OData.DELETE "remove"
    (OData.key_decorator None ["id"] "remove" 0
       (OData.GET "findOne"
          (OData.key_decorator None ["key"; "ctx"] "findOne" 0
             (OData.GET "find" bare)))).

Definition TeachersController : OData.ControllerDecl :=
  OData.mkControllerDecl (Controller 1) "TeachersController" None.

Definition ClassesController : OData.ControllerDecl :=
  OData.mkControllerDecl (Controller 2) "ClassesController" (Some "Classes").

Definition empty_server : OData.ServerState :=
  OData.mkServerState ∅ None ∅ [].

End DemoOData.

(* ===================================================================== *)
(** * Properties *)
(* ===================================================================== *)

Local Open Scope list_scope.

(** ** Property lists *)

Lemma has_prop_delete_prop (k : string) (ps : Props) :
  has_prop k (delete_prop k ps) = false.
Proof.
  induction ps as [|[k' v] ps IH]; simpl; [reflexivity|].
  destruct (String.eqb k k') eqn:E; simpl; [exact IH|].
  rewrite E. exact IH.
Qed.

Lemma get_prop_delete_prop (k : string) (ps : Props) :
  get_prop k (delete_prop k ps) = VUndefined.
Proof.
  induction ps as [|[k' v] ps IH]; simpl; [reflexivity|].
  destruct (String.eqb k k') eqn:E; simpl; [exact IH|].
  rewrite E. exact IH.
Qed.

Lemma delete_prop_other (k k' : string) (ps : Props) :
  String.eqb k' k = false ->
  get_prop k' (delete_prop k ps) = get_prop k' ps.
Proof.
  intros Hne. induction ps as [|[k0 v] ps IH]; simpl; [reflexivity|].
  destruct (String.eqb k k0) eqn:E.
  - apply String.eqb_eq in E. subst k0. rewrite Hne. exact IH.
  - simpl. destruct (String.eqb k' k0); [reflexivity | exact IH].
Qed.

Lemma get_prop_set_prop (k : string) (v : Value) (ps : Props) :
  get_prop k (set_prop k v ps) = v.
Proof.
  induction ps as [|[k' v'] ps IH]; simpl.
  - rewrite String.eqb_refl. reflexivity.
  - destruct (String.eqb k k') eqn:E; simpl.
    + rewrite String.eqb_refl. reflexivity.
    + rewrite E. exact IH.
Qed.

(** ** The registry *)

Section RegistryFacts.
Context {ControllerInstance : Type}.
Variable getControllerInstance : option ControllerClass -> ControllerInstance.

Lemma register_all_keeps (calls : list (EntityType * ControllerClass))
    (m : gmap EntityType ControllerClass) (e : EntityType) (c0 : ControllerClass) :
  m !! e = Some c0 -> Registry.register_all calls m !! e = Some c0.
Proof.
  revert m. induction calls as [|[e1 c1] calls IH]; intros m Hm; simpl; [exact Hm|].
  apply IH. unfold Registry.registerController.
  destruct (m !! e1) eqn:E1; simpl; [exact Hm|].
  destruct (decide (e1 = e)) as [->|Hne].
  - congruence.
  - rewrite lookup_insert_ne; [exact Hm | exact Hne].
Qed.

(** C10. The registry holds one controller per entity: registering an
    entity that already has a controller throws an [Error] and leaves the
    map as it was; registering a fresh entity adds exactly that mapping;
    [getEntityController] is [getControllerInstance] of the registered
    controller; and no later registration replaces a mapping. *)
Theorem registry_one_controller_per_entity
    (m : gmap EntityType ControllerClass) (e : EntityType) (c : ControllerClass) :
  (forall c0, m !! e = Some c0 ->
     Registry.registerController e c m = (Err Registry.alreadyGenerated, m)
     /\ err_kind Registry.alreadyGenerated = PlainError
     /\ Registry.getEntityController getControllerInstance e m
        = getControllerInstance (Some c0))
  /\ (m !! e = None ->
      exists m', Registry.registerController e c m = (Val tt, m')
        /\ m' !! e = Some c
        /\ (forall e', e' <> e -> m' !! e' = m !! e')
        /\ Registry.getEntityController getControllerInstance e m'
           = getControllerInstance (Some c))
  /\ (forall calls c0, m !! e = Some c0 ->
        Registry.register_all calls m !! e = Some c0).
Proof.
  split; [|split].
  - intros c0 H. unfold Registry.registerController, Registry.getEntityController.
    rewrite H. auto.
  - intros H. exists (<[e := c]> m).
    unfold Registry.registerController, Registry.getEntityController.
    rewrite H. rewrite lookup_insert_eq. repeat split.
    intros e' Hne. apply lookup_insert_ne. congruence.
  - intros calls c0 H. apply register_all_keeps. exact H.
Qed.

End RegistryFacts.

(** The registry at work: a second registration for [Teacher] throws and
    changes nothing, the first one stays. *)
Lemma registry_one_controller_per_entity_witness :
  let m : gmap EntityType ControllerClass := {[ Demo.Teacher := Controller 7 ]} in
  Registry.registerController Demo.Teacher (Controller 8) m
    = (Err Registry.alreadyGenerated, m)
  /\ Registry.getEntityController (fun c => c) Demo.Teacher m = Some (Controller 7)
  /\ Registry.register_all [(Demo.Teacher, Controller 8); (Demo.Class, Controller 9)] m
       !! Demo.Teacher = Some (Controller 7).
Proof.
  intros m.
  pose proof (registry_one_controller_per_entity (fun c => c) m Demo.Teacher (Controller 8))
    as [Hdup [_ Hkeep]].
  assert (Hm : m !! Demo.Teacher = Some (Controller 7)) by (apply lookup_singleton_eq).
  destruct (Hdup _ Hm) as [H1 [_ H3]].
  split; [exact H1|]. split; [exact H3|].
  apply Hkeep. exact Hm.
Defined.

(** ** [ODataResult.Ok] *)

(** C4. For an array [r], [Ok(r)] answers with status 200 and the body
    [{ value: r }]; the body carries ['@odata.count'], equal to
    [r.inlinecount], exactly when [r] has a numeric [inlinecount], and in
    that case [inlinecount] has been deleted from the array that is
    wrapped. *)
Theorem Ok_array_envelope (elems : list Value) (props : Props) (ct : option string) :
  let n := get_prop "inlinecount" props in
  exists res,
    ODataResult.Ok (ODataResult.Plain (VArr elems props)) ct = Val res
    /\ ODataResult.statusCode res = 200%Z
    /\ (exists bprops arr,
          ODataResult.body res = VObj bprops
          /\ get_prop "value" bprops = arr
          /\ (if ODataResult.is_number n
              then arr = VArr elems (delete_prop "inlinecount" props)
                   /\ member arr "inlinecount" = Val VUndefined
                   /\ hasOwnProperty arr "inlinecount" = Val false
                   /\ bprops = [("value", arr); ("@odata.count", n)]
              else arr = VArr elems props
                   /\ bprops = [("value", arr)])
          /\ has_prop "@odata.count" bprops = ODataResult.is_number n).
Proof.
  intros n. unfold ODataResult.Ok. simpl. fold n.
  destruct (ODataResult.is_number n) eqn:Hn.
  - rewrite Hn. eexists. split; [reflexivity|]. split; [reflexivity|].
    eexists _, _. split; [reflexivity|]. split; [reflexivity|].
    split; [|reflexivity]. simpl.
    rewrite get_prop_delete_prop, has_prop_delete_prop. repeat split.
  - eexists. split; [reflexivity|]. split; [reflexivity|].
    eexists _, _. split; [reflexivity|]. split; [reflexivity|].
    split; [|reflexivity]. split; reflexivity.
Qed.

(** ** [findOne] without a key, [_executeHooks] without a hook type *)

Section Guards.
Context {RT : Runtime}.

(** C9. [TypedService.findOne] with an [undefined] or [null] key returns
    the empty object and leaves the world untouched: no repository call,
    no hook, no throw. *)
Theorem findOne_without_key (this : EntityType) (ctx : option RequestContext)
    (w : World) :
  TypedService.findOne this VUndefined ctx w = (Return (VObj []), w)
  /\ TypedService.findOne this VNull ctx w = (Return (VObj []), w).
Proof. split; reflexivity. Qed.

(** C6. [_executeHooks] of either controller, given a context without a
    hook type, throws the [ServerInternalError] 'Hook Type must be specify
    by controller'; no hook is executed or dispatched (the world is as it
    was). *)
Theorem executeHooks_without_hookType (this : EntityType) (ctx : HookContext)
    (w : World) :
  hc_hookType ctx = None ->
  TypedService._executeHooks this ctx w = (Throw TypedService.hookTypeMissing, w)
  /\ TypedController._executeHooks this ctx w
     = (Throw TypedController.hookTypeMissing, w)
  /\ TypedService.hookTypeMissing
     = mkError ServerInternalError "Hook Type must be specify by controller"
  /\ TypedController.hookTypeMissing
     = mkError ServerInternalError "Hook Type must be specify by controller".
Proof.
  intros H. repeat split.
  - unfold TypedService._executeHooks.
    destruct (hc_entityType ctx); simpl; rewrite H; reflexivity.
  - unfold TypedController._executeHooks.
    destruct (hc_entityType ctx); simpl; destruct (hc_em ctx); simpl;
      rewrite H; reflexivity.
Qed.

(** C8. [save] is create-or-update: with a truthy key whose lookup finds
    an entity it is [update(key, body)]; with a falsy key, or a lookup
    that finds nothing, it is [create(body)]. The lookup is the only
    thing [save] does on its own. *)
Theorem save_is_upsert (fuel : nat) (this : EntityType) (key body : Value)
    (ctx : option RequestContext) (w : World) :
  (truthy key = false ->
     TypedService.save fuel this key body ctx w
     = TypedService.create fuel this body ctx w)
  /\ (truthy key = true ->
      forall item db',
        repo_findOne this key (w_db w) = (Val item, db') ->
        let w1 := mkWorld db' (w_trace w ++ [RepoFindOne this key])
                    (w_console w) (w_pending w) in
        (truthy item = true ->
           TypedService.save fuel this key body ctx w
           = TypedService.update this key body ctx w1)
        /\ (truthy item = false ->
            TypedService.save fuel this key body ctx w
            = TypedService.create fuel this body ctx w1)).
Proof.
  unfold TypedService.save. split.
  - intros ->. reflexivity.
  - intros Hk item db' Hfind. rewrite Hk.
    split; intros Hi; unfold bind at 1, call; rewrite Hfind; cbv zeta iota;
      rewrite Hi; reflexivity.
Qed.

End Guards.

(** ** The loop over the hooks *)

Lemma hook_eqb_refl (h : Hook) : hook_eqb h h = true.
Proof. destruct h; simpl; apply Nat.eqb_refl. Qed.

Lemma HookType_eqb_eq (a b : HookType) : HookType_eqb a b = true <-> a = b.
Proof. destruct a, b; simpl; split; intros H; try reflexivity; discriminate. Qed.

Lemma has_type_set_data (t : HookType) (d : Value) (c : HookContext) :
  has_type t (set_data d c) = has_type t c.
Proof. reflexivity. Qed.

Lemma run_of_prefix_run (p : Hook -> Event -> bool) (hooks : list Hook)
    (evs : list Event) :
  run_of p hooks evs = true -> prefix_run p hooks evs = true.
Proof.
  revert evs. induction hooks as [|h hs IH]; intros [|ev es]; simpl; try congruence.
  intros H. apply andb_prop in H as [H1 H2]. rewrite H1. simpl. apply IH. exact H2.
Qed.

Lemma completed_started (t : HookType) (h : Hook) (ev : Event) :
  completed t h ev = true -> started t h ev = true.
Proof. destruct ev; simpl; try congruence. destruct fulfilled; congruence. Qed.

Lemma dispatched_started (t : HookType) (h : Hook) (ev : Event) :
  dispatched t h ev = true -> started t h ev = true.
Proof. destruct ev; simpl; congruence. Qed.

Lemma run_of_impl (p q : Hook -> Event -> bool) (hooks : list Hook) (evs : list Event) :
  (forall h ev, p h ev = true -> q h ev = true) ->
  run_of p hooks evs = true -> run_of q hooks evs = true.
Proof.
  intros Hpq. revert evs.
  induction hooks as [|h hs IH]; intros [|ev es]; simpl; try congruence.
  intros H. apply andb_prop in H as [H1 H2].
  rewrite (Hpq _ _ H1). simpl. apply IH. exact H2.
Qed.

Lemma prefix_run_impl (p q : Hook -> Event -> bool) (hooks : list Hook)
    (evs : list Event) :
  (forall h ev, p h ev = true -> q h ev = true) ->
  prefix_run p hooks evs = true -> prefix_run q hooks evs = true.
Proof.
  intros Hpq. revert hooks.
  induction evs as [|ev es IH]; intros [|h hs]; simpl; try congruence.
  intros H. apply andb_prop in H as [H1 H2].
  rewrite (Hpq _ _ H1). simpl. apply IH. exact H2.
Qed.

Section HookLoop.
Context {RT : Runtime}.

(** Events: every hook is dispatched, in order, with the same context;
    nothing is run, nothing can be thrown. *)
Lemma run_hooks_event (handler : Handler) (hooks : list Hook) (ctx : HookContext)
    (w : World) :
  run_hooks true handler hooks ctx w
  = (Return ctx,
     mkWorld (w_db w)
       (w_trace w ++ map (fun h => HookDispatched h ctx) hooks)
       (w_console w)
       (w_pending w ++ map (fun h => mkDetached h ctx handler) hooks)).
Proof.
  revert w. induction hooks as [|h hooks IH]; intros w; simpl.
  - unfold ret. rewrite !app_nil_r. destruct w; reflexivity.
  - unfold bind at 1, dispatch_hook. rewrite IH. simpl.
    rewrite <- !app_assoc. reflexivity.
Qed.

Lemma dispatched_run (t : HookType) (ctx : HookContext) (hooks : list Hook) :
  has_type t ctx = true ->
  run_of (dispatched t) hooks (map (fun h => HookDispatched h ctx) hooks) = true.
Proof.
  intros Ht. induction hooks as [|h hooks IH]; simpl; [reflexivity|].
  rewrite hook_eqb_refl, Ht, IH. reflexivity.
Qed.

(** Hooks proper: they are awaited one at a time, in order; the loop ends
    at the first rejection, which it rethrows. *)
Lemma run_hooks_awaited (t : HookType) (handler : Handler) (hooks : list Hook) :
  forall (ctx : HookContext) (w : World) r w',
    has_type t ctx = true ->
    run_hooks false handler hooks ctx w = (r, w') ->
    w_pending w' = w_pending w /\ w_console w' = w_console w /\
    match r with
    | Return ctx' =>
        has_type t ctx' = true
        /\ left_by hooks (hc_data ctx) (hc_data ctx')
        /\ exists evs, w_trace w' = w_trace w ++ evs
                       /\ run_of (completed t) hooks evs = true
    | Throw e =>
        exists done h rest evs c db,
          hooks = done ++ h :: rest
          /\ w_trace w' = w_trace w ++ evs ++ [HookAwaited h c false]
          /\ run_of (completed t) done evs = true
          /\ has_type t c = true
          /\ fst (hook_execute h c db) = Err e
    | OutOfFuel => False
    end.
Proof.
  induction hooks as [|h hooks IH]; intros ctx w r w' Ht Hrun; simpl in Hrun.
  - unfold ret in Hrun. inversion Hrun; subst. repeat split; auto.
    + left. reflexivity.
    + exists []. rewrite app_nil_r. auto.
  - unfold bind at 1, await_hook in Hrun.
    destruct (hook_execute h ctx (w_db w)) as [res db'] eqn:Hex.
    destruct res as [d|e].
    + apply IH with (ctx := set_data d ctx) in Hrun; [|exact Ht].
      simpl in Hrun. destruct Hrun as [Hp [Hc Hr]].
      split; [exact Hp|]. split; [exact Hc|].
      destruct r as [ctx'|e|]; [| |exact Hr].
      * destruct Hr as [Ht' [Hleft [evs [Htr Hev]]]].
        split; [exact Ht'|]. split.
        { right. destruct Hleft as [->|[h1 [c1 [db1 [Hin Hx]]]]].
          - exists h, ctx, (w_db w). split; [left; reflexivity|].
            rewrite Hex. reflexivity.
          - exists h1, c1, db1. split; [right; exact Hin | exact Hx]. }
        exists (HookAwaited h ctx true :: evs). split.
        { rewrite Htr. rewrite <- app_assoc. reflexivity. }
        simpl. rewrite hook_eqb_refl, Ht, Hev. reflexivity.
      * destruct Hr as [done [h1 [rest [evs [c [db [Hh [Htr [Hev [Htc Hx]]]]]]]]]].
        exists (h :: done), h1, rest, (HookAwaited h ctx true :: evs), c, db.
        split; [rewrite Hh; reflexivity|]. split.
        { rewrite Htr. rewrite <- !app_assoc. reflexivity. }
        split; [|split; assumption].
        simpl. rewrite hook_eqb_refl, Ht, Hev. reflexivity.
    + inversion Hrun; subst. simpl. split; [reflexivity|]. split; [reflexivity|].
      exists [], h, hooks, [], ctx, (w_db w). rewrite Hex. repeat split; auto.
Qed.

(** Either way the loop only appends hook events of kind [t], for the
    hooks in order, and for all of them when it returns. *)
Lemma run_hooks_started (t : HookType) (isEvent : bool) (handler : Handler)
    (hooks : list Hook) (ctx : HookContext) (w : World) r w' :
  has_type t ctx = true ->
  run_hooks isEvent handler hooks ctx w = (r, w') ->
  exists evs,
    w_trace w' = w_trace w ++ evs
    /\ prefix_run (started t) hooks evs = true
    /\ match r with
       | Return ctx' =>
           run_of (started t) hooks evs = true
           /\ left_by hooks (hc_data ctx) (hc_data ctx')
       | Throw _ => isEvent = false
       | OutOfFuel => False
       end.
Proof.
  intros Ht Hrun. destruct isEvent.
  - rewrite run_hooks_event in Hrun. inversion Hrun; subst. simpl.
    eexists. split; [reflexivity|].
    assert (Hd := dispatched_run t ctx hooks Ht).
    assert (Hs : run_of (started t) hooks (map (fun h => HookDispatched h ctx) hooks) = true).
    { eapply run_of_impl; [apply dispatched_started | exact Hd]. }
    split; [apply run_of_prefix_run; exact Hs|].
    split; [exact Hs | left; reflexivity].
  - destruct (run_hooks_awaited t handler hooks ctx w r w' Ht Hrun) as [_ [_ Hr]].
    destruct r as [ctx'|e|]; [| |contradiction].
    + destruct Hr as [_ [Hleft [evs [Htr Hev]]]].
      assert (Hs : run_of (started t) hooks evs = true).
      { eapply run_of_impl; [apply completed_started | exact Hev]. }
      exists evs. split; [exact Htr|].
      split; [apply run_of_prefix_run; exact Hs|]. split; assumption.
    + destruct Hr as [done [h [rest [evs [c [db [Hh [Htr [Hev [Htc _]]]]]]]]]].
      exists (evs ++ [HookAwaited h c false]). split; [exact Htr|].
      split; [|reflexivity]. subst hooks.
      clear Htr Hrun. revert evs Hev.
      induction done as [|h0 done IHd]; intros [|ev evs]; simpl; try congruence.
      * intros _. rewrite hook_eqb_refl, Htc. reflexivity.
      * intros H. apply andb_prop in H as [H1 H2].
        rewrite (completed_started _ _ _ H1). simpl. apply IHd. exact H2.
Qed.

End HookLoop.

(** ** [_executeHooks]: events and hooks *)

Section ExecuteHooks.
Context {RT : Runtime}.

Lemma hc_hookType_has_type (t : HookType) (c : HookContext) :
  hc_hookType c = Some t -> has_type t c = true.
Proof. unfold has_type. intros ->. apply HookType_eqb_eq. reflexivity. Qed.

(** With a hook type, [TypedService._executeHooks] is the loop over the
    registered hooks, run on the completed context. *)
Lemma Service_executeHooks_loop (this : EntityType) (ctx : HookContext) (t : HookType) :
  hc_hookType ctx = Some t ->
  exists ctx1,
    has_type t ctx1 = true /\ hc_data ctx1 = hc_data ctx
    /\ TypedService._executeHooks this ctx
       = run_hooks (includes HookEvents t) ConsoleError (findHooks this t) ctx1.
Proof.
  intros Ht. unfold TypedService._executeHooks.
  destruct (hc_entityType ctx); simpl; rewrite Ht;
    destruct (hc_getService ctx); destruct (includes HookEvents t);
    eexists; (split; [|split; [|reflexivity]]);
    first [ reflexivity | apply hc_hookType_has_type; simpl; exact Ht ].
Qed.

Lemma Controller_executeHooks_loop (this : EntityType) (ctx : HookContext)
    (t : HookType) :
  hc_hookType ctx = Some t ->
  exists ctx1,
    has_type t ctx1 = true /\ hc_data ctx1 = hc_data ctx
    /\ TypedController._executeHooks this ctx
       = run_hooks (includes HookEvents t) Swallow (findHooks this t) ctx1.
Proof.
  intros Ht. unfold TypedController._executeHooks.
  destruct (hc_entityType ctx); simpl; destruct (hc_em ctx); simpl; rewrite Ht;
    eexists; (split; [|split; [|reflexivity]]);
    first [ reflexivity | apply hc_hookType_has_type; simpl; exact Ht ].
Qed.

(** A detached hook that settles leaves the trace alone; its rejection
    ends in the console ([console.error]) or nowhere. *)
Lemma settle_rejection (d : Detached) (w0 : World) :
  w_trace (settle d w0) = w_trace w0
  /\ w_pending (settle d w0) = w_pending w0
  /\ forall e, fst (hook_execute (d_hook d) (d_ctx d) (w_db w0)) = Err e ->
       w_console (settle d w0)
       = match d_handler d with
         | ConsoleError => w_console w0 ++ [e]
         | Swallow => w_console w0
         end.
Proof.
  unfold settle.
  destruct (hook_execute (d_hook d) (d_ctx d) (w_db w0)) as [r db'].
  simpl. split; [reflexivity|]. split; [reflexivity|].
  intros e ->. destruct (d_handler d); reflexivity.
Qed.

(** C2. For a hook type in [HookEvents], [_executeHooks] of either
    controller dispatches every registered hook, in order, without running
    it to completion, and returns normally whatever the hooks will do; a
    rejection of a dispatched hook goes to its handler ([console.error] in
    the service, an empty handler in the controller) and never to the
    caller. For a hook type outside [HookEvents] the hooks are awaited one
    by one in the order [findHooks] gives them, and the first rejection is
    rethrown to the caller, the later hooks not being run. *)
Theorem executeHooks_events_and_hooks (this : EntityType) (ctx : HookContext)
    (t : HookType) (w : World) :
  hc_hookType ctx = Some t ->
  let hooks := findHooks this t in
  (includes HookEvents t = true ->
     (exists c,
        has_type t c = true
        /\ TypedService._executeHooks this ctx w
           = (Return c,
              mkWorld (w_db w)
                (w_trace w ++ map (fun h => HookDispatched h c) hooks)
                (w_console w)
                (w_pending w ++ map (fun h => mkDetached h c ConsoleError) hooks)))
     /\ (exists c,
           has_type t c = true
           /\ TypedController._executeHooks this ctx w
              = (Return c,
                 mkWorld (w_db w)
                   (w_trace w ++ map (fun h => HookDispatched h c) hooks)
                   (w_console w)
                   (w_pending w ++ map (fun h => mkDetached h c Swallow) hooks)))
     /\ (forall d w0,
           w_trace (settle d w0) = w_trace w0
           /\ forall e, fst (hook_execute (d_hook d) (d_ctx d) (w_db w0)) = Err e ->
                w_console (settle d w0)
                = match d_handler d with
                  | ConsoleError => w_console w0 ++ [e]
                  | Swallow => w_console w0
                  end))
  /\ (includes HookEvents t = false ->
      forall r w',
        TypedService._executeHooks this ctx w = (r, w')
        \/ TypedController._executeHooks this ctx w = (r, w') ->
        w_pending w' = w_pending w
        /\ match r with
           | Return _ =>
               exists evs, w_trace w' = w_trace w ++ evs
                           /\ run_of (completed t) hooks evs = true
           | Throw e =>
               exists done h rest evs c db,
                 hooks = done ++ h :: rest
                 /\ w_trace w' = w_trace w ++ evs ++ [HookAwaited h c false]
                 /\ run_of (completed t) done evs = true
                 /\ fst (hook_execute h c db) = Err e
           | OutOfFuel => False
           end).
Proof.
  intros Ht hooks. split.
  - intros Hev. split; [|split].
    + destruct (Service_executeHooks_loop this ctx t Ht) as [c [Hc [_ Heq]]].
      exists c. split; [exact Hc|]. rewrite Heq, Hev. apply run_hooks_event.
    + destruct (Controller_executeHooks_loop this ctx t Ht) as [c [Hc [_ Heq]]].
      exists c. split; [exact Hc|]. rewrite Heq, Hev. apply run_hooks_event.
    + intros d w0. destruct (settle_rejection d w0) as [H1 [_ H3]]. split; assumption.
  - intros Hev r w' Hrun.
    assert (exists handler c, has_type t c = true
              /\ run_hooks false handler hooks c w = (r, w')) as [hd [c [Hc Hr]]].
    { destruct Hrun as [Hrun|Hrun].
      - destruct (Service_executeHooks_loop this ctx t Ht) as [c [Hc [_ Heq]]].
        rewrite Heq, Hev in Hrun. eauto.
      - destruct (Controller_executeHooks_loop this ctx t Ht) as [c [Hc [_ Heq]]].
        rewrite Heq, Hev in Hrun. eauto. }
    destruct (run_hooks_awaited t hd hooks c w r w' Hc Hr) as [Hp [_ Hres]].
    split; [exact Hp|].
    destruct r as [c'|e|]; [| |exact Hres].
    + destruct Hres as [_ [_ Hevs]]. exact Hevs.
    + destruct Hres as [done [h [rest [evs [c1 [db [H1 [H2 [H3 [_ H5]]]]]]]]]].
      exists done, h, rest, evs, c1, db. auto.
Qed.

End ExecuteHooks.

(** ** The guards and the hook loop at work *)

(** A context without a hook type, on a service with registered hooks:
    the throw, and the world as it was. *)
Lemma executeHooks_without_hookType_witness :
  let ctx := mkHookContext None None VUndefined VUndefined None None false false in
  let w := @Demo.world (Demo.hooked []) Demo.two_teachers in
  TypedService._executeHooks Demo.Teacher ctx w
    = (Throw TypedService.hookTypeMissing, w)
  /\ TypedController._executeHooks Demo.Teacher ctx w
     = (Throw TypedController.hookTypeMissing, w).
Proof.
  intros ctx w.
  destruct (@executeHooks_without_hookType (Demo.runtime (Demo.hooked []))
              Demo.Teacher ctx w eq_refl) as [H1 [H2 _]].
  split; assumption.
Defined.

(** [save(1, body)] with teacher 1 in the table is an update; [save(0,
    body)] is a create, key [0] being falsy. *)
Lemma save_is_upsert_witness :
  let w := @Demo.world Demo.plain Demo.two_teachers in
  let w1 := @mkWorld (Demo.runtime Demo.plain) Demo.two_teachers
              [RepoFindOne Demo.Teacher (VNum (NInt 1))] [] [] in
  TypedService.save 2 Demo.Teacher (VNum (NInt 1)) (Demo.teacher 1 "Anna") None w
    = TypedService.update Demo.Teacher (VNum (NInt 1)) (Demo.teacher 1 "Anna") None w1
  /\ TypedService.save 2 Demo.Teacher (VNum (NInt 0)) (Demo.teacher 3 "Cy") None w
     = TypedService.create 2 Demo.Teacher (Demo.teacher 3 "Cy") None w.
Proof.
  intros w w1. split.
  - destruct (@save_is_upsert (Demo.runtime Demo.plain) 2 Demo.Teacher (VNum (NInt 1))
                (Demo.teacher 1 "Anna") None w) as [_ H].
    destruct (H eq_refl (Demo.teacher 1 "Ann") Demo.two_teachers eq_refl) as [Hu _].
    exact (Hu eq_refl).
  - destruct (@save_is_upsert (Demo.runtime Demo.plain) 2 Demo.Teacher (VNum (NInt 0))
                (Demo.teacher 3 "Cy") None w) as [H _].
    exact (H eq_refl).
Defined.

(** The [afterSave] event of [Teacher] rejects: [_executeHooks] returns
    all the same, the hook is pending, and its rejection reaches the
    console when it settles. The second [beforeCreate] hook rejects: its
    error is what [_executeHooks] throws, after the first hook completed. *)
Lemma executeHooks_events_and_hooks_witness :
  let RT := Demo.runtime (Demo.hooked [HookProcessor 3; HookProcessor 2]) in
  let w := @Demo.world (Demo.hooked [HookProcessor 3; HookProcessor 2]) [] in
  let ev := TypedService.hookCtx None afterSave VUndefined VUndefined None in
  let hk := TypedService.hookCtx None beforeCreate VUndefined VUndefined None in
  (exists c w',
     TypedService._executeHooks Demo.Teacher ev w = (Return c, w')
     /\ map d_hook (w_pending w') = [HookProcessor 3]
     /\ w_console w' = []
     /\ w_console (settle_all w') = [Demo.hookError])
  /\ (exists w' c,
        TypedService._executeHooks Demo.Teacher hk w = (Throw Demo.hookError, w')
        /\ w_trace w' = [HookAwaited (HookProcessor 1) c true;
                         HookAwaited (HookProcessor 2) c false]
        /\ w_pending w' = []).
Proof.
  intros RT w ev hk. split.
  - destruct (@executeHooks_events_and_hooks RT Demo.Teacher ev afterSave w eq_refl)
      as [H _].
    destruct (H eq_refl) as [[c [_ Hc]] _].
    exists c. eexists. split; [exact Hc|]. repeat split.
  - destruct (@executeHooks_events_and_hooks RT Demo.Teacher hk beforeCreate w eq_refl)
      as [_ H].
    destruct (TypedService._executeHooks Demo.Teacher hk w) as [r w'] eqn:E.
    destruct (H eq_refl r w' (or_introl E)) as [Hp _].
    vm_compute in E. inversion E; subst r w'.
    eexists. eexists. split; [reflexivity|]. split; [reflexivity | exact Hp].
Defined.

(** ** Sequencing *)

Section Sequencing.
Context {RT : Runtime}.

Lemma bind_ret {A B} (a : A) (k : A -> M B) (w : World) :
  bind (ret a) k w = k a w.
Proof. reflexivity. Qed.

Lemma bind_lift_val {A B} (a : A) (k : A -> M B) (w : World) :
  bind (lift (Val a)) k w = k a w.
Proof. reflexivity. Qed.

Lemma bind_call_val {A B} (ev : Event) (f : DB -> Res A * DB) (k : A -> M B)
    (w : World) (a : A) (db' : DB) :
  f (w_db w) = (Val a, db') ->
  bind (call ev f) k w
  = k a (mkWorld db' (w_trace w ++ [ev]) (w_console w) (w_pending w)).
Proof. intros H. unfold bind, call. rewrite H. reflexivity. Qed.

Lemma bind_assoc {A B C} (m : M A) (k : A -> M B) (h : B -> M C) (w : World) :
  bind (bind m k) h w = bind m (fun a => bind (k a) h) w.
Proof. unfold bind. destruct (m w) as [[a|e|] w1]; reflexivity. Qed.

Lemma bind_ext {A B} (m : M A) (k k' : A -> M B) (w : World) :
  (forall a w1, k a w1 = k' a w1) -> bind m k w = bind m k' w.
Proof. intros H. unfold bind. destruct (m w) as [[a|e|] w1]; auto. Qed.

Lemma bind_returns {A B} (m : M A) (k : A -> M B) (w w1 : World) (a : A) :
  m w = (Return a, w1) -> bind m k w = k a w1.
Proof. intros H. unfold bind. rewrite H. reflexivity. Qed.

Lemma bind_no_answer {A B} (m : M A) (k : A -> M B) (w w1 : World) :
  m w = (OutOfFuel, w1) -> bind m k w = (OutOfFuel, w1).
Proof. intros H. unfold bind. rewrite H. reflexivity. Qed.

End Sequencing.

(** ** Computations only append to the trace *)

Section Grows.
Context {RT : Runtime}.

Lemma grows_ret {A} (a : A) : grows (ret a).
Proof. intros w r w' H. inversion H; subst. exists []. symmetry. apply app_nil_r. Qed.

Lemma grows_throw {A} (e : Error) : grows (@throw RT A e).
Proof. intros w r w' H. inversion H; subst. exists []. symmetry. apply app_nil_r. Qed.

Lemma grows_out_of_fuel {A} : grows (@out_of_fuel RT A).
Proof. intros w r w' H. inversion H; subst. exists []. symmetry. apply app_nil_r. Qed.

Lemma grows_lift {A} (r : Res A) : grows (lift r).
Proof. destruct r; [apply grows_ret | apply grows_throw]. Qed.

Lemma grows_call {A} (ev : Event) (f : DB -> Res A * DB) : grows (call ev f).
Proof.
  intros w r w' H. unfold call in H. destruct (f (w_db w)) as [[a|e] db'];
    inversion H; subst; exists [ev]; reflexivity.
Qed.

Lemma grows_bind {A B} (m : M A) (k : A -> M B) :
  grows m -> (forall a, grows (k a)) -> grows (bind m k).
Proof.
  intros Hm Hk w r w' H. unfold bind in H.
  destruct (m w) as [o w1] eqn:E. destruct (Hm _ _ _ E) as [t1 Ht1].
  destruct o as [a|e|].
  - destruct (Hk a _ _ _ H) as [t2 Ht2]. exists (t1 ++ t2).
    rewrite Ht2, Ht1. symmetry. apply app_assoc.
  - inversion H; subst. exists t1. exact Ht1.
  - inversion H; subst. exists t1. exact Ht1.
Qed.

Lemma grows_attempt {A} (m : M A) : grows m -> grows (attempt m).
Proof.
  intros Hm w r w' H. unfold attempt in H.
  destruct (m w) as [o w1] eqn:E. destruct (Hm _ _ _ E) as [t1 Ht1].
  destruct o; inversion H; subst; exists t1; exact Ht1.
Qed.

Lemma grows_if {A} (b : bool) (m1 m2 : M A) :
  grows m1 -> grows m2 -> grows (if b then m1 else m2).
Proof. destruct b; auto. Qed.

Lemma grows_await_hook (h : Hook) (ctx : HookContext) : grows (await_hook h ctx).
Proof.
  intros w r w' H. unfold await_hook in H.
  destruct (hook_execute h ctx (w_db w)) as [[d|e] db'];
    inversion H; subst; eexists; reflexivity.
Qed.

Lemma grows_dispatch_hook (hd : Handler) (h : Hook) (ctx : HookContext) :
  grows (dispatch_hook hd h ctx).
Proof. intros w r w' H. inversion H; subst. eexists; reflexivity. Qed.

Lemma grows_run_hooks (isEvent : bool) (hd : Handler) (hooks : list Hook)
    (ctx : HookContext) :
  grows (run_hooks isEvent hd hooks ctx).
Proof.
  revert ctx. induction hooks as [|h hooks IH]; intros ctx; simpl.
  - apply grows_ret.
  - destruct isEvent; apply grows_bind; auto using grows_dispatch_hook, grows_await_hook.
Qed.

Lemma grows_Service_executeHooks (this : EntityType) (ctx : HookContext) :
  grows (TypedService._executeHooks this ctx).
Proof.
  unfold TypedService._executeHooks.
  destruct (hc_hookType _); [apply grows_run_hooks | apply grows_throw].
Qed.

Create HintDb grows.
#[local] Hint Resolve grows_ret grows_throw grows_out_of_fuel grows_lift grows_call
  grows_attempt grows_if grows_run_hooks grows_Service_executeHooks : grows.

Ltac grow :=
  repeat first
    [ apply grows_bind; [|intros ?]
    | progress auto with grows
    | match goal with
      | |- grows (if ?b then _ else _) => destruct b
      | |- grows (match ?x with _ => _ end) => destruct x
      end ].

Section DeepInsert.
Variable create : TypedService.CreateFn.
Hypothesis create_grows : forall e b c, grows (create e b c).

Lemma grows_create_all (target : EntityType) (fk : string) (v : Value)
    (ctx : option RequestContext) (items : list Value) :
  grows (TypedService.create_all create target fk v ctx items).
Proof.
  destruct items as [|i [|j items]]; simpl; unfold no_answer; grow.
Qed.

Lemma grows_deepInsertStep (this : EntityType) (ctx : option RequestContext)
    (st : bool * Value) (nav : string * NavOptions) :
  grows (TypedService.deepInsertStep create this ctx st nav).
Proof.
  unfold TypedService.deepInsertStep.
  pose proof grows_create_all. grow.
Qed.

Lemma grows_deepInsertLoop (this : EntityType) (ctx : option RequestContext)
    (navs : list (string * NavOptions)) (st : bool * Value) :
  grows (TypedService.deepInsertLoop create this ctx navs st).
Proof.
  revert st. induction navs as [|nav navs IH]; intros st; simpl.
  - apply grows_ret.
  - apply grows_bind; [apply grows_deepInsertStep | intros st'; apply IH].
Qed.

End DeepInsert.

Lemma grows_create (fuel : nat) :
  forall this body ctx, grows (TypedService.create fuel this body ctx).
Proof.
  induction fuel as [|fuel IH]; intros this body ctx; simpl.
  - apply grows_out_of_fuel.
  - pose proof (grows_deepInsertLoop (TypedService.create fuel) IH) as Hloop.
    unfold TypedService._deepInsert. grow.
Qed.

End Grows.

(** ** Hooks around the CRUD operations of [TypedService] *)

Lemma entity_eqb_refl (e : EntityType) : entity_eqb e e = true.
Proof. destruct e; simpl; apply Nat.eqb_refl. Qed.

Section Order.
Context {RT : Runtime}.

Lemma ends_bind_grows (this : EntityType) {A B} (m : M A) (k : A -> M B) :
  grows m -> (forall a, ends_with_afterSave this (k a)) ->
  ends_with_afterSave this (bind m k).
Proof.
  intros Hm Hk w r w' H. unfold bind in H.
  destruct (m w) as [o w1] eqn:E. destruct (Hm _ _ _ E) as [t1 Ht1].
  destruct o as [a|e|].
  - destruct (Hk a _ _ _ H) as [t2 [Ht2 Hret]].
    exists (t1 ++ t2). split.
    + rewrite Ht2, Ht1. symmetry. apply app_assoc.
    + intros v Hv. destruct (Hret v Hv) as [mid [post [Hsplit Hrun]]].
      exists (t1 ++ mid), post. split; [|exact Hrun].
      rewrite Hsplit. apply app_assoc.
  - inversion H; subst. exists t1. split; [exact Ht1|]. intros v Hv. discriminate.
  - inversion H; subst. exists t1. split; [exact Ht1|]. intros v Hv. discriminate.
Qed.

Lemma ends_afterSave_hooks (this : EntityType) {A} (ctx : HookContext)
    (g : HookContext -> A) :
  hc_hookType ctx = Some afterSave ->
  ends_with_afterSave this
    (hc <- TypedService._executeHooks this ctx ;; ret (g hc)).
Proof.
  intros Ht w r w' H. unfold bind in H.
  destruct (TypedService._executeHooks this ctx w) as [o w1] eqn:E.
  destruct (Service_executeHooks_loop this ctx afterSave Ht) as [c [Hc [_ Heq]]].
  rewrite Heq in E.
  destruct (run_hooks_started _ _ _ _ _ _ _ _ Hc E) as [evs [Htr [_ Hres]]].
  destruct o as [hc|e|]; [|inversion H; subst|contradiction].
  - unfold ret in H. inversion H; subst. exists evs. split; [exact Htr|].
    intros v _. exists [], evs. split; [reflexivity | apply Hres].
  - exists evs. split; [exact Htr|]. intros v Hv. discriminate.
Qed.

(** The shape shared by [create], [update] and [delete]: the [before]
    hooks, then the ORM call, then a part that ends with the [afterSave]
    hooks. *)
Lemma write_order_intro (this : EntityType) (before : HookType)
    (op : Event -> bool) {A} (ctx : HookContext) (k : HookContext -> M A) :
  hc_hookType ctx = Some before ->
  includes HookEvents before = false ->
  (forall hc, exists B ev (f : DB -> Res B * DB) (tail : B -> M A),
      k hc = bind (call ev f) tail
      /\ op ev = true
      /\ forall x, ends_with_afterSave this (tail x)) ->
  forall w r w',
    bind (TypedService._executeHooks this ctx) k w = (r, w') ->
    exists t, w_trace w' = w_trace w ++ t /\ write_order this before op r t.
Proof.
  intros Ht Hev Hk w r w' H. unfold bind at 1 in H.
  destruct (TypedService._executeHooks this ctx w) as [o w1] eqn:E.
  destruct (Service_executeHooks_loop this ctx before Ht) as [c [Hc [_ Heq]]].
  rewrite Heq, Hev in E.
  destruct (run_hooks_started _ _ _ _ _ _ _ _ Hc E) as [evs' [Htr' [Hpre' _]]].
  destruct (run_hooks_awaited _ _ _ _ _ _ _ Hc E) as [_ [_ Hres]].
  destruct o as [hc|e|]; [|inversion H; subst|contradiction].
  - destruct Hres as [_ [_ [evs [Htr Hrun]]]].
    destruct (Hk hc) as [B [ev [f [tail [Hkeq [Hop Htail]]]]]].
    rewrite Hkeq in H. unfold bind at 1, call in H.
    destruct (f (w_db w1)) as [[x|e] db'].
    + destruct (Htail x _ _ _ H) as [t2 [Ht2 Hret]]. simpl in Ht2.
      exists (evs ++ ev :: t2). split.
      { rewrite Ht2, Htr. rewrite <- !app_assoc. reflexivity. }
      left. exists evs, ev, t2. auto.
    + inversion H; subst. simpl.
      exists (evs ++ [ev]). split.
      { rewrite Htr. rewrite <- app_assoc. reflexivity. }
      left. exists evs, ev, []. repeat split; auto. intros v Hv. discriminate.
  - exists evs'. split; [exact Htr'|]. right. split; [|exact Hpre'].
    intros v Hv. discriminate.
Qed.

(** An operation that throws before its first hook. *)
Lemma write_order_stopped (this : EntityType) (before : HookType) (op : Event -> bool)
    {A} (e : Error) (w : World) (r : Outcome A) (w' : World) :
  (Throw e, w) = (r, w') ->
  exists t, w_trace w' = w_trace w ++ t /\ write_order this before op r t.
Proof.
  intros H. inversion H; subst. exists []. split; [symmetry; apply app_nil_r|].
  right. split; [intros v Hv; discriminate | reflexivity].
Qed.

Lemma create_write_order (fuel : nat) (this : EntityType) (body : Value)
    (ctx : option RequestContext) (w : World) r w' :
  includes HookEvents beforeCreate = false ->
  TypedService.create fuel this body ctx w = (r, w') ->
  exists t, w_trace w' = w_trace w ++ t
            /\ write_order this beforeCreate (is_insert this) r t.
Proof.
  intros Hev H. destruct fuel as [|fuel]; simpl in H.
  - inversion H; subst. exists []. split; [symmetry; apply app_nil_r|].
    right. split; [intros v Hv; discriminate | reflexivity].
  - destruct (TypedService._transformInboundPayload this body) as [b|e];
      cbn [lift] in H; unfold bind at 1, ret, throw in H; [|eapply write_order_stopped; exact H].
    eapply write_order_intro in H; [exact H | reflexivity | exact Hev |].
    intros hc. eexists _, _, _, _. split; [reflexivity|].
    split; [simpl; apply entity_eqb_refl|].
    intros x. apply ends_bind_grows.
    { apply grows_deepInsertLoop. apply grows_create. }
    intros st. apply ends_bind_grows.
    { destruct (fst st); [apply grows_call | apply grows_ret]. }
    intros inst. apply ends_afterSave_hooks. reflexivity.
Qed.

Lemma update_write_order (this : EntityType) (key body : Value)
    (ctx : option RequestContext) (w : World) r w' :
  includes HookEvents beforeUpdate = false ->
  TypedService.update this key body ctx w = (r, w') ->
  exists t, w_trace w' = w_trace w ++ t
            /\ write_order this beforeUpdate (is_update this) r t.
Proof.
  intros Hev H. unfold TypedService.update in H.
  destruct (TypedService._transformInboundPayload this body) as [b|e];
    cbn [lift] in H; unfold bind at 1, ret, throw in H; [|eapply write_order_stopped; exact H].
  eapply write_order_intro in H; [exact H | reflexivity | exact Hev |].
  intros hc. eexists _, _, _, _. split; [reflexivity|].
  split; [simpl; apply entity_eqb_refl|].
  intros x. apply ends_afterSave_hooks. reflexivity.
Qed.

Lemma delete_write_order (this : EntityType) (key : Value)
    (ctx : option RequestContext) (w : World) r w' :
  includes HookEvents beforeDelete = false ->
  TypedService.delete this key ctx w = (r, w') ->
  exists t, w_trace w' = w_trace w ++ t
            /\ write_order this beforeDelete (is_delete this) r t.
Proof.
  intros Hev H. unfold TypedService.delete in H.
  eapply write_order_intro in H; [exact H | reflexivity | exact Hev |].
  intros hc. eexists _, _, _, _. split; [reflexivity|].
  split; [simpl; apply entity_eqb_refl|].
  intros x. apply ends_afterSave_hooks. reflexivity.
Qed.

End Order.

Section ReadOrder.
Context {RT : Runtime}.

Lemma reads_ret {A} (a : A) : reads (ret a).
Proof.
  intros w r w' H. inversion H; subst. exists []. split; [|reflexivity].
  symmetry. apply app_nil_r.
Qed.

Lemma reads_lift {A} (x : Res A) : reads (lift x).
Proof.
  intros w r w' H. destruct x; inversion H; subst; exists [];
    (split; [symmetry; apply app_nil_r | reflexivity]).
Qed.

Lemma reads_call {A} (ev : Event) (f : DB -> Res A * DB) :
  is_repo ev = true -> reads (call ev f).
Proof.
  intros Hev w r w' H. unfold call in H.
  destruct (f (w_db w)) as [[a|e] db']; inversion H; subst; exists [ev];
    (split; [reflexivity | simpl; rewrite Hev; reflexivity]).
Qed.

Lemma reads_bind {A B} (m : M A) (k : A -> M B) :
  reads m -> (forall a, reads (k a)) -> reads (bind m k).
Proof.
  intros Hm Hk w r w' H. unfold bind in H.
  destruct (m w) as [o w1] eqn:E. destruct (Hm _ _ _ E) as [t1 [Ht1 Hr1]].
  destruct o as [a|e|].
  - destruct (Hk a _ _ _ H) as [t2 [Ht2 Hr2]]. exists (t1 ++ t2). split.
    + rewrite Ht2, Ht1. symmetry. apply app_assoc.
    + rewrite forallb_app, Hr1, Hr2. reflexivity.
  - inversion H; subst. exists t1. split; assumption.
  - inversion H; subst. exists t1. split; assumption.
Qed.

Lemma reads_no_answer {A} : reads (@no_answer RT A).
Proof.
  intros w r w' H. inversion H; subst. exists []. split; [|reflexivity].
  symmetry. apply app_nil_r.
Qed.

(** After a first repository call, more of them: the part is not empty. *)
Lemma reads_after_call {A B} (ev : Event) (f : DB -> Res A * DB) (k : A -> M B) :
  is_repo ev = true -> (forall a, reads (k a)) ->
  forall w d w1,
    bind (call ev f) k w = (d, w1) ->
    exists t, w_trace w1 = w_trace w ++ t /\ forallb is_repo t = true /\ t <> [].
Proof.
  intros Hev Hk w d w1 H. unfold bind, call in H.
  destruct (f (w_db w)) as [[a|e] db'].
  - destruct (Hk a _ _ _ H) as [t2 [Ht2 Hr2]]. simpl in Ht2.
    exists (ev :: t2). split; [|split; [|discriminate]].
    + rewrite Ht2, <- app_assoc. reflexivity.
    + simpl. rewrite Hev, Hr2. reflexivity.
  - inversion H; subst. simpl. exists [ev]. split; [reflexivity|].
    split; [simpl; rewrite Hev; reflexivity | discriminate].
Qed.

(** What [find] loads: repository calls only, and at least one unless the
    parser threw. *)
Lemma find_data_reads (this : EntityType) (query : QueryArg) (w : World) d w1 :
  TypedService.find_data this query w = (d, w1) ->
  exists t, w_trace w1 = w_trace w ++ t
            /\ forallb is_repo t = true
            /\ forall v, d = Return v -> t <> [].
Proof.
  unfold TypedService.find_data. intros H.
  destruct (parse_query query) as [[ast|e]|].
  - unfold bind at 1 in H. cbn [lift ret] in H.
    eapply reads_after_call in H; [| reflexivity |].
    + destruct H as [t [H1 [H2 H3]]]. exists t. auto.
    + intros rows. apply reads_bind; [apply reads_lift|]. intros ids.
      apply reads_bind; [apply reads_call; reflexivity|]. intros data.
      destruct (TypedService.count_requested _); [|apply reads_ret].
      apply reads_bind; [apply reads_call; reflexivity|]. intros rows'.
      apply reads_bind; [apply reads_lift|]. intros total.
      destruct (TypedService.parsed_total total);
        [apply reads_ret | apply reads_no_answer].
  - inversion H; subst. exists []. split; [symmetry; apply app_nil_r|].
    split; [reflexivity|]. intros v Hv. discriminate.
  - eapply reads_after_call in H; [| reflexivity |].
    + destruct H as [t [H1 [H2 H3]]]. exists t. auto.
    + intros data. apply reads_ret.
Qed.

(** The hooks of kind [t] run by [_executeHooks] before the data is
    returned: events of these hooks only, in order, of all of them on a
    return. *)
Lemma hooks_then_return_started (this : EntityType) (t : HookType) (ctx : HookContext)
    (w : World) (r : Outcome Value) (w' : World) :
  hc_hookType ctx = Some t ->
  (hc <- TypedService._executeHooks this ctx ;; ret (hc_data hc)) w = (r, w') ->
  exists post,
    w_trace w' = w_trace w ++ post
    /\ prefix_run (started t) (findHooks this t) post = true
    /\ forall v, r = Return v -> run_of (started t) (findHooks this t) post = true.
Proof.
  intros Ht H. unfold bind in H.
  destruct (TypedService._executeHooks this ctx w) as [o w1] eqn:E.
  destruct (Service_executeHooks_loop this ctx t Ht) as [c [Hc [_ Heq]]].
  rewrite Heq in E.
  destruct (run_hooks_started _ _ _ _ _ _ _ _ Hc E) as [evs [Htr [Hpre Hres]]].
  destruct o as [hc|e|]; [|inversion H; subst|contradiction].
  - unfold ret in H. inversion H; subst. exists evs. split; [exact Htr|].
    split; [exact Hpre|]. intros v _. apply Hres.
  - exists evs. split; [exact Htr|]. split; [exact Hpre|]. intros v Hv. discriminate.
Qed.

Lemma findOne_trace_order (this : EntityType) (key : Value)
    (ctx : option RequestContext) (w : World) r w' :
  TypedService.findOne this key ctx w = (r, w') ->
  exists t, w_trace w' = w_trace w ++ t /\ findOne_order this key r t.
Proof.
  unfold TypedService.findOne, findOne_order.
  destruct (nullish key); simpl; intros H.
  - inversion H; subst. exists []. split; [symmetry; apply app_nil_r|].
    split; reflexivity.
  - unfold bind at 1, call in H.
    destruct (repo_findOne this key (w_db w)) as [[data|e] db'].
    + destruct (isEmpty data).
      * inversion H; subst. simpl. exists [RepoFindOne this key]. split; [reflexivity|].
        exists []. split; [reflexivity|]. split; [reflexivity|]. intros v Hv. discriminate.
      * apply hooks_then_return_started with (t := afterLoad) in H; [|reflexivity].
        destruct H as [post [Htr [Hpre Hret]]]. simpl in Htr.
        exists (RepoFindOne this key :: post). split.
        { rewrite Htr, <- app_assoc. reflexivity. }
        exists post. auto.
    + inversion H; subst. simpl. exists [RepoFindOne this key]. split; [reflexivity|].
      exists []. split; [reflexivity|]. split; [reflexivity|]. intros v Hv. discriminate.
Qed.

Lemma find_trace_order (this : EntityType) (query : QueryArg)
    (ctx : option RequestContext) (w : World) r w' :
  TypedService.find this query ctx w = (r, w') ->
  find_order this (TypedService.find_data this query) w r w'.
Proof.
  unfold TypedService.find, find_order. intros H. unfold bind at 1 in H.
  destruct (TypedService.find_data this query w) as [d w1] eqn:E.
  destruct (find_data_reads _ _ _ _ _ E) as [reads [Htr [Hrepo Hsome]]].
  exists d, w1, reads.
  assert (Hstop : forall data, (Return data, w1) = (r, w') ->
            exists post, @eq (Outcome Value * World) (Return data, w1) (Return data, w1)
              /\ w_trace w' = w_trace w1 ++ post
              /\ r = Return data /\ post = []).
  { intros data Hd. inversion Hd; subst. exists []. rewrite app_nil_r. auto. }
  destruct d as [data|e|].
  - assert (Hne : reads <> []) by (apply (Hsome data); reflexivity).
    destruct data as [ | | | | | |elems props];
      try (destruct (Hstop _ H) as [post [_ [Hp [Hr ->]]]]; exists [];
           repeat split; auto).
    destruct elems as [|x elems].
    + destruct (Hstop _ H) as [post [_ [Hp [Hr ->]]]]. exists [].
      repeat split; auto.
    + apply hooks_then_return_started with (t := afterLoad) in H; [|reflexivity].
      destruct H as [post [Hp [Hpre Hret]]]. exists post. repeat split; auto.
  - inversion H; subst. exists []. rewrite app_nil_r. repeat split; auto.
  - inversion H; subst. exists []. rewrite app_nil_r. repeat split; auto.
Qed.


End ReadOrder.



(** ** [findOne] by key *)

Section FindOne.
Context {RT : Runtime}.

Lemma load_hooks_outcome (isEvent : bool) (handler : Handler) (this : EntityType)
    (ctx : HookContext) (w1 : World) r w' :
  has_type afterLoad ctx = true ->
  bind (run_hooks isEvent handler (findHooks this afterLoad) ctx)
       (fun hc => ret (hc_data hc)) w1 = (r, w') ->
  found_outcome this (hc_data ctx) w1 r w'.
Proof.
  intros Hc H. unfold bind in H.
  destruct (run_hooks isEvent handler (findHooks this afterLoad) ctx w1)
    as [o w2] eqn:E.
  destruct (run_hooks_started _ _ _ _ _ _ _ _ Hc E) as [evs [Htr [Hpre Hres]]].
  destruct o as [hc|e|]; [|inversion H; subst|contradiction].
  - unfold ret in H. inversion H; subst. exists evs. auto.
  - exists evs. split; [exact Htr|]. split; [exact Hpre|].
    destruct (run_hooks_awaited _ _ _ _ _ _ _ Hc E) as [_ [_ Hthrow]].
    destruct Hthrow as [done [h [rest [_ [c [db [Hh [_ [_ [_ Hx]]]]]]]]]].
    exists h, c, db. split; [|exact Hx]. rewrite Hh. apply in_elt.
Qed.

(** What the loop and the return of the data object leave. *)
Lemma run_hooks_outcome (isEvent : bool) (handler : Handler) (hooks : list Hook) :
  forall (c : HookContext) (w1 : World) r w',
    hooks_then_data isEvent handler hooks c w1 = (r, w') ->
    hooks_outcome isEvent hooks c w1 r w'.
Proof.
  unfold hooks_then_data, hooks_outcome.
  induction hooks as [|h hooks IH]; intros c w1 r w' H.
  - inversion H; subst. exists []. split; [symmetry; apply app_nil_r|].
    exists c. split; reflexivity.
  - cbn [run_hooks] in H. destruct isEvent.
    + rewrite bind_assoc in H. unfold bind at 1, dispatch_hook in H.
      destruct (IH _ _ _ _ H) as [post [Htr Hres]]. cbn [w_trace] in Htr.
      exists (HookDispatched h c :: post). split.
      { rewrite Htr, <- app_assoc. reflexivity. }
      destruct r as [v|e|]; [| |exact Hres].
      * destruct Hres as [c' [Hh Hv]]. exists c'. split; [|exact Hv].
        cbn [handed]. split; [reflexivity | exact Hh].
      * destruct Hres as [Hfalse _]. discriminate Hfalse.
    + rewrite bind_assoc in H. unfold bind at 1, await_hook in H.
      destruct (hook_execute h c (w_db w1)) as [[d|e] db'] eqn:Hex.
      * destruct (IH _ _ _ _ H) as [post [Htr Hres]]. cbn [w_trace] in Htr.
        exists (HookAwaited h c true :: post). split.
        { rewrite Htr, <- app_assoc. reflexivity. }
        destruct r as [v|e|]; [| |exact Hres].
        { destruct Hres as [c' [Hh Hv]]. exists c'. split; [|exact Hv].
          cbn [handed]. split; [reflexivity|].
          exists d, (w_db w1). rewrite Hex. split; [reflexivity | exact Hh]. }
        { destruct Hres as [_ [done [h1 [rest [evs [c' [db [Hh [Hd [Hp Hx]]]]]]]]]].
          split; [reflexivity|].
          exists (h :: done), h1, rest, (HookAwaited h c true :: evs), c', db.
          split; [rewrite Hh; reflexivity|]. split; [|split; [|exact Hx]].
          - cbn [handed]. split; [reflexivity|].
            exists d, (w_db w1). rewrite Hex. split; [reflexivity | exact Hd].
          - rewrite Hp. reflexivity. }
      * inversion H; subst. cbn [w_trace]. exists [HookAwaited h c false].
        split; [reflexivity|]. split; [reflexivity|].
        exists [], h, hooks, [], c, (w_db w1). rewrite Hex.
        repeat split; reflexivity.
Qed.

(** [_executeHooks] on the context literal of an operation is the loop on
    the completed context. *)
Lemma Service_executeHooks_exact (this : EntityType) (tx : option RequestContext)
    (t : HookType) (data key : Value) (e : option EntityType) :
  TypedService._executeHooks this (TypedService.hookCtx tx t data key e)
  = run_hooks (includes HookEvents t) ConsoleError (findHooks this t)
      (service_context (default this e) tx t data key).
Proof.
  unfold TypedService._executeHooks, TypedService.hookCtx, service_context.
  destruct e; simpl; destruct (includes HookEvents t); reflexivity.
Qed.

Lemma Controller_executeHooks_exact (this : EntityType) (cx : RequestContext)
    (t : HookType) (data key : Value) (e : option EntityType) :
  TypedController._executeHooks this (TypedController.hookCtx cx t data key e)
  = run_hooks (includes HookEvents t) Swallow (findHooks this t)
      (controller_context (default this e) cx t data key).
Proof.
  unfold TypedController._executeHooks, TypedController.hookCtx, controller_context.
  destruct e; reflexivity.
Qed.

(** X22. The two [findOne] side by side. For a defined key whose lookup
    answers [data], [TypedService.findOne] throws [ResourceNotFoundError]
    when [data] is empty, without running a hook; otherwise it is the run
    of the [afterLoad] hooks on the context that carries [data], after
    the read, and it returns the data object as the hooks left it (or
    rethrows the rejection of an awaited hook). [TypedController.findOne]
    makes no emptiness check: whatever the lookup answers, [undefined]
    included, it runs the [afterLoad] hooks on it and returns it as they
    left it. *)
Lemma findOne_by_key (this : EntityType) (key : Value) (w : World)
    (data : Value) (db' : DB) :
  nullish key = false ->
  repo_findOne this key (w_db w) = (Val data, db') ->
  let w1 := mkWorld db' (w_trace w ++ [RepoFindOne this key])
              (w_console w) (w_pending w) in
  let hooks := findHooks this afterLoad in
  let isEvent := includes HookEvents afterLoad in
  (forall ctx,
     (isEmpty data = true ->
        TypedService.findOne this key ctx w = (Throw (TypedService.notFound this key), w1)
        /\ err_kind (TypedService.notFound this key) = ResourceNotFoundError)
     /\ (isEmpty data = false ->
         let c := service_context this ctx afterLoad data VUndefined in
         TypedService.findOne this key ctx w
         = hooks_then_data isEvent ConsoleError hooks c w1
         /\ forall r w',
              TypedService.findOne this key ctx w = (r, w') ->
              hooks_outcome isEvent hooks c w1 r w'))
  /\ (forall ctx,
        let c := controller_context this ctx afterLoad data VUndefined in
        TypedController.findOne this key ctx w
        = hooks_then_data isEvent Swallow hooks c w1
        /\ forall r w',
             TypedController.findOne this key ctx w = (r, w') ->
             hooks_outcome isEvent hooks c w1 r w').
Proof.
  intros Hkey Hfind w1 hooks isEvent. split.
  - intros ctx.
    assert (Heq : TypedService.findOne this key ctx w
                  = (if isEmpty data then throw (TypedService.notFound this key)
                     else hooks_then_data isEvent ConsoleError hooks
                            (service_context this ctx afterLoad data VUndefined)) w1).
    { unfold TypedService.findOne. rewrite Hkey. cbn [negb].
      rewrite (bind_call_val _ (repo_findOne this key) _ _ _ _ Hfind). fold w1.
      rewrite Service_executeHooks_exact. reflexivity. }
    split.
    + intros He. rewrite Heq, He. split; reflexivity.
    + intros He c. rewrite Heq, He.
      split; [reflexivity|]. intros r w' H. apply (run_hooks_outcome _ _ _ _ _ _ _ H).
  - intros ctx c.
    assert (Heq : TypedController.findOne this key ctx w
                  = hooks_then_data isEvent Swallow hooks c w1).
    { unfold TypedController.findOne.
      rewrite (bind_call_val _ (repo_findOne this key) _ _ _ _ Hfind). fold w1.
      rewrite Controller_executeHooks_exact. reflexivity. }
    rewrite Heq.
    split; [reflexivity|]. intros r w' H. apply (run_hooks_outcome _ _ _ _ _ _ _ H).
Qed.

End FindOne.

(** Key 5 is not in the table: the service throws; key 2 is: the service
    returns teacher 2 after the [afterLoad] hook was handed teacher 2, and
    so does the controller. *)
Lemma findOne_by_key_example :
  let c := Demo.hooked [] in
  let w := @Demo.world c Demo.two_teachers in
  let bob := Demo.teacher 2 "Bob" in
  (exists w1,
     TypedService.findOne Demo.Teacher (VNum (NInt 5)) None w
       = (Throw (mkError ResourceNotFoundError "Resource not found: E1[5]"), w1))
  /\ (exists w1 c4,
        TypedService.findOne Demo.Teacher (VNum (NInt 2)) None w = (Return bob, w1)
        /\ w_trace w1 = [RepoFindOne Demo.Teacher (VNum (NInt 2));
                         HookAwaited (HookProcessor 4) c4 true]
        /\ hc_data c4 = bob)
  /\ (exists w1 c4,
        TypedController.findOne Demo.Teacher (VNum (NInt 2)) Demo.request w
        = (Return bob, w1)
        /\ w_trace w1 = [RepoFindOne Demo.Teacher (VNum (NInt 2));
                         HookAwaited (HookProcessor 4) c4 true]
        /\ hc_data c4 = bob).
Proof.
  intros c w bob. split; [|split].
  - destruct (@findOne_by_key (Demo.runtime c) Demo.Teacher (VNum (NInt 5)) w
                VUndefined Demo.two_teachers eq_refl eq_refl) as [H _].
    destruct (H None) as [Hthrow _]. destruct (Hthrow eq_refl) as [Heq _].
    eexists. exact Heq.
  - destruct (@findOne_by_key (Demo.runtime c) Demo.Teacher (VNum (NInt 2)) w
                bob Demo.two_teachers eq_refl eq_refl) as [H _].
    destruct (H None) as [_ Hfound]. destruct (Hfound eq_refl) as [Heq _].
    eexists _, _. split; [rewrite Heq; vm_compute; reflexivity|].
    split; reflexivity.
  - destruct (@findOne_by_key (Demo.runtime c) Demo.Teacher (VNum (NInt 2)) w
                bob Demo.two_teachers eq_refl eq_refl) as [_ H].
    destruct (H Demo.request) as [Heq _].
    eexists _, _. split; [rewrite Heq; vm_compute; reflexivity|].
    split; reflexivity.
Defined.

(** C1 at the failing input: key 5, no teacher 5. The lookup result is
    empty; [TypedService.findOne] throws [ResourceNotFoundError], while
    [TypedController.findOne] throws nothing: it runs the [afterLoad] hook
    on [undefined] and returns [undefined]. *)
Theorem Controller_findOne_missing_entity :
  let c := Demo.hooked [] in
  let RT := Demo.runtime c in
  let w := @Demo.world c Demo.two_teachers in
  let key := VNum (NInt 5) in
  nullish key = false
  /\ fst (repo_findOne Demo.Teacher key (w_db w)) = Val VUndefined
  /\ isEmpty VUndefined = true
  /\ (exists e w', TypedService.findOne Demo.Teacher key None w = (Throw e, w')
                   /\ err_kind e = ResourceNotFoundError
                   /\ w_trace w' = [RepoFindOne Demo.Teacher key])
  /\ (exists w' ctx, TypedController.findOne Demo.Teacher key Demo.request w
                     = (Return VUndefined, w')
                     /\ w_trace w' = [RepoFindOne Demo.Teacher key;
                                      HookAwaited (HookProcessor 4) ctx true]
                     /\ hc_data ctx = VUndefined)
  /\ ~ (exists e w', TypedController.findOne Demo.Teacher key Demo.request w
                     = (Throw e, w')).
Proof.
  intros c RT w key. split; [reflexivity|]. split; [reflexivity|].
  split; [reflexivity|]. split; [|split].
  - eexists _, _. split; [vm_compute; reflexivity|]. split; reflexivity.
  - eexists _, _. split; [vm_compute; reflexivity|]. split; reflexivity.
  - intros [e [w' H]]. vm_compute in H. discriminate H.
Qed.

(** ** Deep insert *)

Section DeepInsertFacts.
Context {RT : Runtime}.
Variable create : TypedService.CreateFn.

(** The loop reaches a navigation when the navigations before it went
    through; it then goes on from there. *)
Lemma deepInsertLoop_app (this : EntityType) (ctx : option RequestContext)
    (pre post : list (string * NavOptions)) (st0 st : bool * Value) (w w1 : World) :
  TypedService.deepInsertLoop create this ctx pre st0 w = (Return st, w1) ->
  TypedService.deepInsertLoop create this ctx (pre ++ post) st0 w
  = TypedService.deepInsertLoop create this ctx post st w1.
Proof.
  revert st0 w. induction pre as [|nav pre IH]; intros st0 w H; simpl in *.
  - unfold ret in H. inversion H; subst. reflexivity.
  - unfold bind in *.
    destruct (TypedService.deepInsertStep create this ctx st0 nav w) as [[st'| |] w'];
      try discriminate.
    apply IH. exact H.
Qed.

(** A throw of the step is a throw of the loop. *)
Lemma deepInsertLoop_throw (this : EntityType) (ctx : option RequestContext)
    (nav : string * NavOptions) (post : list (string * NavOptions))
    (st : bool * Value) (w w' : World) (e : Error) :
  TypedService.deepInsertStep create this ctx st nav w = (Throw e, w') ->
  TypedService.deepInsertLoop create this ctx (nav :: post) st w = (Throw e, w').
Proof. intros H. simpl. unfold bind. rewrite H. reflexivity. Qed.

Lemma hasOwnProperty_assign (v : Value) (k : string) (x : Value) :
  hasOwnProperty v k = Val true -> exists b, assign v k x = Val b.
Proof. destruct v; simpl; intros H; try discriminate; eexists; reflexivity. Qed.


End DeepInsertFacts.



(** ** [find] and the inline count *)

Section Find.
Context {RT : Runtime}.

(** X23. [TypedService.find] with a parsed query issues the id query and
    [findByIds], and the count query exactly when the helper hands back a
    non-empty count statement; the total it answers, parsed when it is a
    string, becomes [inlinecount] of the array; without a count statement
    there is no count query and no [inlinecount]. An array without
    elements is returned at once; otherwise [find] is the run of the
    [afterLoad] hooks on the context that carries the array, and it
    returns the array as the hooks left it. Where [parseInt] is beyond the
    integers the embedding follows, it gives no answer. *)
Lemma Service_find_inlinecount (this : EntityType) (query : QueryArg)
    (ctx : option RequestContext) (w : World) (ast : Ast)
    (rows : list Value) (db1 : DB) (ids data : list Value) (db2 : DB) :
  parse_query query = Some (Val ast) ->
  let sql := buildSQL (meta_tableName this) (meta_schema this) ast
               (TypedService.first_key this) in
  repo_query this (queryStatement sql) (w_db w) = (Val rows, db1) ->
  TypedService.item_ids rows = Val ids ->
  repo_findByIds this ids db1 = (Val data, db2) ->
  let t2 := w_trace w ++ [RepoQuery this (queryStatement sql); RepoFindByIds this ids] in
  let hooks := findHooks this afterLoad in
  let isEvent := includes HookEvents afterLoad in
  let after (D : Value) (w2 : World) : Outcome Value * World :=
    match data with
    | [] => (Return D, w2)
    | _ :: _ =>
        hooks_then_data isEvent ConsoleError hooks
          (service_context this ctx afterLoad D VUndefined) w2
    end in
  (TypedService.count_requested (countStatement sql) = false ->
   TypedService.find this query ctx w
   = after (VArr data []) (mkWorld db2 t2 (w_console w) (w_pending w)))
  /\ (TypedService.count_requested (countStatement sql) = true ->
      forall crows db3 total,
        repo_query this (default ""%string (countStatement sql)) db2 = (Val crows, db3) ->
        first_total crows = Val total ->
        let w3 := mkWorld db3
                    (t2 ++ [RepoQuery this (default ""%string (countStatement sql))])
                    (w_console w) (w_pending w) in
        (forall total',
           TypedService.parsed_total total = Some total' ->
           TypedService.find this query ctx w
           = after (VArr data [("inlinecount"%string, total')]) w3)
        /\ (TypedService.parsed_total total = None ->
            TypedService.find this query ctx w = (OutOfFuel, w3))
        /\ (forall s, total = VStr s ->
              TypedService.parsed_total total = option_map VNum (parseInt s))
        /\ ((forall s, total <> VStr s) ->
            TypedService.parsed_total total = Some total))
  /\ (forall c w2 r w',
        hooks_then_data isEvent ConsoleError hooks c w2 = (r, w') ->
        hooks_outcome isEvent hooks c w2 r w').
Proof.
  intros Hparse sql Hq Hids Hby t2 hooks isEvent after.
  assert (Hafter : forall props w2,
            match VArr data props with
            | VArr (_ :: _) _ =>
                hc <- TypedService._executeHooks this
                        (TypedService.hookCtx ctx afterLoad (VArr data props)
                           VUndefined None) ;;
                ret (hc_data hc)
            | _ => ret (VArr data props)
            end w2 = after (VArr data props) w2).
  { intros props w2. unfold after. destruct data as [|x data]; [reflexivity|].
    rewrite Service_executeHooks_exact. reflexivity. }
  assert (Hload : TypedService.find_data this query w
                  = (if TypedService.count_requested (countStatement sql)
                     then
                       rows <- call (RepoQuery this (default ""%string (countStatement sql)))
                                 (repo_query this (default ""%string (countStatement sql))) ;;
                       total <- lift (first_total rows) ;;
                       match TypedService.parsed_total total with
                       | Some total =>
                           ret (VArr data (set_prop "inlinecount" total []))
                       | None => no_answer
                       end
                     else ret (VArr data []))
                      (mkWorld db2 t2 (w_console w) (w_pending w))).
  { unfold TypedService.find_data. rewrite Hparse. rewrite bind_lift_val.
    cbv zeta. fold sql.
    rewrite (bind_call_val _ (repo_query this (queryStatement sql)) _ _ _ _ Hq).
    rewrite Hids, bind_lift_val.
    rewrite (bind_call_val _ (repo_findByIds this ids) _ (mkWorld db1 _ _ _) _ _ Hby).
    cbn [w_db w_trace w_console w_pending]. rewrite <- app_assoc. reflexivity. }
  split; [|split].
  - intros Hcount. rewrite Hcount in Hload. unfold TypedService.find.
    rewrite (bind_returns _ _ _ _ _ Hload). apply Hafter.
  - intros Hcount crows db3 total Hcq Htotal w3. rewrite Hcount in Hload.
    rewrite (bind_call_val _ (repo_query this _) _ (mkWorld db2 _ _ _) _ _ Hcq) in Hload.
    rewrite Htotal, bind_lift_val in Hload.
    cbn [w_db w_trace w_console w_pending] in Hload. fold w3 in Hload.
    split; [|split; [|split]].
    + intros total' Hp. rewrite Hp in Hload. unfold TypedService.find.
      rewrite (bind_returns _ _ _ _ _ Hload). apply Hafter.
    + intros Hp. rewrite Hp in Hload. unfold TypedService.find.
      apply bind_no_answer. exact Hload.
    + intros s ->. reflexivity.
    + intros Hns. destruct total; try reflexivity. exfalso. apply (Hns s). reflexivity.
  - intros c w2 r w' H. apply (run_hooks_outcome _ _ _ _ _ _ _ H).
Qed.

(** X24. [TypedController.find] with a parsed query issues the select,
    and the count query exactly when the translator's [count] flag is
    truthy; the total becomes [inlinecount] as the driver answered it, a
    string staying a string. Whatever the array, [find] is then the run
    of the [afterLoad] hooks on the context that carries it, and it
    returns the array as the hooks left it. *)
Lemma Controller_find_inlinecount (this : EntityType) (query : QueryArg)
    (ctx : RequestContext) (w : World) (ast : Ast) (data : list Value) (db1 : DB) :
  parse_query query = Some (Val ast) ->
  let tableName := meta_tableName this in
  let t := transformQueryAst ast (fun f => (tableName ++ "." ++ f)%string) in
  let sql := TypedController.select_sql tableName t in
  repo_query this sql (w_db w) = (Val data, db1) ->
  let hooks := findHooks this afterLoad in
  let isEvent := includes HookEvents afterLoad in
  let after (D : Value) : M Value :=
    hooks_then_data isEvent Swallow hooks
      (controller_context this ctx afterLoad D VUndefined) in
  (truthy (count t) = false ->
   TypedController.find this query ctx w
   = after (VArr data [])
       (mkWorld db1 (w_trace w ++ [RepoQuery this sql]) (w_console w) (w_pending w)))
  /\ (truthy (count t) = true ->
      forall crows db2 total,
        repo_query this (TypedController.count_sql tableName t) db1 = (Val crows, db2) ->
        first_total crows = Val total ->
        TypedController.find this query ctx w
        = after (VArr data [("inlinecount"%string, total)])
            (mkWorld db2
               (w_trace w ++ [RepoQuery this sql;
                              RepoQuery this (TypedController.count_sql tableName t)])
               (w_console w) (w_pending w)))
  /\ (forall c w2 r w',
        hooks_then_data isEvent Swallow hooks c w2 = (r, w') ->
        hooks_outcome isEvent hooks c w2 r w').
Proof.
  intros Hparse tableName t sql Hq hooks isEvent after.
  assert (Hstart : forall k : Value -> M Value,
            TypedController.find this query ctx w
            = (D <- (if truthy (count t)
                     then
                       rows <- call (RepoQuery this (TypedController.count_sql tableName t))
                                 (repo_query this (TypedController.count_sql tableName t)) ;;
                       total <- lift (first_total rows) ;;
                       ret (VArr data (set_prop "inlinecount" total []))
                     else ret (VArr data [])) ;;
               after D)
                (mkWorld db1 (w_trace w ++ [RepoQuery this sql])
                   (w_console w) (w_pending w))).
  { intros _. unfold TypedController.find. rewrite Hparse.
    rewrite !bind_assoc, bind_lift_val. cbv zeta. fold tableName. fold t. fold sql.
    rewrite bind_assoc,
      (bind_call_val _ (repo_query this sql) _ _ _ _ Hq).
    apply bind_ext. intros D wD.
    unfold after, hooks_then_data. rewrite Controller_executeHooks_exact. reflexivity. }
  specialize (Hstart (fun _ => ret VUndefined)).
  split; [|split].
  - intros Hcount. rewrite Hstart, Hcount. rewrite bind_ret. reflexivity.
  - intros Hcount crows db2 total Hcq Htotal. rewrite Hstart, Hcount.
    rewrite !bind_assoc,
      (bind_call_val _ (repo_query this _) _ (mkWorld db1 _ _ _) _ _ Hcq).
    rewrite bind_assoc, Htotal, bind_lift_val, bind_ret.
    cbn [w_db w_trace w_console w_pending]. rewrite <- app_assoc. reflexivity.
  - intros c w2 r w' H. apply (run_hooks_outcome _ _ _ _ _ _ _ H).
Qed.

End Find.

(** C5 at the failing input: a driver that answers counts as strings, two
    teachers, the query [$count=true]. Both controllers issue the count
    query; the service attaches the integer 2, the controller the string
    "2", which [ODataResult.Ok] then does not report as ['@odata.count']. *)
Theorem Controller_find_keeps_string_total :
  let RT := Demo.runtime Demo.mysql in
  let w := @Demo.world Demo.mysql Demo.two_teachers in
  let q := QString "$count=true" in
  (exists rows w',
     TypedService.find Demo.Teacher q None w
       = (Return (VArr rows [("inlinecount"%string, VNum (NInt 2))]), w')
     /\ existsb (fun ev => match ev with
                           | RepoQuery _ sql => Demo.is_count_sql sql
                           | _ => false
                           end) (w_trace w') = true)
  /\ (exists rows w' res,
        TypedController.find Demo.Teacher q Demo.request w
          = (Return (VArr rows [("inlinecount"%string, VStr "2")]), w')
        /\ existsb (fun ev => match ev with
                              | RepoQuery _ sql => Demo.is_count_sql sql
                              | _ => false
                              end) (w_trace w') = true
        /\ ODataResult.Ok
             (ODataResult.Plain (VArr rows [("inlinecount"%string, VStr "2")])) None
           = Val res
        /\ hasOwnProperty (ODataResult.body res) "@odata.count" = Val false).
Proof.
  intros RT w q. split.
  - eexists _, _. split; [vm_compute; reflexivity | reflexivity].
  - eexists _, _, _. split; [vm_compute; reflexivity|].
    split; [reflexivity|]. split; reflexivity.
Qed.

(* ===================================================================== *)
(** * Further properties *)
(* ===================================================================== *)

(** ** [findODataMethod] *)

Section FindMethod.
Context {A : Type}.
Variable target : OData.ClassMeta.
Variable method : string.
Variable keys : option (list A).

Let n := length (default [] keys).
Let arity (prop : string) : bool := Nat.eqb n (length (OData.getKeys target prop)).
Let named (prop : string) : bool := String.eqb prop (OData.toLowerCase method).

(** X1. [findODataMethod] answers [null] exactly when no member of the
    class is decorated with the method and none is named after it. *)
Theorem findODataMethod_null_iff :
  OData.findODataMethod target method keys = None
  <-> forall prop, In prop (OData.cm_propNames target) ->
        OData.handles target method prop = false
        /\ prop <> OData.toLowerCase method.
Proof.
  unfold OData.findODataMethod. fold n. split.
  - intros H prop Hin.
    destruct (find _ _) eqn:E1 in H; [discriminate|].
    destruct (find _ _) eqn:E2 in H; [discriminate|].
    destruct (find (OData.handles target method) _) eqn:E3 in H; [discriminate|].
    destruct (find _ _) eqn:E4 in H; [discriminate|].
    split.
    + apply (find_none _ _ E3 prop Hin).
    + pose proof (find_none _ _ E4 prop Hin) as Hn. simpl in Hn.
      apply String.eqb_neq. exact Hn.
  - intros H.
    assert (Hh : forall f, find (fun prop => andb (OData.handles target method prop) (f prop))
                             (OData.cm_propNames target) = None).
    { intros f. destruct (find _ _) eqn:E; [|reflexivity].
      apply find_some in E as [Hin Hc]. destruct (H _ Hin) as [Hf _].
      rewrite Hf in Hc. discriminate. }
    assert (Hn : forall f, find (fun prop => andb (String.eqb prop (OData.toLowerCase method))
                                                (f prop))
                             (OData.cm_propNames target) = None).
    { intros f. destruct (find _ _) eqn:E; [|reflexivity].
      apply find_some in E as [Hin Hc]. destruct (H _ Hin) as [_ Hne].
      apply String.eqb_neq in Hne. rewrite Hne in Hc. discriminate. }
    rewrite Hh, Hn.
    destruct (find (OData.handles target method) _) eqn:E3.
    { apply find_some in E3 as [Hin Hc]. destruct (H _ Hin) as [Hf _]. congruence. }
    destruct (find (fun prop => String.eqb prop _) _) eqn:E4; [|reflexivity].
    apply find_some in E4 as [Hin Hc]. destruct (H _ Hin) as [_ Hne].
    apply String.eqb_neq in Hne. congruence.
Qed.

(** X2. What [findODataMethod] finds is a member of the class that is
    decorated with the method or named after it; its links are the links
    of that member; and its key list is either the key list of that
    member, of exactly the length asked for, or empty. *)
Theorem findODataMethod_sound (r : OData.Found) :
  OData.findODataMethod target method keys = Some r ->
  In (OData.call r) (OData.cm_propNames target)
  /\ (OData.handles target method (OData.call r) = true
      \/ OData.call r = OData.toLowerCase method)
  /\ OData.link r = OData.getLinks target (OData.call r)
  /\ ((OData.key r = OData.getKeys target (OData.call r)
       /\ length (OData.key r) = length (default [] keys))
      \/ OData.key r = []).
Proof.
  unfold OData.findODataMethod. fold n. intros H.
  destruct (find _ _) eqn:E1 in H.
  { inversion H; subst; clear H. apply find_some in E1 as [Hin Hc].
    apply andb_prop in Hc as [Hh Ha]. apply Nat.eqb_eq in Ha. simpl. auto 6. }
  destruct (find _ _) eqn:E2 in H.
  { inversion H; subst; clear H. apply find_some in E2 as [Hin Hc].
    apply andb_prop in Hc as [Hh Ha]. apply Nat.eqb_eq in Ha.
    apply String.eqb_eq in Hh. simpl. auto 6. }
  destruct (find (OData.handles target method) _) eqn:E3 in H.
  { inversion H; subst; clear H. apply find_some in E3 as [Hin Hc]. simpl. auto 6. }
  destruct (find _ _) eqn:E4 in H; [|discriminate].
  inversion H; subst; clear H. apply find_some in E4 as [Hin Hc].
  apply String.eqb_eq in Hc. simpl. auto 6.
Qed.

(** X3. Whenever some member that is decorated with the method, or named
    after it, declares as many keys as were asked for, the member found
    declares that many keys too (it is never handed an emptied key list);
    and when a decorated member does, the member found is a decorated
    one. *)
Theorem findODataMethod_prefers_arity (prop : string) :
  In prop (OData.cm_propNames target) ->
  length (OData.getKeys target prop) = length (default [] keys) ->
  (OData.handles target method prop = true
   \/ prop = OData.toLowerCase method) ->
  exists r,
    OData.findODataMethod target method keys = Some r
    /\ OData.key r = OData.getKeys target (OData.call r)
    /\ length (OData.key r) = length (default [] keys)
    /\ (OData.handles target method prop = true ->
        OData.handles target method (OData.call r) = true).
Proof.
  intros Hin Hlen Hcand. unfold OData.findODataMethod. fold n.
  assert (Har : Nat.eqb n (length (OData.getKeys target prop)) = true).
  { apply Nat.eqb_eq. unfold n. symmetry. exact Hlen. }
  destruct (find (fun p => andb (OData.handles target method p) _) _) eqn:E1.
  { apply find_some in E1 as [Hin1 Hc]. apply andb_prop in Hc as [Hh Ha].
    apply Nat.eqb_eq in Ha. eexists. split; [reflexivity|]. simpl. auto. }
  pose proof (find_none _ _ E1 prop Hin) as Hno. simpl in Hno. rewrite Har in Hno.
  rewrite andb_true_r in Hno.
  destruct Hcand as [Hh|Hname]; [congruence|].
  destruct (find (fun p => andb (String.eqb p _) _) _) eqn:E2.
  { apply find_some in E2 as [Hin2 Hc]. apply andb_prop in Hc as [Hn Ha].
    apply Nat.eqb_eq in Ha. eexists. split; [reflexivity|]. simpl.
    split; [reflexivity|]. split; [symmetry; exact Ha|]. congruence. }
  pose proof (find_none _ _ E2 prop Hin) as Hno2. simpl in Hno2.
  rewrite Har, andb_true_r in Hno2. apply String.eqb_neq in Hno2. contradiction.
Qed.

End FindMethod.

(** The [teachers] controller: a GET with one key goes to [findOne], a
    GET without keys to [find], a DELETE with one key to [remove] (the
    decorated member, though [delete] is named after the method), and
    nothing handles PATCH. *)
Lemma findODataMethod_sound_witness :
  exists r,
    OData.findODataMethod DemoOData.teachers "get" (Some [VNum (NInt 1)]) = Some r
    /\ OData.call r = "findOne"%string
    /\ length (OData.key r) = 1
    /\ In (OData.call r) (OData.cm_propNames DemoOData.teachers).
Proof.
  destruct (OData.findODataMethod DemoOData.teachers "get" (Some [VNum (NInt 1)]))
    as [r|] eqn:E; [|vm_compute in E; discriminate E].
  destruct (findODataMethod_sound DemoOData.teachers "get" (Some [VNum (NInt 1)]) r E)
    as [Hin _].
  exists r. vm_compute in E. inversion E; subst r. repeat split. exact Hin.
Defined.

Lemma findODataMethod_prefers_arity_witness :
  exists r,
    OData.findODataMethod DemoOData.teachers "delete" (Some [VNum (NInt 1)]) = Some r
    /\ OData.call r = "remove"%string
    /\ length (OData.key r) = 1.
Proof.
  destruct (findODataMethod_prefers_arity DemoOData.teachers "delete"
              (Some [VNum (NInt 1)]) "remove")
    as [r [Hr [_ [Hlen _]]]].
  - vm_compute. auto.
  - reflexivity.
  - left. reflexivity.
  - exists r. split; [exact Hr|]. split; [|exact Hlen].
    vm_compute in Hr. inversion Hr. reflexivity.
Defined.

(** ** The method and key decorators *)

Lemma lower_upper_char (c : ascii) :
  OData.lower_char (OData.upper_char c) = OData.lower_char c.
Proof. destruct c as [[] [] [] [] [] [] [] []]; reflexivity. Qed.

Lemma toLowerCase_toUpperCase (s : string) :
  OData.toLowerCase (OData.toUpperCase s) = OData.toLowerCase s.
Proof.
  induction s as [|c s IH]; simpl; [reflexivity|].
  rewrite lower_upper_char, IH. reflexivity.
Qed.

Lemma has_slash_toUpperCase (s : string) :
  OData.has_slash (OData.toUpperCase s) = OData.has_slash s.
Proof.
  induction s as [|c s IH]; simpl; [reflexivity|]. rewrite IH.
  destruct c as [[] [] [] [] [] [] [] []]; reflexivity.
Qed.

Lemma handles_unshift_same (type k : string) (t : OData.ClassMeta) :
  OData.handles (OData.unshift_method type k t) type k = true.
Proof.
  unfold OData.handles, OData.getMethod, OData.unshift_method. simpl.
  rewrite lookup_insert_eq. simpl. rewrite String.eqb_refl. reflexivity.
Qed.

Lemma handles_unshift_mono (type k m q : string) (t : OData.ClassMeta) :
  OData.handles t m q = true ->
  OData.handles (OData.unshift_method type k t) m q = true.
Proof.
  unfold OData.handles, OData.getMethod, OData.unshift_method. simpl.
  intros H. destruct (decide (k = q)) as [->|Hne].
  - rewrite lookup_insert_eq. simpl.
    destruct (OData.cm_methods t !! q); [|discriminate].
    simpl. rewrite H. apply orb_true_r.
  - rewrite lookup_insert_ne; [exact H | exact Hne].
Qed.

Lemma getKeys_key_decorator (name : option string) (ps : list string)
    (k : string) (i : nat) (t : OData.ClassMeta) (q : string) :
  OData.getKeys (OData.key_decorator name ps k i t) q
  = if decide (k = q)
    then OData.getKeys t q
           ++ [OData.mkKeyParam (OData.or_name name (nth_error ps i)) (nth_error ps i)]
    else OData.getKeys t q.
Proof.
  unfold OData.getKeys, OData.key_decorator. simpl.
  destruct (decide (k = q)) as [->|Hne].
  - rewrite lookup_insert_eq. reflexivity.
  - rewrite lookup_insert_ne; [reflexivity | exact Hne].
Qed.

Lemma key_decorators_spec (uses : list OData.KeyUse) (k : string) :
  forall t,
    OData.cm_propNames (OData.key_decorators uses k t) = OData.cm_propNames t
    /\ OData.cm_methods (OData.key_decorators uses k t) = OData.cm_methods t
    /\ OData.cm_links (OData.key_decorators uses k t) = OData.cm_links t
    /\ OData.getKeys (OData.key_decorators uses k t) k
       = OData.getKeys t k
           ++ map (fun u =>
                     let p := nth_error (OData.ku_parameterNames u) (OData.ku_index u) in
                     OData.mkKeyParam (OData.or_name (OData.ku_name u) p) p) uses
    /\ forall q, q <> k ->
         OData.getKeys (OData.key_decorators uses k t) q = OData.getKeys t q.
Proof.
  unfold OData.key_decorators.
  induction uses as [|u uses IH]; intros t; simpl.
  - rewrite app_nil_r. auto.
  - destruct (IH (OData.key_decorator (OData.ku_name u) (OData.ku_parameterNames u) k
                    (OData.ku_index u) t)) as [H1 [H2 [H3 [H4 H5]]]].
    rewrite H1, H2, H3, H4. repeat split.
    + rewrite getKeys_key_decorator. destruct (decide (k = k)); [|congruence].
      rewrite <- app_assoc. reflexivity.
    + intros q Hq. rewrite (H5 q Hq), getKeys_key_decorator.
      destruct (decide (k = q)); [congruence | reflexivity].
Qed.

(** X4. A method decorator registers its method on the member and takes
    nothing away: the member handles the method afterwards, every member
    handles what it handled before, keys, links and member names are as
    they were, and [findODataMethod] no longer answers [null] for the
    method when the member is one of the class. The method is registered
    in lower case unless it holds a slash; [method(m)], for an ASCII [m]
    without a slash, registers [m] in lower case however [m] is cased. *)
Theorem method_decorator_registers {A : Type} (type p : string) (t : OData.ClassMeta)
    (keys : option (list A)) :
  let t' := OData.odataMethodFactory type p t in
  let ft := OData.factory_type type in
  OData.handles t' ft p = true
  /\ (forall m q, OData.handles t m q = true -> OData.handles t' m q = true)
  /\ OData.cm_propNames t' = OData.cm_propNames t
  /\ (forall q, OData.getKeys t' q = OData.getKeys t q
                /\ OData.getLinks t' q = OData.getLinks t q)
  /\ (In p (OData.cm_propNames t) -> OData.findODataMethod t' ft keys <> None)
  /\ (OData.has_slash type = false -> ft = OData.toLowerCase type)
  /\ (forall m, OData.ascii_only m = true -> OData.has_slash m = false ->
        OData.method m p t = OData.unshift_method (OData.toLowerCase m) p t).
Proof.
  intros t' ft. split; [apply handles_unshift_same|].
  split; [intros m q; apply handles_unshift_mono|].
  split; [reflexivity|]. split; [intros q; split; reflexivity|].
  split; [|split].
  - intros Hin Hnone.
    unfold OData.findODataMethod in Hnone.
    destruct (find _ _) eqn:E1 in Hnone; [discriminate|].
    destruct (find _ _) eqn:E2 in Hnone; [discriminate|].
    destruct (find (OData.handles t' ft) _) eqn:E3 in Hnone; [discriminate|].
    pose proof (find_none _ _ E3 p Hin) as Hno.
    unfold t', ft, OData.odataMethodFactory in Hno.
    rewrite handles_unshift_same in Hno. discriminate.
  - intros Hs. unfold ft, OData.factory_type. rewrite Hs. reflexivity.
  - intros m _ Hs. unfold OData.method, OData.odataMethodFactory, OData.factory_type.
    rewrite has_slash_toUpperCase, Hs, toLowerCase_toUpperCase. reflexivity.
Qed.

Lemma find_first_fit (f : string -> bool) (l : list string) (p : string) :
  In p l -> f p = true -> exists s, find f l = Some s /\ In s l /\ f s = true.
Proof.
  intros Hin Hf. destruct (find f l) as [s|] eqn:E.
  - exists s. apply find_some in E as [H1 H2]. auto.
  - rewrite (find_none _ _ E p Hin) in Hf. discriminate.
Qed.

Lemma find_first (f : string -> bool) (l : list string) (x : string) :
  find f l = Some x ->
  f x = true
  /\ exists before after,
       l = before ++ x :: after /\ forall q, In q before -> f q = false.
Proof.
  induction l as [|y l IH]; [discriminate|]. simpl.
  destruct (f y) eqn:E.
  - intros H. injection H as <-. split; [exact E|].
    exists [], l. split; [reflexivity|]. intros q [].
  - intros H. destruct (IH H) as [Hx [before [after [Hl Hb]]]]. split; [exact Hx|].
    exists (y :: before), after. split; [rewrite Hl; reflexivity|].
    intros q [<-|Hq]; [exact E | apply Hb; exact Hq].
Qed.

(** X5. Decorators and lookup compose. A member of the class that
    carries a method decorator and [@odata.key] on some of its parameters
    fits a request for that method with as many keys as the member
    declares, and [findODataMethod] then finds the first member of the
    class, in the order of its member names, that is decorated with the
    method and declares that many keys, with its own keys and links. It
    is the decorated member itself when no other member fits; another
    member that fits and comes first is found in its place. *)
Theorem decorated_member_found {A : Type} (type p : string) (t : OData.ClassMeta)
    (uses : list OData.KeyUse) (keys : list A) :
  In p (OData.cm_propNames t) ->
  length keys = length (OData.getKeys t p) + length uses ->
  let t' := OData.odataMethodFactory type p (OData.key_decorators uses p t) in
  let ft := OData.factory_type type in
  let fits q := OData.handles t' ft q = true
                /\ length (OData.getKeys t' q) = length keys in
  fits p
  /\ exists r before after,
       OData.findODataMethod t' ft (Some keys) = Some r
       /\ fits (OData.call r)
       /\ OData.key r = OData.getKeys t' (OData.call r)
       /\ OData.link r = OData.getLinks t' (OData.call r)
       /\ OData.cm_propNames t' = before ++ OData.call r :: after
       /\ (forall q, In q before -> ~ fits q)
       /\ ((forall q, In q (OData.cm_propNames t') -> q <> p -> ~ fits q) ->
           OData.call r = p).
Proof.
  intros Hin Hlen t' ft fits.
  destruct (key_decorators_spec uses p t) as [Hp [_ [_ [Hk _]]]].
  assert (Hin' : In p (OData.cm_propNames t')) by (simpl; rewrite Hp; exact Hin).
  assert (Hfitp : fits p).
  { split; [apply handles_unshift_same|].
    change (OData.getKeys t' p) with (OData.getKeys (OData.key_decorators uses p t) p).
    rewrite Hk, length_app, length_map. symmetry. exact Hlen. }
  split; [exact Hfitp|].
  set (f := fun q => andb (OData.handles t' ft q)
                          (Nat.eqb (length keys) (length (OData.getKeys t' q)))).
  assert (Hf : forall q, f q = true <-> fits q).
  { intros q. unfold f, fits. rewrite andb_true_iff, Nat.eqb_eq.
    split; intros [H1 H2]; split; auto. }
  destruct (find_first_fit f _ p Hin' (proj2 (Hf p) Hfitp)) as [x [Hfind [Hx _]]].
  destruct (find_first f _ x Hfind) as [Hfx [before [after [Hl Hb]]]].
  exists (OData.mkFound x (OData.getKeys t' x) (OData.getLinks t' x)), before, after.
  cbn [OData.call OData.key OData.link].
  split.
  { pose proof Hfind as Hfind'. unfold f in Hfind'.
    unfold OData.findODataMethod. simpl default. rewrite Hfind'. reflexivity. }
  split; [apply Hf; exact Hfx|]. split; [reflexivity|]. split; [reflexivity|].
  split; [exact Hl|]. split.
  - intros q Hq Hfq. apply Hf in Hfq. rewrite (Hb q Hq) in Hfq. discriminate.
  - intros Honly. destruct (string_dec x p) as [Heq|Hne]; [exact Heq|].
    exfalso. apply (Honly x Hx Hne). apply Hf. exact Hfx.
Qed.

(** [findOne(@odata.key key, ctx)], decorated with GET and one key, is
    what a GET with one key finds, in a class whose [find] is decorated
    with GET too and declares no key. *)
Lemma decorated_member_found_witness :
  let t := OData.GET "find" DemoOData.bare in
  exists r,
    OData.findODataMethod
      (OData.GET "findOne"
         (OData.key_decorators [OData.mkKeyUse None ["key"; "ctx"] 0] "findOne" t))
      "get" (Some [VNum (NInt 7)]) = Some r
    /\ OData.call r = "findOne"%string
    /\ OData.key r = [OData.mkKeyParam (Some "key") (Some "key")].
Proof.
  intros t.
  destruct (@decorated_member_found Value "GET" "findOne" t
              [OData.mkKeyUse None ["key"; "ctx"] 0] [VNum (NInt 7)])
    as [_ [r [before [after [Hr [_ [Hkey [_ [_ [_ Honly]]]]]]]]]].
  - vm_compute. auto.
  - reflexivity.
  - exists r. split; [exact Hr|].
    assert (Hcall : OData.call r = "findOne"%string).
    { apply Honly. intros q Hq Hne [Hh Hl]. vm_compute in Hq.
      destruct Hq as [<-|[<-|[<-|[<-|[]]]]];
        first [ apply Hne; reflexivity
              | vm_compute in Hh; discriminate Hh
              | vm_compute in Hl; discriminate Hl ]. }
    split; [exact Hcall|]. rewrite Hkey, Hcall. reflexivity.
Defined.

(** ** Binding controllers to a server *)

(** X6. Binding a controller to a server makes it a member of the server
    prototype under its class name and leaves it with an element type
    (the one given, else the one it had, else [Object]). It is public
    under the resolved entity set name, the other entity sets staying as
    they were; when no name resolves (no name given, none on the
    prototype, and not [isPublic = true]) the controller is bound but
    the public entity sets are unchanged, and nothing is thrown. An
    entity set name given as a string wins over the one on the prototype. *)
Theorem controller_binds (c : OData.ControllerDecl) (arg : OData.SetNameArg)
    (et : option OData.ElementType) (s : OData.ServerState) :
  let s' := OData.controller c arg et s in
  OData.sv_members s' !! OData.cd_name c = Some (OData.cd_class c)
  /\ OData.sv_elementTypes s' !! OData.cd_class c
     = Some (match et with
             | Some t => t
             | None => default OData.ObjectType
                         (OData.sv_elementTypes s !! OData.cd_class c)
             end)
  /\ match OData.resolve_entitySetName c arg with
     | Some name =>
         OData.getPublicControllers s' !! name = Some (OData.cd_class c)
         /\ forall other, other <> name ->
              OData.getPublicControllers s' !! other
              = OData.getPublicControllers s !! other
     | None => OData.getPublicControllers s' = OData.getPublicControllers s
     end
  /\ (forall n, n <> ""%string -> OData.resolve_entitySetName c (OData.SetName n) = Some n)
  /\ (OData.cd_entitySetName c = None ->
      OData.resolve_entitySetName c OData.NoName = None
      /\ OData.resolve_entitySetName c (OData.IsPublic false) = None).
Proof.
  intros s'. split; [apply lookup_insert_eq|]. split; [|split; [|split]].
  - unfold s', OData.controller. simpl. destruct et as [t|].
    + rewrite lookup_insert_eq. apply lookup_insert_eq.
    + destruct (OData.sv_elementTypes s !! OData.cd_class c) as [t|] eqn:E.
      * exact E.
      * apply lookup_insert_eq.
  - unfold s', OData.controller, OData.getPublicControllers. simpl.
    destruct (OData.resolve_entitySetName c arg) as [name|]; simpl.
    + split; [apply lookup_insert_eq|].
      intros other Hne. apply lookup_insert_ne. congruence.
    + reflexivity.
  - intros n Hn. unfold OData.resolve_entitySetName.
    apply String.eqb_neq in Hn. rewrite Hn. reflexivity.
  - intros Hnone. unfold OData.resolve_entitySetName. rewrite Hnone. split; reflexivity.
Qed.

(** X7. Entity set names are not exclusive: when a second controller is
    bound under a name that is already taken, no error is raised and the
    second controller replaces the first as the public controller of
    that entity set (both stay members of the server prototype when their
    class names differ). *)
Theorem controller_last_binding_wins (c1 c2 : OData.ControllerDecl)
    (a1 a2 : OData.SetNameArg) (e1 e2 : option OData.ElementType)
    (s : OData.ServerState) (name : string) :
  OData.resolve_entitySetName c1 a1 = Some name ->
  OData.resolve_entitySetName c2 a2 = Some name ->
  let s1 := OData.controller c1 a1 e1 s in
  let s2 := OData.controller c2 a2 e2 s1 in
  OData.getPublicControllers s1 !! name = Some (OData.cd_class c1)
  /\ OData.getPublicControllers s2 !! name = Some (OData.cd_class c2)
  /\ OData.sv_members s2 !! OData.cd_name c2 = Some (OData.cd_class c2)
  /\ (OData.cd_name c1 <> OData.cd_name c2 ->
      OData.sv_members s2 !! OData.cd_name c1 = Some (OData.cd_class c1)).
Proof.
  intros H1 H2 s1 s2.
  unfold s2, s1, OData.controller, OData.getPublicControllers. simpl.
  rewrite H1, H2. simpl. rewrite !lookup_insert_eq. repeat split.
  intros Hne. rewrite lookup_insert_ne; [apply lookup_insert_eq | congruence].
Qed.

(** [TeachersController] bound with [isPublic = true] is public as
    [Teachers]; binding [ClassesController] as [Teachers] afterwards takes
    the entity set over. *)
Lemma controller_last_binding_wins_witness :
  let s1 := OData.controller DemoOData.TeachersController (OData.IsPublic true) None
              DemoOData.empty_server in
  let s2 := OData.controller DemoOData.ClassesController (OData.SetName "Teachers")
              None s1 in
  OData.getPublicControllers s1 !! "Teachers"%string = Some (Controller 1)
  /\ OData.getPublicControllers s2 !! "Teachers"%string = Some (Controller 2)
  /\ OData.sv_members s2 !! "TeachersController"%string = Some (Controller 1).
Proof.
  intros s1 s2.
  destruct (controller_last_binding_wins DemoOData.TeachersController
              DemoOData.ClassesController (OData.IsPublic true)
              (OData.SetName "Teachers") None None DemoOData.empty_server "Teachers"
              eq_refl eq_refl) as [H1 [H2 [_ H4]]].
  split; [exact H1|]. split; [exact H2|]. apply H4. discriminate.
Defined.

(** ** [ODataResult] and [ODataStream] *)

(** X8. [Ok] leaves a result that is not an array as it is: the body is
    the result itself and ['@odata.count'] is never added to it.
    [Created] leaves every result as it is, arrays included: an array is
    not wrapped and keeps its [inlinecount]. *)
Theorem Ok_and_Created_keep_results (v : Value) (ct : option string) :
  (isArray v = false ->
   ODataResult.Ok (ODataResult.Plain v) ct = Val (ODataResult.new 200 ct v))
  /\ ODataResult.Created (ODataResult.Plain v) ct = Val (ODataResult.new 201 ct v)
  /\ ODataResult.body (ODataResult.new 200 ct v) = v
  /\ ODataResult.body (ODataResult.new 201 ct v) = v
  /\ ODataResult.getOriginalResult (ODataResult.new 201 ct v) = v.
Proof.
  split; [|split; [reflexivity|]].
  - intros Harr. destruct v; try reflexivity. discriminate Harr.
  - destruct v; repeat split; reflexivity.
Qed.

Lemma Ok_and_Created_keep_results_witness :
  let entity := Demo.teacher 1 "Ann" in
  let rows := VArr [entity] [("inlinecount"%string, VNum (NInt 1))] in
  (exists res, ODataResult.Ok (ODataResult.Plain entity) None = Val res
               /\ ODataResult.body res = entity)
  /\ (exists res, ODataResult.Created (ODataResult.Plain rows) None = Val res
                  /\ ODataResult.body res = rows).
Proof.
  intros entity rows.
  destruct (Ok_and_Created_keep_results entity None) as [H1 [_ [H3 _]]].
  destruct (Ok_and_Created_keep_results rows None) as [_ [H2 [_ [H4 _]]]].
  split.
  - eexists. split; [exact (H1 eq_refl) | exact H3].
  - eexists. split; [exact H2 | exact H4].
Defined.

(** X9. Whatever [Ok], [Created] and [NoContent] answer has a content
    type exactly when it has a body, and never an empty one (a missing or
    empty content type becomes 'application/json'). [NoContent] answers
    204 with neither, whatever result and content type it is given; like
    the other two it awaits a promise first, so a rejected promise makes
    it reject. *)
Theorem result_content_type_invariant (result : ODataResult.ResultArg)
    (ct : option string) :
  (forall res,
     ODataResult.Ok result ct = Val res
     \/ ODataResult.Created result ct = Val res
     \/ ODataResult.NoContent result ct = Val res ->
     (ODataResult.contentType res = None <-> ODataResult.body res = VUndefined)
     /\ ODataResult.contentType res <> Some ""%string)
  /\ (forall v, ODataResult.await_arg result = Val v ->
        ODataResult.NoContent result ct
        = Val (ODataResult.mkResult 204 VUndefined None None VUndefined))
  /\ (forall e, ODataResult.await_arg result = Err e ->
        ODataResult.Ok result ct = Err e
        /\ ODataResult.Created result ct = Err e
        /\ ODataResult.NoContent result ct = Err e).
Proof.
  assert (Hnew : forall s v res,
            Val (ODataResult.new s ct v) = Val res ->
            (ODataResult.contentType res = None <-> ODataResult.body res = VUndefined)
            /\ ODataResult.contentType res <> Some ""%string).
  { intros s v res H. injection H as <-.
    destruct v; simpl; try (split; [split; discriminate|]);
      try (split; [split; reflexivity | discriminate]);
      destruct ct as [c|]; try discriminate;
      destruct (String.eqb c "") eqn:E; try discriminate;
      intros H; inversion H; subst; discriminate E. }
  split; [|split].
  - intros res H. unfold ODataResult.Ok, ODataResult.Created, ODataResult.NoContent in H.
    destruct (ODataResult.await_arg result) as [v|e].
    + destruct H as [H|[H|H]].
      * destruct v; eapply Hnew; exact H.
      * eapply Hnew; exact H.
      * eapply Hnew; exact H.
    + destruct H as [H|[H|H]]; discriminate H.
  - intros v Hv. unfold ODataResult.NoContent. rewrite Hv. reflexivity.
  - intros e He. unfold ODataResult.Ok, ODataResult.Created, ODataResult.NoContent.
    rewrite He. repeat split.
Qed.

(** X10. An [ODataStream] always has a non-empty content type, by default
    'application/octet-stream'. Constructed from a string that is not
    empty, the string is the content type, there is no stream, and a
    second argument is ignored; from the empty string, the content type
    is the default. Constructed from a stream, the content type is the
    second argument when there is one and it is not empty, and the
    default otherwise. *)
Theorem ODataStream_content_type (arg : ODataStream.StreamArg) (ct : option string) :
  let default := "application/octet-stream"%string in
  ODataStream.contentType (ODataStream.new arg ct) <> ""%string
  /\ (forall s, s <> ""%string ->
        ODataStream.new (ODataStream.FromString s) ct
        = ODataStream.mkStream ODataStream.Null s)
  /\ ODataStream.new (ODataStream.FromString "") ct
     = ODataStream.mkStream ODataStream.Null default
  /\ (forall h c, c <> ""%string ->
        ODataStream.new (ODataStream.FromStream h) (Some c)
        = ODataStream.mkStream (ODataStream.Handle h) c)
  /\ (forall h,
        ODataStream.new (ODataStream.FromStream h) (Some ""%string)
        = ODataStream.mkStream (ODataStream.Handle h) default
        /\ ODataStream.new (ODataStream.FromStream h) None
           = ODataStream.mkStream (ODataStream.Handle h) default).
Proof.
  intros default. split; [|split; [|split; [|split]]].
  - unfold ODataStream.new.
    destruct arg as [s|h|]; simpl;
      try (destruct ct as [c|]; [|discriminate]);
      match goal with
      | |- (if String.eqb ?x "" then _ else _) <> _ =>
          destruct (String.eqb x "") eqn:E; [discriminate|];
          apply String.eqb_neq; exact E
      end.
  - intros s Hs. unfold ODataStream.new. apply String.eqb_neq in Hs. rewrite Hs.
    reflexivity.
  - reflexivity.
  - intros h c Hc. unfold ODataStream.new. apply String.eqb_neq in Hc. rewrite Hc.
    reflexivity.
  - intros h. split; reflexivity.
Qed.

(** ** Writes through [TypedController] *)

Section ControllerWrites.
Context {RT : Runtime}.

Lemma guarded_call_intro (this : EntityType) (before : HookType)
    (op : Event -> bool) {A} (ctx : HookContext) (k : HookContext -> M A) :
  hc_hookType ctx = Some before ->
  (forall hc, exists ev f, k hc = call ev f /\ op ev = true) ->
  forall w r w',
    bind (TypedController._executeHooks this ctx) k w = (r, w') ->
    exists t, w_trace w' = w_trace w ++ t /\ guarded_call_order this before op r t.
Proof.
  intros Ht Hk w r w' H. unfold bind in H.
  destruct (TypedController._executeHooks this ctx w) as [o w1] eqn:E.
  destruct (Controller_executeHooks_loop this ctx before Ht) as [c [Hc [_ Heq]]].
  rewrite Heq in E.
  assert (Hcases :
            match o with
            | Return _ =>
                exists evs, w_trace w1 = w_trace w ++ evs
                            /\ run_of (passed before) (findHooks this before) evs = true
            | Throw e =>
                exists done h rest evs c' db,
                  findHooks this before = done ++ h :: rest
                  /\ w_trace w1 = w_trace w ++ evs ++ [HookAwaited h c' false]
                  /\ run_of (completed before) done evs = true
                  /\ has_type before c' = true
                  /\ fst (hook_execute h c' db) = Err e
            | OutOfFuel => False
            end).
  { destruct (includes HookEvents before) eqn:Hev.
    - rewrite run_hooks_event in E. inversion E; subst. cbn [w_trace].
      eexists. split; [reflexivity|].
      eapply run_of_impl; [|apply dispatched_run; exact Hc].
      intros h ev Hd. unfold passed. rewrite Hd. apply orb_true_r.
    - destruct (run_hooks_awaited _ _ _ _ _ _ _ Hc E) as [_ [_ Hr]].
      destruct o as [hc|e|]; [|exact Hr|exact Hr].
      destruct Hr as [_ [_ [evs [Htr Hrun]]]]. exists evs. split; [exact Htr|].
      eapply run_of_impl; [|exact Hrun].
      intros h ev Hd. unfold passed. rewrite Hd. reflexivity. }
  destruct o as [hc|e|]; [| |contradiction].
  - destruct Hcases as [evs [Htr Hrun]].
    destruct (Hk hc) as [ev [f [Hkeq Hop]]]. rewrite Hkeq in H. unfold call in H.
    exists (evs ++ [ev]). split.
    + destruct (f (w_db w1)) as [[x|e] db']; inversion H; subst; simpl;
        rewrite Htr, <- app_assoc; reflexivity.
    + left. exists evs, ev. auto.
  - inversion H; subst.
    destruct Hcases as [done [h [rest [evs [c' [db [H1 [H2 [H3 [H4 H5]]]]]]]]]].
    exists (evs ++ [HookAwaited h c' false]). split; [exact H2|].
    right. exists e, done, h, rest, evs, c', db. repeat split; assumption.
Qed.


End ControllerWrites.

(** ** More on deep insert *)

Lemma get_prop_set_prop_other (k k' : string) (v : Value) (ps : Props) :
  k' <> k -> get_prop k' (set_prop k v ps) = get_prop k' ps.
Proof.
  intros Hne. apply String.eqb_neq in Hne.
  induction ps as [|[k0 v0] ps IH]; simpl.
  - rewrite Hne. reflexivity.
  - destruct (String.eqb k k0) eqn:E; simpl.
    + apply String.eqb_eq in E. subst k0. rewrite Hne. reflexivity.
    + destruct (String.eqb k' k0); [reflexivity | exact IH].
Qed.

(** An assignment is read back, and leaves the other properties alone. *)
Lemma member_assign (v : Value) (k : string) (x b : Value) :
  assign v k x = Val b ->
  member b k = Val x
  /\ (forall k', k' <> k -> member b k' = member v k')
  /\ hasOwnProperty b k = Val true.
Proof.
  destruct v; simpl; intros H; try discriminate; injection H as <-; simpl;
    rewrite get_prop_set_prop;
    (split; [reflexivity|]; split;
     [ intros k' Hne; rewrite get_prop_set_prop_other by exact Hne; reflexivity |]).
  - f_equal. induction props as [|[k0 v0] ps IH]; simpl.
    + rewrite String.eqb_refl. reflexivity.
    + destruct (String.eqb k k0) eqn:E; simpl; [rewrite String.eqb_refl | rewrite E];
        auto.
  - f_equal. induction props as [|[k0 v0] ps IH]; simpl.
    + rewrite String.eqb_refl. reflexivity.
    + destruct (String.eqb k k0) eqn:E; simpl; [rewrite String.eqb_refl | rewrite E];
        auto.
Qed.

Section DeepInsertMore.
Context {RT : Runtime}.
Variable create : TypedService.CreateFn.

Lemma bind_return_inv {A B} (m : M A) (k : A -> M B) (w w' : World) (b : B) :
  bind m k w = (Return b, w') ->
  exists a w1, m w = (Return a, w1) /\ k a w1 = (Return b, w').
Proof.
  unfold bind. destruct (m w) as [[a|e|] w1]; intros H; try discriminate.
  exists a, w1. split; [reflexivity | exact H].
Qed.

Ltac peel H :=
  repeat match type of H with
         | bind _ _ _ = (Return _, _) =>
             apply bind_return_inv in H; destruct H as (? & ? & _ & H)
         | (if ?b then _ else _) _ = _ => destruct b
         | (match ?x with _ => _ end) _ = _ => destruct x
         | throw _ _ = _ => discriminate H
         | ret _ _ = _ => inversion H; subst; clear H
         end.

(** Once set, [reSaveRequired] stays set. *)
Lemma deepInsertStep_keeps_flag (this : EntityType) (ctx : option RequestContext)
    (body : Value) (nav : string * NavOptions) (w w' : World) (b : bool) (v : Value) :
  TypedService.deepInsertStep create this ctx (true, body) nav w = (Return (b, v), w') ->
  b = true.
Proof.
  intros H. unfold TypedService.deepInsertStep in H. cbv zeta in H.
  cbn [fst snd] in H. peel H; reflexivity.
Qed.

Lemma deepInsertLoop_keeps_flag (this : EntityType) (ctx : option RequestContext)
    (navs : list (string * NavOptions)) :
  forall (body : Value) (w w' : World) (b : bool) (v : Value),
    TypedService.deepInsertLoop create this ctx navs (true, body) w
    = (Return (b, v), w') ->
    b = true.
Proof.
  induction navs as [|nav navs IH]; intros body w w' b v H; simpl in H.
  - inversion H. reflexivity.
  - apply bind_return_inv in H. destruct H as ([b1 v1] & w1 & Hstep & H).
    apply deepInsertStep_keeps_flag in Hstep. subst b1. eapply IH. exact H.
Qed.

(** A navigation the body does not carry is passed over. *)
Lemma deepInsertLoop_skips (this : EntityType) (ctx : option RequestContext)
    (navs : list (string * NavOptions)) (st : bool * Value) (w : World) :
  (forall nav, In nav navs -> hasOwnProperty (snd st) (fst nav) = Val false) ->
  TypedService.deepInsertLoop create this ctx navs st w = (Return st, w).
Proof.
  induction navs as [|nav navs IH]; intros Hnone; simpl; [reflexivity|].
  unfold bind at 1, TypedService.deepInsertStep.
  rewrite (Hnone nav (or_introl eq_refl)). cbn.
  apply IH. intros nav' Hin. apply Hnone. right. exact Hin.
Qed.

(** X12. When the body has none of the navigation properties of the
    entity type as an own property, [_deepInsert] creates nothing: it
    returns [reSaveRequired = false] and leaves the body and the world as
    they were, whatever the kinds of the navigations. *)
Theorem deepInsert_without_navigation_data (this : EntityType) (body : Value)
    (ctx : option RequestContext) (w : World) :
  (forall nav, In nav (getODataEntityNavigations this) ->
     hasOwnProperty body (fst nav) = Val false) ->
  TypedService._deepInsert create this body ctx w = (Return (false, body), w).
Proof.
  intros Hnone. unfold TypedService._deepInsert.
  apply deepInsertLoop_skips. exact Hnone.
Qed.


(** X14. A 'OneToMany' navigation whose value is an array. Of an empty
    array nothing is created, and the body then holds an empty array under
    the navigation name. With one element, the element is given the key
    of the body under the foreign key and is created; what that creation
    throws, [_deepInsert] throws; when it answers, the body holds the
    array of the one created entity under the navigation name. Either
    way the other properties of the body and [reSaveRequired] are as
    before. An element that cannot take the foreign key makes
    [_deepInsert] throw before anything is created. *)
Theorem deepInsert_one_to_many (this : EntityType) (body : Value)
    (ctx : option RequestContext) (pre post : list (string * NavOptions))
    (name : string) (opts : NavOptions) (w w1 : World) (st : bool * Value)
    (items : list Value) (props : Props) (fkValue : Value) :
  getODataEntityNavigations this = pre ++ (name, opts) :: post ->
  TypedService.deepInsertLoop create this ctx pre (false, body) w = (Return st, w1) ->
  hasOwnProperty (snd st) name = Val true ->
  member (snd st) name = Val (VArr items props) ->
  nav_type opts = "OneToMany"%string ->
  member (snd st) (TypedService.key_name this) = Val fkValue ->
  let target := nav_entity opts in
  let fk := nav_foreignKey opts in
  let goes_on (created : list Value) (w2 : World) : Prop :=
    exists body',
      TypedService._deepInsert create this body ctx w
      = TypedService.deepInsertLoop create this ctx post (fst st, body') w2
      /\ member body' name = Val (VArr created [])
      /\ (forall k, k <> name -> member body' k = member (snd st) k) in
  (items = [] -> goes_on [] w1)
  /\ (forall navigationItem item,
        items = [navigationItem] ->
        assign navigationItem fk fkValue = Val item ->
        (forall created w2,
           create target item ctx w1 = (Return created, w2) -> goes_on [created] w2)
        /\ (forall e w2,
              create target item ctx w1 = (Throw e, w2) ->
              TypedService._deepInsert create this body ctx w = (Throw e, w2)))
  /\ (forall navigationItem rest e,
        items = navigationItem :: rest ->
        assign navigationItem fk fkValue = Err e ->
        TypedService._deepInsert create this body ctx w = (Throw e, w1)).
Proof.
  intros Hnavs Hpre Hown Hmem Htype Hkey target fk goes_on.
  assert (Hstep : TypedService.deepInsertStep create this ctx st (name, opts) w1
                  = (created <- TypedService.create_all create target fk fkValue ctx items ;;
                     body' <- lift (assign (snd st) name (VArr created [])) ;;
                     ret (fst st, body')) w1).
  { unfold TypedService.deepInsertStep. cbn [fst snd].
    rewrite Hown. cbn [lift]. unfold bind at 1. cbn [ret].
    rewrite Hmem. unfold bind at 1. cbn [lift ret]. rewrite Htype.
    cbn [String.eqb Ascii.eqb Bool.eqb].
    rewrite Hkey. unfold bind at 1. cbn [lift ret]. reflexivity. }
  assert (Hloop : TypedService._deepInsert create this body ctx w
                  = (st' <- TypedService.deepInsertStep create this ctx st (name, opts) ;;
                     TypedService.deepInsertLoop create this ctx post st') w1).
  { unfold TypedService._deepInsert. rewrite Hnavs.
    rewrite (deepInsertLoop_app create this ctx pre _ _ st w w1 Hpre). reflexivity. }
  assert (Hgo : forall created w2,
            TypedService.create_all create target fk fkValue ctx items w1
            = (Return created, w2) ->
            goes_on created w2).
  { intros created w2 Hall.
    destruct (hasOwnProperty_assign _ _ (VArr created []) Hown) as [b1 Hb1].
    destruct (member_assign _ _ _ _ Hb1) as [Hr1 [Ho1 _]].
    exists b1. split; [|split; [exact Hr1 | exact Ho1]].
    rewrite Hloop. unfold bind at 1. rewrite Hstep.
    rewrite (bind_returns _ _ _ _ _ Hall), Hb1. reflexivity. }
  assert (Hthrow : forall e w2,
            TypedService.create_all create target fk fkValue ctx items w1
            = (Throw e, w2) ->
            TypedService._deepInsert create this body ctx w = (Throw e, w2)).
  { intros e w2 Hall. rewrite Hloop. unfold bind at 1. rewrite Hstep.
    unfold bind at 1. rewrite Hall. reflexivity. }
  split; [|split].
  - intros ->. apply Hgo. reflexivity.
  - intros navigationItem item -> Hitem. split.
    + intros created w2 Hc. apply Hgo. cbn [TypedService.create_all].
      rewrite Hitem, bind_lift_val. unfold bind. rewrite Hc. reflexivity.
    + intros e w2 Hc. apply Hthrow. cbn [TypedService.create_all].
      rewrite Hitem, bind_lift_val. unfold bind. rewrite Hc. reflexivity.
  - intros navigationItem rest e -> Hitem. apply Hthrow.
    destruct rest; cbn [TypedService.create_all]; rewrite Hitem; reflexivity.
Qed.

End DeepInsertMore.

(** ** The inbound payload *)

Section Payload.
Context {RT : Runtime}.

Lemma has_prop_set_prop_other (k k' : string) (v : Value) (ps : Props) :
  k' <> k -> has_prop k' (set_prop k v ps) = has_prop k' ps.
Proof.
  intros Hne. apply String.eqb_neq in Hne.
  induction ps as [|[k0 v0] ps IH]; simpl.
  - rewrite Hne. reflexivity.
  - destruct (String.eqb k k0) eqn:E; simpl.
    + apply String.eqb_eq in E. subst k0. rewrite Hne. reflexivity.
    + destruct (String.eqb k' k0); [reflexivity | exact IH].
Qed.

(** The walk over indices leaves every other key alone. *)
Lemma convert_indices_other (this : EntityType) (k : string) (indices : list nat) :
  (forall i, In i indices -> k <> pretty i) ->
  forall ps,
    let ps' := fold_left (fun ps index => TypedService.convert_at this (pretty index) ps)
                 indices ps in
    get_prop k ps' = get_prop k ps /\ has_prop k ps' = has_prop k ps.
Proof.
  induction indices as [|i indices IH]; intros Hk ps; [split; reflexivity|].
  cbn [fold_left].
  destruct (IH (fun j Hj => Hk j (or_intror Hj))
              (TypedService.convert_at this (pretty i) ps)) as [Hg Hh].
  cbv zeta in Hg, Hh. rewrite Hg, Hh.
  unfold TypedService.convert_at. destruct (truthy (getType this (pretty i))).
  - rewrite get_prop_set_prop_other, has_prop_set_prop_other
      by (apply Hk; left; reflexivity). split; reflexivity.
  - split; reflexivity.
Qed.

(** X15. [_transformInboundPayload] on an object. When the object has no
    numeric [length], the keys of the body and their order are kept; the
    value of every key that has an EDM type on the entity type is replaced
    by its conversion to that type, the other values are left as they
    are; a key the body does not have is not added. When the object has a
    numeric [length], [forEach] walks the indices below it and not the
    keys: every key that is not such an index keeps its value, typed or
    not. *)
Theorem transformInboundPayload_by_key (this : EntityType) (props : Props) :
  (TypedService.isLength (get_prop "length" props) = None ->
   exists props',
     TypedService._transformInboundPayload this (VObj props) = Val (VObj props')
     /\ map fst props' = map fst props
     /\ forall k,
          has_prop k props' = has_prop k props
          /\ get_prop k props'
             = if andb (has_prop k props) (truthy (getType this k))
               then Literal_convert (getType this k) (get_prop k props)
               else get_prop k props)
  /\ (forall length,
        TypedService.isLength (get_prop "length" props) = Some length ->
        exists props',
          TypedService._transformInboundPayload this (VObj props) = Val (VObj props')
          /\ forall k,
               (forall index, index < length -> k <> pretty index) ->
               get_prop k props' = get_prop k props
               /\ has_prop k props' = has_prop k props).
Proof.
  split.
  - intros Hlen. unfold TypedService._transformInboundPayload. rewrite Hlen.
    eexists. split; [reflexivity|]. cbv zeta. clear Hlen. split.
    + induction props as [|[k v] ps IH]; [reflexivity|].
      cbn [map fst]. f_equal; [|exact IH].
      destruct (truthy (getType this k)); reflexivity.
    + intros k.
      induction props as [|[k0 v0] ps [IH1 IH2]]; [split; reflexivity|].
      cbn [map fst snd].
      destruct (truthy (getType this k0)) eqn:Ht; cbn [has_prop get_prop];
        destruct (String.eqb k k0) eqn:E; cbn [andb]; rewrite ?IH1;
        try (split; [reflexivity|]); try exact IH2.
      * apply String.eqb_eq in E. subst k0. rewrite Ht. reflexivity.
      * apply String.eqb_eq in E. subst k0. rewrite Ht. reflexivity.
  - intros length Hlen. unfold TypedService._transformInboundPayload. rewrite Hlen.
    eexists. split; [reflexivity|]. intros k Hk.
    apply convert_indices_other. intros i Hi. apply Hk.
    apply in_seq in Hi. lia.
Qed.

End Payload.

(** ** [find]: the query argument *)

Section FindEdges.
Context {RT : Runtime}.

(** X16. A query the parser rejects: [find], of the service and of the
    controller alike, throws the parser's error before anything else
    happens: no repository call, no hook, the world is as it was. *)
Theorem find_rejected_query (this : EntityType) (query : QueryArg) (e : Error)
    (w : World) :
  parse_query query = Some (Err e) ->
  (forall ctx, TypedService.find this query ctx w = (Throw e, w))
  /\ (forall ctx, TypedController.find this query ctx w = (Throw e, w)).
Proof.
  intros Hq. split; intros ctx.
  - unfold TypedService.find, TypedService.find_data. rewrite Hq. reflexivity.
  - unfold TypedController.find. rewrite Hq. reflexivity.
Qed.

(** X17. A falsy query (none, or the empty string): [find] does not call
    the parser and makes one repository call, [find()]; the array it
    loads has no [inlinecount]. On an empty result the service returns at
    once, no hook being run, while the controller runs the [afterLoad]
    hooks all the same. *)
Theorem find_without_query (this : EntityType) (query : QueryArg) (w : World)
    (data : list Value) (db' : DB) :
  parse_query query = None ->
  repo_find this (w_db w) = (Val data, db') ->
  let w1 := mkWorld db' (w_trace w ++ [RepoFind this]) (w_console w) (w_pending w) in
  (forall ctx r w',
     TypedService.find this query ctx w = (r, w') ->
     loaded this (VArr data []) w1 r w')
  /\ (forall ctx r w',
        TypedController.find this query ctx w = (r, w') ->
        found_outcome this (VArr data []) w1 r w')
  /\ (data = [] ->
      forall ctx, TypedService.find this query ctx w = (Return (VArr [] []), w1)).
Proof.
  intros Hq Hfind w1.
  assert (Hs : forall ctx r w',
             TypedService.find this query ctx w = (r, w') ->
             loaded this (VArr data []) w1 r w').
  { intros ctx r w' H. unfold TypedService.find, TypedService.find_data in H.
    rewrite Hq in H.
    rewrite bind_assoc, (bind_call_val _ (repo_find this) _ _ _ _ Hfind) in H.
    cbv beta in H. rewrite bind_ret in H. fold w1 in H. unfold loaded.
    destruct data as [|x data]; [inversion H; split; reflexivity|].
    destruct (Service_executeHooks_loop this
                (TypedService.hookCtx ctx afterLoad (VArr (x :: data) []) VUndefined None)
                afterLoad eq_refl) as [c [Hc [Hd Heq]]].
    rewrite Heq in H. apply load_hooks_outcome in H; [|exact Hc].
    rewrite Hd in H. exact H. }
  split; [exact Hs|]. split.
  - intros ctx r w' H. unfold TypedController.find in H. rewrite Hq in H.
    rewrite bind_assoc, (bind_call_val _ (repo_find this) _ _ _ _ Hfind) in H.
    cbv beta in H. rewrite bind_ret in H. fold w1 in H.
    destruct (Controller_executeHooks_loop this
                (TypedController.hookCtx ctx afterLoad (VArr data []) VUndefined None)
                afterLoad eq_refl) as [c [Hc [Hd Heq]]].
    rewrite Heq in H. apply load_hooks_outcome in H; [|exact Hc].
    rewrite Hd in H. exact H.
  - intros -> ctx.
    destruct (TypedService.find this query ctx w) as [r w'] eqn:E.
    destruct (Hs ctx r w' E) as [-> ->]. reflexivity.
Qed.

End FindEdges.

(** ** The context a hook receives *)

Section HookContexts.
Context {RT : Runtime}.

(** In one run of the loop every hook receives the context of the run,
    the data object apart. *)
Lemma run_hooks_contexts (isEvent : bool) (handler : Handler) (hooks : list Hook) :
  forall (ctx : HookContext) (w : World) r w',
    run_hooks isEvent handler hooks ctx w = (r, w') ->
    exists evs,
      w_trace w' = w_trace w ++ evs
      /\ Forall (fun ev => match ev with
                           | HookAwaited _ c _ | HookDispatched _ c =>
                               set_data VUndefined c = set_data VUndefined ctx
                           | _ => False
                           end) evs.
Proof.
  induction hooks as [|h hooks IH]; intros ctx w r w' H; simpl in H.
  - inversion H; subst. exists []. split; [symmetry; apply app_nil_r | constructor].
  - destruct isEvent.
    + unfold bind at 1, dispatch_hook in H.
      destruct (IH _ _ _ _ H) as [evs [Htr Hall]]. simpl in Htr.
      exists (HookDispatched h ctx :: evs). split.
      * rewrite Htr, <- app_assoc. reflexivity.
      * constructor; [reflexivity | exact Hall].
    + unfold bind at 1, await_hook in H.
      destruct (hook_execute h ctx (w_db w)) as [[d|e] db'].
      * destruct (IH _ _ _ _ H) as [evs [Htr Hall]]. simpl in Htr.
        exists (HookAwaited h ctx true :: evs). split.
        { rewrite Htr, <- app_assoc. reflexivity. }
        constructor; [reflexivity|].
        eapply Forall_impl; [exact Hall|].
        intros [ | | | | | | | |h' c b|h' c]; simpl; auto.
      * inversion H; subst. simpl. exists [HookAwaited h ctx false]. split;
          [reflexivity|]. constructor; [reflexivity | constructor].
Qed.

(** X18. What [TypedService._executeHooks] hands to the hooks: every hook
    of the run receives a context with the hook type and key of the
    caller, an entity type (the caller's, or by default the service's) and
    a bound [getService]; an event hook never receives the transaction
    context, a hook proper receives the caller's. *)
Theorem Service_hook_context (this : EntityType) (ctx : HookContext) (t : HookType)
    (w : World) r w' :
  hc_hookType ctx = Some t ->
  TypedService._executeHooks this ctx w = (r, w') ->
  exists evs,
    w_trace w' = w_trace w ++ evs
    /\ Forall (fun ev =>
                 match ev with
                 | HookAwaited _ c _ | HookDispatched _ c =>
                     hc_hookType c = Some t
                     /\ hc_key c = hc_key ctx
                     /\ hc_entityType c = Some (default this (hc_entityType ctx))
                     /\ hc_getService c = true
                     /\ hc_txContext c
                        = (if includes HookEvents t then None else hc_txContext ctx)
                 | _ => False
                 end) evs.
Proof.
  intros Ht H. unfold TypedService._executeHooks in H.
  assert (Hfields : forall c0 c : HookContext,
            set_data VUndefined c = set_data VUndefined c0 ->
            hc_hookType c = hc_hookType c0 /\ hc_key c = hc_key c0
            /\ hc_entityType c = hc_entityType c0
            /\ hc_getService c = hc_getService c0
            /\ hc_txContext c = hc_txContext c0).
  { intros c0 c Heq. unfold set_data in Heq. injection Heq as -> -> -> -> _ -> _.
    repeat split. }
  destruct ctx as [et ht d k tx cx gs em]. simpl in Ht. subst ht.
  destruct et as [e0|]; destruct gs; simpl in H |- *;
    destruct (includes HookEvents t);
    apply run_hooks_contexts in H; destruct H as [evs [Htr Hall]];
    exists evs; (split; [exact Htr|]);
    (eapply Forall_impl; [exact Hall|]);
    intros [ | | | | | | | |h' c b|h' c]; simpl; auto;
    intros Heq; apply Hfields in Heq;
    destruct Heq as (H1 & H2 & H3 & H4 & H5);
    rewrite H1, H2, H3, H4, H5; repeat split.
Qed.

End HookContexts.

(** ** [create] with nothing to insert deeply *)

Section CreatePlain.
Context {RT : Runtime}.

(** X19. [create] of an instance that, once inserted, has none of the
    navigation properties: after the [beforeCreate] hooks the only
    repository call is the one [insert]; no nested create, no [save].
    From there [create] is the run of the [afterSave] hooks on the context
    that carries the instance [insert] answered, and it returns that
    instance as the hooks left it (or rethrows the rejection of an
    awaited hook). One level of nesting is all it needs. *)
Theorem create_without_navigation_data (fuel : nat) (this : EntityType)
    (body body1 : Value) (ctx : option RequestContext) (w w1 : World)
    (hc : HookContext) (inst : Value) (db2 : DB) :
  TypedService._transformInboundPayload this body = Val body1 ->
  TypedService._executeHooks this
    (TypedService.hookCtx ctx beforeCreate (repo_create this body1) VUndefined None) w
  = (Return hc, w1) ->
  repo_insert this (hc_data hc) (w_db w1) = (Val inst, db2) ->
  (forall nav, In nav (getODataEntityNavigations this) ->
     hasOwnProperty inst (fst nav) = Val false) ->
  let w2 := mkWorld db2 (w_trace w1 ++ [RepoInsert this (hc_data hc)])
              (w_console w1) (w_pending w1) in
  let hooks := findHooks this afterSave in
  let isEvent := includes HookEvents afterSave in
  let c := service_context this ctx afterSave inst VUndefined in
  TypedService.create (S fuel) this body ctx w
  = hooks_then_data isEvent ConsoleError hooks c w2
  /\ forall r w',
       TypedService.create (S fuel) this body ctx w = (r, w') ->
       hooks_outcome isEvent hooks c w2 r w'.
Proof.
  intros Hbody Hbefore Hins Hnone w2 hooks isEvent c.
  assert (Heq : TypedService.create (S fuel) this body ctx w
                = hooks_then_data isEvent ConsoleError hooks c w2).
  { cbn [TypedService.create]. rewrite Hbody, bind_lift_val.
    rewrite (bind_returns _ _ _ _ _ Hbefore).
    rewrite (bind_call_val _ (repo_insert this _) _ _ _ _ Hins). fold w2.
    unfold TypedService._deepInsert.
    rewrite (bind_returns _ _ _ _ _
               (deepInsertLoop_skips _ this ctx _ (false, inst) w2 Hnone)).
    cbn [fst snd]. rewrite bind_ret, Service_executeHooks_exact. reflexivity. }
  split; [exact Heq|]. intros r w' H. rewrite Heq in H.
  apply (run_hooks_outcome _ _ _ _ _ _ _ H).
Qed.

End CreatePlain.

(** ** The further properties at work *)

(** A teacher without classes or profile: nothing is created. *)
Lemma deepInsert_without_navigation_data_witness :
  let RT := Demo.runtime Demo.school in
  let w := @Demo.world Demo.school Demo.two_teachers in
  TypedService._deepInsert (TypedService.create 1) Demo.Teacher
    (Demo.teacher 3 "Cy") None w
  = (Return (false, Demo.teacher 3 "Cy"), w).
Proof.
  intros RT w.
  apply (@deepInsert_without_navigation_data RT (TypedService.create 1) Demo.Teacher).
  intros nav Hin. simpl in Hin. destruct Hin as [<-|[<-|[]]]; reflexivity.
Defined.


(** A teacher that comes with one class: the class is given the teacher's
    key and created, and the teacher's [classes] is the array of it. *)
Lemma deepInsert_one_to_many_witness :
  let RT := Demo.runtime Demo.school in
  let w := @Demo.world Demo.school [] in
  let c1 := VObj [("id"%string, VNum (NInt 10))] in
  let item := VObj [("id"%string, VNum (NInt 10)); ("teacherId"%string, VNum (NInt 1))] in
  let body := VObj [("id"%string, VNum (NInt 1)); ("classes"%string, VArr [c1] [])] in
  exists body' w2,
    TypedService._deepInsert (TypedService.create 1) Demo.Teacher body None w
    = TypedService.deepInsertLoop (TypedService.create 1) Demo.Teacher None
        [("profile"%string, mkNav "OneToOne" Demo.Profile "profileId")]
        (false, body') w2
    /\ member body' "classes" = Val (VArr [item] [])
    /\ member body' "id" = Val (VNum (NInt 1))
    /\ w_trace w2 = [RepoInsert Demo.Class item].
Proof.
  intros RT w c1 item body.
  pose (w2 := @mkWorld RT [(Demo.Class, item)] [RepoInsert Demo.Class item] [] []).
  destruct (@deepInsert_one_to_many RT (TypedService.create 1) Demo.Teacher body None
              [] [("profile"%string, mkNav "OneToOne" Demo.Profile "profileId")]
              "classes" (mkNav "OneToMany" Demo.Class "teacherId")
              w w (false, body) [c1] [] (VNum (NInt 1))
              eq_refl eq_refl eq_refl eq_refl eq_refl eq_refl)
    as (_ & Hone & _).
  destruct (Hone c1 item eq_refl eq_refl) as [Hret _].
  destruct (Hret item w2 eq_refl) as (body' & Heq & Hname & Hother).
  exists body', w2. split; [exact Heq|]. split; [exact Hname|].
  split; [apply (Hother "id"%string); discriminate | reflexivity].
Defined.

(** A parser that rejects: [find] throws its error; the trace stays empty. *)
Lemma find_rejected_query_witness :
  let RT := DemoParser.runtime Demo.plain in
  let w := @DemoParser.world Demo.plain Demo.two_teachers in
  TypedService.find Demo.Teacher (QString "count") None w
    = (Throw DemoParser.syntaxError, w)
  /\ TypedController.find Demo.Teacher (QString "count") Demo.request w
     = (Throw DemoParser.syntaxError, w).
Proof.
  intros RT w.
  destruct (@find_rejected_query RT Demo.Teacher (QString "count")
              DemoParser.syntaxError w eq_refl) as [Hs Hc].
  split; [apply Hs | apply Hc].
Defined.

(** An empty table and a registered [afterLoad] hook: the service returns
    the empty array after the one [find()]; the controller runs the hook. *)
Lemma find_without_query_witness :
  let RT := Demo.runtime (Demo.hooked []) in
  let w := @Demo.world (Demo.hooked []) [] in
  let w1 := @mkWorld RT [] [RepoFind Demo.Teacher] [] [] in
  TypedService.find Demo.Teacher (QString "") None w = (Return (VArr [] []), w1)
  /\ found_outcome Demo.Teacher (VArr [] []) w1
       (fst (TypedController.find Demo.Teacher (QString "") Demo.request w))
       (snd (TypedController.find Demo.Teacher (QString "") Demo.request w)).
Proof.
  intros RT w w1.
  destruct (@find_without_query RT Demo.Teacher (QString "") w [] [] eq_refl eq_refl)
    as (_ & Hc & Hs).
  split; [apply Hs; reflexivity|].
  apply (Hc Demo.request). apply surjective_pairing.
Defined.

(** The [afterSave] event of [Teacher], raised with a transaction context:
    the dispatched hook receives a context without it. *)
Lemma Service_hook_context_witness :
  let RT := Demo.runtime (Demo.hooked []) in
  let w := @Demo.world (Demo.hooked []) [] in
  let ctx := TypedService.hookCtx (Some Demo.request) afterSave VUndefined
               (VNum (NInt 1)) None in
  exists c,
    w_trace (snd (TypedService._executeHooks Demo.Teacher ctx w))
    = [HookDispatched (HookProcessor 3) c]
    /\ hc_txContext c = None
    /\ hc_entityType c = Some Demo.Teacher
    /\ hc_key c = VNum (NInt 1).
Proof.
  intros RT w ctx.
  destruct (@Service_hook_context RT Demo.Teacher ctx afterSave w _ _ eq_refl
              (surjective_pairing _)) as [evs [Htr Hall]].
  eexists. split; [reflexivity|].
  change (w_trace (snd (TypedService._executeHooks Demo.Teacher ctx w)))
    with ([] ++ [HookDispatched (HookProcessor 3)
                   (delete_txContext (set_getService (set_entityType Demo.Teacher ctx)))])
    in Htr.
  apply app_inv_head in Htr. subst evs.
  apply Forall_inv in Hall. destruct Hall as (_ & Hk & He & _ & Htx).
  split; [exact Htx|]. split; [exact He | exact Hk].
Defined.

(** A teacher without classes or profile, no hooks: one [insert] is all
    that [create] does, and it returns the teacher. *)
Lemma create_without_navigation_data_witness :
  let RT := Demo.runtime Demo.school in
  let w := @Demo.world Demo.school [] in
  let body := Demo.teacher 3 "Cy" in
  TypedService.create 1 Demo.Teacher body None w
  = (Return body,
     @mkWorld RT [(Demo.Teacher, body)] [RepoInsert Demo.Teacher body] [] []).
Proof.
  intros RT w body.
  destruct (@create_without_navigation_data RT 0 Demo.Teacher body body None w w
              (mkHookContext (Some Demo.Teacher) (Some beforeCreate) body VUndefined
                 None None true false)
              body [(Demo.Teacher, body)] eq_refl eq_refl eq_refl) as [Heq _].
  - intros nav Hin. simpl in Hin. destruct Hin as [<-|[<-|[]]]; reflexivity.
  - exact (eq_trans Heq eq_refl).
Defined.

(** The driver answers the count as the string 2: the service hands on
    the number 2. *)
Lemma Service_find_inlinecount_witness :
  let RT := Demo.runtime Demo.mysql in
  let w := @Demo.world Demo.mysql Demo.two_teachers in
  let q := QString "$count=true" in
  let rows := [Demo.teacher 1 "Ann"; Demo.teacher 2 "Bob"] in
  exists w3,
    TypedService.find Demo.Teacher q None w
    = (Return (VArr rows [("inlinecount"%string, VNum (NInt 2))]), w3)
    /\ length (w_trace w3) = 3.
Proof.
  intros RT w q rows.
  destruct (@Service_find_inlinecount RT Demo.Teacher q None w "$count=true"%string
              [VObj [("id"%string, VNum (NInt 1))]; VObj [("id"%string, VNum (NInt 2))]]
              Demo.two_teachers [VNum (NInt 1); VNum (NInt 2)] rows Demo.two_teachers
              eq_refl eq_refl eq_refl eq_refl) as [_ [H _]].
  destruct (H eq_refl [VObj [("total"%string, VStr "2")]] Demo.two_teachers (VStr "2")
              eq_refl eq_refl) as [Hsome _].
  eexists. split; [exact (eq_trans (Hsome (VNum (NInt 2)) eq_refl) eq_refl) | reflexivity].
Defined.

(** The same driver: the controller hands on the string. *)
Lemma Controller_find_inlinecount_witness :
  let RT := Demo.runtime Demo.mysql in
  let w := @Demo.world Demo.mysql Demo.two_teachers in
  let q := QString "$count=true" in
  let rows := [VObj [("id"%string, VNum (NInt 1))]; VObj [("id"%string, VNum (NInt 2))]] in
  exists w2,
    TypedController.find Demo.Teacher q Demo.request w
    = (Return (VArr rows [("inlinecount"%string, VStr "2")]), w2)
    /\ length (w_trace w2) = 2.
Proof.
  intros RT w q rows.
  destruct (@Controller_find_inlinecount RT Demo.Teacher q Demo.request w
              "$count=true"%string rows Demo.two_teachers eq_refl eq_refl)
    as [_ [H _]].
  eexists. split.
  - exact (eq_trans
             (H eq_refl [VObj [("total"%string, VStr "2")]] Demo.two_teachers (VStr "2")
                eq_refl eq_refl) eq_refl).
  - reflexivity.
Defined.

(** ** Parameter annotations *)

Section ParamFacts.
Import ODataParams.

Lemma indexOf_nth_error (name : string) (names : list string) :
  forall i, indexOf name names = Some i -> nth_error names i = Some name.
Proof.
  induction names as [|n names IH]; intros i H; simpl in H; [discriminate|].
  destruct (String.eqb n name) eqn:E.
  - injection H as <-. apply String.eqb_eq in E. subst n. reflexivity.
  - destruct (indexOf name names) as [j|]; [|discriminate].
    injection H as <-. simpl. apply IH. reflexivity.
Qed.

Lemma indexOf_In (name : string) (names : list string) :
  indexOf name names <> None <-> In name names.
Proof.
  induction names as [|n names IH]; simpl.
  - split; [congruence | intros []].
  - destruct (String.eqb n name) eqn:E.
    + apply String.eqb_eq in E. split; [intros _; left; exact E | discriminate].
    + apply String.eqb_neq in E. split.
      * intros H. right. apply IH. destruct (indexOf name names); congruence.
      * intros [H|H]; [contradiction|]. apply IH in H.
        destruct (indexOf name names); congruence.
Qed.

Lemma getter_defineMetadata (key k : ParamKey) (v : option string) (m q : string)
    (t : ParamMeta) :
  createMethodParameterGetter k (defineMetadata key v m t) q
  = if andb (bool_decide (k = key)) (String.eqb q m) then v
    else createMethodParameterGetter k t q.
Proof. reflexivity. Qed.

Lemma parameter_records (key : ParamKey) (name : string) (names : list string)
    (m : string) (target : ParamMeta) :
  In name names ->
  createMethodParameterGetter key
    (parameter name (createMethodParameterAnnotation key) names m target) m
  = Some name.
Proof.
  intros Hin. unfold parameter.
  destruct (indexOf name names) as [i|] eqn:E.
  - apply indexOf_nth_error in E. unfold createMethodParameterAnnotation.
    rewrite getter_defineMetadata, bool_decide_eq_true_2, String.eqb_refl by reflexivity.
    exact E.
  - apply indexOf_In in Hin. contradiction.
Qed.

Lemma parameter_elsewhere (key : ParamKey) (name : string) (names : list string)
    (m : string) (target : ParamMeta) (k : ParamKey) (q : string) :
  (k, q) <> (key, m) ->
  createMethodParameterGetter k
    (parameter name (createMethodParameterAnnotation key) names m target) q
  = createMethodParameterGetter k target q.
Proof.
  intros Hne. unfold parameter.
  destruct (indexOf name names) as [i|]; [|reflexivity].
  unfold createMethodParameterAnnotation. rewrite getter_defineMetadata.
  destruct (bool_decide (k = key)) eqn:Ek; [|reflexivity].
  destruct (String.eqb q m) eqn:Eq; [|reflexivity].
  apply bool_decide_eq_true_1 in Ek. apply String.eqb_eq in Eq. congruence.
Qed.

(** X20. [parameter(name, annotation)] on a member that has a parameter
    called [name] records that name under the annotation's key, so that
    the getter of the key answers it; on a member without such a
    parameter it changes nothing. Either way the metadata under other
    keys and of other members stays as it was. *)
Theorem parameter_by_name (key : ParamKey) (name : string) (names : list string)
    (m : string) (target : ParamMeta) :
  let target' := parameter name (createMethodParameterAnnotation key) names m target in
  (In name names -> createMethodParameterGetter key target' m = Some name)
  /\ (~ In name names -> target' = target)
  /\ (forall k q, (k, q) <> (key, m) ->
        createMethodParameterGetter k target' q = createMethodParameterGetter k target q).
Proof.
  intros target'. subst target'. split; [|split].
  - apply parameter_records.
  - intros Hnot. unfold parameter.
    destruct (indexOf name names) as [i|] eqn:E; [|reflexivity].
    exfalso. apply Hnot. apply indexOf_In. congruence.
  - intros k q. apply parameter_elsewhere.
Qed.

Lemma parameters_cons (p : string * ParamDecorator) (ps : list (string * ParamDecorator))
    (names : list string) (m : string) (target : ParamMeta) :
  parameters (p :: ps) names m target
  = parameters ps names m (parameter (fst p) (snd p) names m target).
Proof. reflexivity. Qed.

Lemma parameters_other_key (ps : list (string * ParamKey)) (names : list string)
    (m : string) (key : ParamKey) :
  ~ In key (map snd ps) ->
  forall target,
    createMethodParameterGetter key
      (parameters (map (fun p => (fst p, createMethodParameterAnnotation (snd p))) ps)
         names m target) m
    = createMethodParameterGetter key target m.
Proof.
  induction ps as [|[n k] ps IH]; intros Hnot target; [reflexivity|].
  cbn [map fst snd]. rewrite parameters_cons. cbn [fst snd].
  rewrite IH by (intros Hin; apply Hnot; right; exact Hin).
  apply parameter_elsewhere.
  intros Heq. injection Heq as ->. apply Hnot. left. reflexivity.
Qed.

(** X21. [parameters({...})] with one annotation per key: every
    annotation whose property names a parameter of the member is
    recorded, whatever the order of the properties. *)
Theorem parameters_by_name (ps : list (string * ParamKey)) (names : list string)
    (m : string) (target : ParamMeta) (name : string) (key : ParamKey) :
  List.NoDup (map snd ps) ->
  In (name, key) ps ->
  In name names ->
  createMethodParameterGetter key
    (parameters (map (fun p => (fst p, createMethodParameterAnnotation (snd p))) ps)
       names m target) m
  = Some name.
Proof.
  intros Hnd Hin Hname. revert target.
  induction ps as [|[n k] ps IH]; intros target; [destruct Hin|].
  cbn [map fst snd] in Hnd. inversion Hnd as [|k0 l0 Hk Hnd']; subst.
  cbn [map fst snd]. rewrite parameters_cons. cbn [fst snd].
  destruct Hin as [Heq|Hin].
  - injection Heq as -> ->.
    rewrite (parameters_other_key ps names m key Hk).
    apply parameter_records. exact Hname.
  - apply IH; assumption.
Qed.

End ParamFacts.

(** [parameters({ q: odata.query, b: odata.body })] on [find(b, q, ctx)]. *)
Lemma parameters_by_name_witness :
  let ps := [("q"%string, ODataParams.ODataQueryParameter);
             ("b"%string, ODataParams.ODataBodyParameter)] in
  let t := ODataParams.parameters
             (map (fun p => (fst p, ODataParams.createMethodParameterAnnotation (snd p))) ps)
             ["b"; "q"; "ctx"]%string "find" ODataParams.no_metadata in
  ODataParams.getQueryParameter t "find" = Some "q"%string
  /\ ODataParams.getBodyParameter t "find" = Some "b"%string.
Proof.
  intros ps t. split.
  - apply (parameters_by_name ps).
    + repeat constructor; simpl; intuition discriminate.
    + left. reflexivity.
    + right. left. reflexivity.
  - apply (parameters_by_name ps).
    + repeat constructor; simpl; intuition discriminate.
    + right. left. reflexivity.
    + left. reflexivity.
Defined.
